(** * SX127x LoRa driver (lora_optimized.py): shallow embedding and verification

    The driver talks to the radio over a chip-select framed serial bus.  The
    embedding keeps the layering of the Python source:

    - the constant classes [Registers], [Modes], [IRQFlags], [PAConfig] and
      [Config] become modules;
    - the [_config] dictionary, whose keys are fixed by [Config.DEFAULT],
      becomes the record [RadioConfig];
    - the chip is a simulated device ([Chip]): a register file, the packet
      buffer with its auto-advancing cursor, write-one-to-clear interrupt
      flags, and a script of hardware events that become visible at the
      start of bus frames;
    - the methods of class [LoRa] are state-passing functions in a small
      monad whose outcomes are a normal return, a raised exception (the
      state reached so far is kept) or an exhausted iteration budget for
      the polling loops;
    - the class [TBeam] of tbeam_optimized.py, which owns a [LoRa] object,
      is the module [TBeam]: its methods pass a node around that holds the
      driver's state next to the message buffer, the message counter and
      the LED.

    Python integers are [Z]; the floating point frequency is an exact
    rational ([Q]), so [int(x)] is truncation toward zero of the exact
    quotient. *)

From Stdlib Require Import ZArith QArith Qround Lia Lqa Bool.
From Stdlib.Strings Require Import String Ascii Byte.
From stdpp Require Import gmap list pretty.

Local Open Scope Z_scope.

(** * Part I: the driver and the chip *)

(** ** Constants *)

Module Registers.
Definition FIFO : Z := 0x00.
Definition OP_MODE : Z := 0x01.
Definition FRF_MSB : Z := 0x06.
Definition FRF_MID : Z := 0x07.
Definition FRF_LSB : Z := 0x08.
Definition PA_CONFIG : Z := 0x09.
Definition LNA : Z := 0x0c.
Definition FIFO_ADDR_PTR : Z := 0x0d.
Definition FIFO_TX_BASE_ADDR : Z := 0x0e.
Definition FIFO_RX_BASE_ADDR : Z := 0x0f.
Definition FIFO_RX_CURRENT_ADDR : Z := 0x10.
Definition IRQ_FLAGS : Z := 0x12.
Definition RX_NB_BYTES : Z := 0x13.
Definition PKT_RSSI_VALUE : Z := 0x1a.
Definition PKT_SNR_VALUE : Z := 0x1b.
Definition MODEM_CONFIG_1 : Z := 0x1d.
Definition MODEM_CONFIG_2 : Z := 0x1e.
Definition PREAMBLE_MSB : Z := 0x20.
Definition PREAMBLE_LSB : Z := 0x21.
Definition PAYLOAD_LENGTH : Z := 0x22.
Definition MODEM_CONFIG_3 : Z := 0x26.
Definition DETECTION_OPTIMIZE : Z := 0x31.
Definition DETECTION_THRESHOLD : Z := 0x37.
Definition SYNC_WORD : Z := 0x39.
Definition DIO_MAPPING_1 : Z := 0x40.
Definition VERSION : Z := 0x42.
Definition PA_DAC : Z := 0x4D.
End Registers.

Module Modes.
Definition SLEEP : Z := 0x00.
Definition STDBY : Z := 0x01.
Definition TX : Z := 0x03.
Definition RX_CONTINUOUS : Z := 0x05.
Definition LORA_MASK : Z := 0x80.
End Modes.

Module IRQFlags.
Definition TX_DONE : Z := 0x08.
Definition PAYLOAD_CRC_ERROR : Z := 0x20.
Definition RX_DONE : Z := 0x40.
End IRQFlags.

Module PAConfig.
Definition RFO_PIN : Z := 0.
Definition BOOST_PIN : Z := 1.
Definition PA_BOOST : Z := 0x80.
End PAConfig.

(** The [_config] dictionary.  [_init_config] creates exactly the keys of
    [Config.DEFAULT] and the setters assign to those keys only. *)
Record RadioConfig := mkConfig {
  frequency : Q;
  bandwidth : Z;
  spreading_factor : Z;
  coding_rate : Z;
  preamble_length : Z;
  tx_power : Z;
  crc : bool;
  implicit : bool;
  sync_word : Z;
  output_pin : Z
}.

Module Config.
Definition MAX_PKT_LENGTH : Z := 255.
Definition TX_BASE_ADDR : Z := 0x00.
Definition RX_BASE_ADDR : Z := 0x00.
Definition SX127X_VERSION : Z := 0x12.

Definition DEFAULT : RadioConfig :=
  {| frequency := 915 # 1;
     bandwidth := 250000;
     spreading_factor := 10;
     coding_rate := 5;
     preamble_length := 8;
     tx_power := 17;
     crc := false;
     implicit := false;
     sync_word := 0x12;
     output_pin := PAConfig.BOOST_PIN |}.

Definition BANDWIDTHS : list Z :=
  [7800; 10400; 15600; 20800; 31250; 41700; 62500; 125000; 250000].
End Config.

(** ** The simulated chip *)

(** What the hardware does on its own between two bus frames: it latches
    interrupt flags and updates its read-only status registers. *)
Inductive hw_event :=
  | HwIrq (bits : Z)
  | HwStatus (addr val : Z).

(** Register accesses as the chip sees them, in chronological order. *)
Inductive access :=
  | RegRead (addr val : Z)
  | RegWrite (addr val : Z).

Record Chip := mkChip {
  nss : bool;                (* level of the chip-select line; true = released *)
  latch : option Z;          (* address byte of the frame in progress *)
  regs : gmap Z Z;           (* register file *)
  fifo : gmap Z Z;           (* 256-byte packet buffer *)
  script : list hw_event;    (* hardware events still to happen *)
  bus_log : list access
}.

(** An 8-bit cell of a register file or of the packet buffer. *)
Definition peek (m : gmap Z Z) (a : Z) : Z := Z.land (default 0 (m !! a)) 0xff.

(** Registers owned by the hardware: read-only for the driver. *)
Definition status_reg (a : Z) : bool :=
  existsb (Z.eqb a)
    [Registers.FIFO_RX_CURRENT_ADDR; Registers.RX_NB_BYTES;
     Registers.PKT_RSSI_VALUE; Registers.PKT_SNR_VALUE; Registers.VERSION].

Definition hw_apply (e : hw_event) (r : gmap Z Z) : gmap Z Z :=
  match e with
  | HwIrq bits => <[Registers.IRQ_FLAGS := Z.lor (peek r Registers.IRQ_FLAGS) bits]> r
  | HwStatus a v => if status_reg a then <[a := v]> r else r
  end.

(** A frame starts: the next scripted event, if any, has happened. *)
Definition tick_regs (c : Chip) : gmap Z Z :=
  match script c with
  | [] => regs c
  | e :: _ => hw_apply e (regs c)
  end.

Definition hw_tick (c : Chip) : Chip :=
  {| nss := nss c; latch := latch c; regs := tick_regs c;
     fifo := fifo c; script := tail (script c); bus_log := bus_log c |}.

(** Register write as executed by the chip.  The buffer register stores at
    the cursor and advances it; interrupt flags are cleared by writing the
    bits that are set; status registers ignore writes. *)
Definition reg_write (a v : Z) (c : Chip) : Chip :=
  let log' := bus_log c ++ [RegWrite a v] in
  if a =? Registers.FIFO then
    let p := peek (regs c) Registers.FIFO_ADDR_PTR in
    {| nss := nss c; latch := latch c;
       regs := <[Registers.FIFO_ADDR_PTR := (p + 1) mod 256]> (regs c);
       fifo := <[p := v]> (fifo c); script := script c; bus_log := log' |}
  else if a =? Registers.IRQ_FLAGS then
    {| nss := nss c; latch := latch c;
       regs := <[Registers.IRQ_FLAGS :=
                   Z.land (peek (regs c) Registers.IRQ_FLAGS) (Z.lnot v)]> (regs c);
       fifo := fifo c; script := script c; bus_log := log' |}
  else if status_reg a then
    {| nss := nss c; latch := latch c; regs := regs c;
       fifo := fifo c; script := script c; bus_log := log' |}
  else
    {| nss := nss c; latch := latch c; regs := <[a := v]> (regs c);
       fifo := fifo c; script := script c; bus_log := log' |}.

Definition reg_read (a : Z) (c : Chip) : Z * Chip :=
  if a =? Registers.FIFO then
    let p := peek (regs c) Registers.FIFO_ADDR_PTR in
    let v := peek (fifo c) p in
    (v, {| nss := nss c; latch := latch c;
           regs := <[Registers.FIFO_ADDR_PTR := (p + 1) mod 256]> (regs c);
           fifo := fifo c; script := script c;
           bus_log := bus_log c ++ [RegRead a v] |})
  else
    let v := peek (regs c) a in
    (v, {| nss := nss c; latch := latch c; regs := regs c;
           fifo := fifo c; script := script c;
           bus_log := bus_log c ++ [RegRead a v] |}).

(** The three primitives the driver uses on its [cs] pin and [spi] object. *)
Definition cs_value (level : bool) (c : Chip) : Chip :=
  if level then
    {| nss := true; latch := None; regs := regs c; fifo := fifo c;
       script := script c; bus_log := bus_log c |}
  else
    hw_tick {| nss := false; latch := None; regs := regs c; fifo := fifo c;
               script := script c; bus_log := bus_log c |}.

Definition spi_write (b : Z) (c : Chip) : Chip :=
  if nss c then c
  else {| nss := nss c; latch := Some b; regs := regs c; fifo := fifo c;
          script := script c; bus_log := bus_log c |}.

Definition spi_write_readinto (out : Z) (c : Chip) : Z * Chip :=
  if nss c then (0, c)
  else match latch c with
       | None => (0, c)
       | Some a =>
           if Z.testbit a 7 then (0, reg_write (Z.land a 0x7f) out c)
           else reg_read (Z.land a 0x7f) c
       end.

(** ** The driver object and its monad *)

(** Lines the driver prints. *)
Inductive line :=
  | VersionRead (v : Z)
  | VersionWarning (v : Z)
  | ContinuingAnyway.

Record LoRa := mkLoRa {
  _config : RadioConfig;
  hw : Chip;                    (* what [spi] and [cs] are wired to *)
  clock : Z;                    (* milliseconds, as read by time.ticks_ms *)
  console : list line;
  _on_recv : bool;              (* a receive callback is installed *)
  inbox : list (list Z)         (* payloads handed to the callback *)
}.

(** Every one is a [ValueError] in Python; the constructor tells the raise
    site apart, and [BytesRange] remembers the value [bytes([v])] refused. *)
Inductive exn :=
  | BytesRange (v : Z)
  | PacketTooLarge
  | SpreadingFactorRange
  | MissingCs.

Inductive outcome (A : Type) :=
  | Returned (a : A) (s : LoRa)
  | Raised (e : exn) (s : LoRa)
  | OutOfFuel.
Arguments Returned {A} a s.
Arguments Raised {A} e s.
Arguments OutOfFuel {A}.

Definition M (A : Type) : Type := LoRa -> outcome A.

Definition ret {A} (a : A) : M A := fun s => Returned a s.
Definition raise {A} (e : exn) : M A := fun s => Raised e s.
Definition bind {A B} (m : M A) (k : A -> M B) : M B :=
  fun s => match m s with
           | Returned a s' => k a s'
           | Raised e s' => Raised e s'
           | OutOfFuel => OutOfFuel
           end.

Notation "'let*' x ':=' m 'in' k" := (bind m (fun x => k))
  (at level 10, x name, m at level 100, k at level 200, only parsing).
Notation "m ;;; k" := (bind m (fun _ => k))
  (at level 100, k at level 200, right associativity, only parsing).

Definition set_hw (c : Chip) (s : LoRa) : LoRa :=
  {| _config := _config s; hw := c; clock := clock s; console := console s;
     _on_recv := _on_recv s; inbox := inbox s |}.

Definition set_config (cfg : RadioConfig) (s : LoRa) : LoRa :=
  {| _config := cfg; hw := hw s; clock := clock s; console := console s;
     _on_recv := _on_recv s; inbox := inbox s |}.

Definition get_cfg : M RadioConfig := fun s => Returned (_config s) s.
Definition put_cfg (f : RadioConfig -> RadioConfig) : M unit :=
  fun s => Returned tt (set_config (f (_config s)) s).

(** [time.ticks_ms], [time.ticks_diff], [time.sleep_ms] and [print].  The
    millisecond counter of the model does not wrap around, so the
    difference of two readings is a subtraction, and only [sleep_ms] lets
    time pass. *)
Definition ticks_ms : M Z := fun s => Returned (clock s) s.
Definition ticks_diff (a b : Z) : Z := a - b.
Definition sleep_ms (n : Z) : M unit :=
  fun s => Returned tt
    {| _config := _config s; hw := hw s; clock := clock s + n;
       console := console s; _on_recv := _on_recv s; inbox := inbox s |}.
Definition print (l : line) : M unit :=
  fun s => Returned tt
    {| _config := _config s; hw := hw s; clock := clock s;
       console := console s ++ [l]; _on_recv := _on_recv s; inbox := inbox s |}.

(** [bytes([v])] accepts exactly 0..255. *)
Definition is_byte (v : Z) : bool := (0 <=? v) && (v <=? 255).

(** ** Register access *)

Definition _transfer (addr value : Z) : M Z :=
  fun s =>
    let s1 := set_hw (cs_value false (hw s)) s in
    if is_byte addr then
      let s2 := set_hw (spi_write addr (hw s1)) s1 in
      if is_byte value then
        let '(resp, c3) := spi_write_readinto value (hw s2) in
        Returned resp (set_hw (cs_value true c3) s2)
      else Raised (BytesRange value) (set_hw (cs_value true (hw s2)) s2)
    else Raised (BytesRange addr) (set_hw (cs_value true (hw s1)) s1).

Definition _read (addr : Z) : M Z := _transfer (Z.land addr 0x7f) 0x00.

Definition _write (addr value : Z) : M unit :=
  _transfer (Z.lor addr 0x80) value ;;; ret tt.

(** ** Mode control *)

Definition _set_mode (mode : Z) : M unit :=
  _write Registers.OP_MODE (Z.lor Modes.LORA_MASK mode).

Definition standby : M unit := _set_mode Modes.STDBY.
Definition recv : M unit := _set_mode Modes.RX_CONTINUOUS.

(** ** Configuration setters *)

(** Python truthiness of an integer. *)
Definition truthy (v : Z) : bool := negb (v =? 0).

(** [int(x)] on a number: truncation toward zero. *)
Definition int_of_Q (q : Q) : Z := Z.quot (Qnum q) (Zpos (Qden q)).

(** 61.03515625, the synthesizer step in Hz. *)
Definition FRF_STEP : Q := 6103515625 # 100000000.

Definition with_frequency (f : Q) (c : RadioConfig) : RadioConfig :=
  {| frequency := f; bandwidth := bandwidth c;
     spreading_factor := spreading_factor c; coding_rate := coding_rate c;
     preamble_length := preamble_length c; tx_power := tx_power c;
     crc := crc c; implicit := implicit c; sync_word := sync_word c;
     output_pin := output_pin c |}.

Definition with_bandwidth (bw : Z) (c : RadioConfig) : RadioConfig :=
  {| frequency := frequency c; bandwidth := bw;
     spreading_factor := spreading_factor c; coding_rate := coding_rate c;
     preamble_length := preamble_length c; tx_power := tx_power c;
     crc := crc c; implicit := implicit c; sync_word := sync_word c;
     output_pin := output_pin c |}.

Definition with_spreading_factor (sf : Z) (c : RadioConfig) : RadioConfig :=
  {| frequency := frequency c; bandwidth := bandwidth c;
     spreading_factor := sf; coding_rate := coding_rate c;
     preamble_length := preamble_length c; tx_power := tx_power c;
     crc := crc c; implicit := implicit c; sync_word := sync_word c;
     output_pin := output_pin c |}.

Definition with_coding_rate (d : Z) (c : RadioConfig) : RadioConfig :=
  {| frequency := frequency c; bandwidth := bandwidth c;
     spreading_factor := spreading_factor c; coding_rate := d;
     preamble_length := preamble_length c; tx_power := tx_power c;
     crc := crc c; implicit := implicit c; sync_word := sync_word c;
     output_pin := output_pin c |}.

Definition with_preamble_length (n : Z) (c : RadioConfig) : RadioConfig :=
  {| frequency := frequency c; bandwidth := bandwidth c;
     spreading_factor := spreading_factor c; coding_rate := coding_rate c;
     preamble_length := n; tx_power := tx_power c;
     crc := crc c; implicit := implicit c; sync_word := sync_word c;
     output_pin := output_pin c |}.

Definition with_tx_power (level : Z) (c : RadioConfig) : RadioConfig :=
  {| frequency := frequency c; bandwidth := bandwidth c;
     spreading_factor := spreading_factor c; coding_rate := coding_rate c;
     preamble_length := preamble_length c; tx_power := level;
     crc := crc c; implicit := implicit c; sync_word := sync_word c;
     output_pin := output_pin c |}.

Definition with_crc (b : bool) (c : RadioConfig) : RadioConfig :=
  {| frequency := frequency c; bandwidth := bandwidth c;
     spreading_factor := spreading_factor c; coding_rate := coding_rate c;
     preamble_length := preamble_length c; tx_power := tx_power c;
     crc := b; implicit := implicit c; sync_word := sync_word c;
     output_pin := output_pin c |}.

Definition with_implicit (b : bool) (c : RadioConfig) : RadioConfig :=
  {| frequency := frequency c; bandwidth := bandwidth c;
     spreading_factor := spreading_factor c; coding_rate := coding_rate c;
     preamble_length := preamble_length c; tx_power := tx_power c;
     crc := crc c; implicit := b; sync_word := sync_word c;
     output_pin := output_pin c |}.

Definition with_sync_word (sw : Z) (c : RadioConfig) : RadioConfig :=
  {| frequency := frequency c; bandwidth := bandwidth c;
     spreading_factor := spreading_factor c; coding_rate := coding_rate c;
     preamble_length := preamble_length c; tx_power := tx_power c;
     crc := crc c; implicit := implicit c; sync_word := sw;
     output_pin := output_pin c |}.

Definition with_output_pin (p : Z) (c : RadioConfig) : RadioConfig :=
  {| frequency := frequency c; bandwidth := bandwidth c;
     spreading_factor := spreading_factor c; coding_rate := coding_rate c;
     preamble_length := preamble_length c; tx_power := tx_power c;
     crc := crc c; implicit := implicit c; sync_word := sync_word c;
     output_pin := p |}.

Definition set_frequency (freq : Q) : M unit :=
  put_cfg (with_frequency freq) ;;;
  let frf := int_of_Q (freq * (1000000 # 1) / FRF_STEP)%Q in
  _write Registers.FRF_MSB (Z.land (Z.shiftr frf 16) 0xff) ;;;
  _write Registers.FRF_MID (Z.land (Z.shiftr frf 8) 0xff) ;;;
  _write Registers.FRF_LSB (Z.land frf 0xff).

(** The [for i, bandwidth in enumerate(...)] loop with its [break]:
    [i] is the index of the head of [table], [bw_index] the value the
    variable holds if the loop runs to its end. *)
Fixpoint bw_search (bw : Z) (table : list Z) (i bw_index : Z) : Z :=
  match table with
  | [] => bw_index
  | b :: rest => if bw <=? b then i else bw_search bw rest (i + 1) bw_index
  end.

Definition set_bandwidth (bw : Z) : M unit :=
  put_cfg (with_bandwidth bw) ;;;
  let bw_index := bw_search bw Config.BANDWIDTHS 0 9 in
  let* r := _read Registers.MODEM_CONFIG_1 in
  let reg_value := Z.land r 0x0f in
  _write Registers.MODEM_CONFIG_1 (Z.lor reg_value (Z.shiftl bw_index 4)) ;;;
  let* cfg := get_cfg in
  let sf := spreading_factor cfg in
  if (10 <? sf) && (bw <? 250000)
  then _write Registers.MODEM_CONFIG_3 0x08
  else _write Registers.MODEM_CONFIG_3 0x04.

Definition set_spreading_factor (sf : Z) : M unit :=
  if (sf <? 6) || (12 <? sf) then raise SpreadingFactorRange
  else
    put_cfg (with_spreading_factor sf) ;;;
    _write Registers.DETECTION_OPTIMIZE (if sf =? 6 then 0xc5 else 0xc3) ;;;
    _write Registers.DETECTION_THRESHOLD (if sf =? 6 then 0x0c else 0x0a) ;;;
    let* reg2 := _read Registers.MODEM_CONFIG_2 in
    _write Registers.MODEM_CONFIG_2
      (Z.lor (Z.land reg2 0x0f) (Z.land (Z.shiftl sf 4) 0xf0)) ;;;
    let* cfg := get_cfg in
    let bw := bandwidth cfg in
    if (10 <? sf) && (bw <? 250000)
    then _write Registers.MODEM_CONFIG_3 0x08
    else _write Registers.MODEM_CONFIG_3 0x04.

Definition set_coding_rate (denom : Z) : M unit :=
  let denom := Z.min (Z.max denom 5) 8 in
  put_cfg (with_coding_rate denom) ;;;
  let cr := denom - 4 in
  let* reg1 := _read Registers.MODEM_CONFIG_1 in
  _write Registers.MODEM_CONFIG_1 (Z.lor (Z.land reg1 0xf1) (Z.shiftl cr 1)).

Definition set_preamble_length (length : Z) : M unit :=
  let length := Z.max 6 (Z.min length 65535) in
  put_cfg (with_preamble_length length) ;;;
  _write Registers.PREAMBLE_MSB (Z.land (Z.shiftr length 8) 0xff) ;;;
  _write Registers.PREAMBLE_LSB (Z.land length 0xff).

Definition set_crc (on : bool) : M unit :=
  put_cfg (with_crc on) ;;;
  let* reg := _read Registers.MODEM_CONFIG_2 in
  let reg := if on then Z.lor reg 0x04 else Z.land reg 0xfb in
  _write Registers.MODEM_CONFIG_2 reg.

Definition set_sync_word (sw : Z) : M unit :=
  put_cfg (with_sync_word sw) ;;;
  _write Registers.SYNC_WORD sw.

Definition set_implicit (on : bool) : M unit :=
  put_cfg (with_implicit on) ;;;
  let* reg := _read Registers.MODEM_CONFIG_1 in
  let reg := if on then Z.lor reg 0x01 else Z.land reg 0xfe in
  _write Registers.MODEM_CONFIG_1 reg.

Definition set_tx_power (level output_pin : Z) : M unit :=
  put_cfg (with_tx_power level) ;;;
  put_cfg (with_output_pin output_pin) ;;;
  if output_pin =? PAConfig.RFO_PIN then
    let level := Z.min (Z.max level 0) 14 in
    _write Registers.PA_CONFIG (Z.lor 0x70 level)
  else
    let* level :=
      (if 17 <? level then
         (if 19 <? level then
            let* r := _read Registers.PA_DAC in
            _write Registers.PA_DAC (Z.lor r 0x07)
          else
            let* r := _read Registers.PA_DAC in
            _write Registers.PA_DAC (Z.lor (Z.land r (Z.lnot 0x07)) 0x04)) ;;;
         ret 15
       else
         let* r := _read Registers.PA_DAC in
         _write Registers.PA_DAC (Z.land r (Z.lnot 0x07)) ;;;
         ret (level - 2)) in
    _write Registers.PA_CONFIG (Z.lor PAConfig.PA_BOOST level).

Definition get_config : M RadioConfig := get_cfg.

(** ** Transmit *)

Inductive pydata :=
  | PyStr (s : string)
  | PyBytes (b : list byte).

(** [str.encode()]; a [string] holds the UTF-8 code units of the text. *)
Definition encode (s : string) : list byte := list_byte_of_string s.

Definition int_of_byte (b : byte) : Z := Z.of_N (Byte.to_N b).

Definition begin_packet : M unit :=
  standby ;;;
  _write Registers.FIFO_ADDR_PTR Config.TX_BASE_ADDR ;;;
  _write Registers.PAYLOAD_LENGTH 0.

(** [for byte in data: self._write(Registers.FIFO, byte)] *)
Fixpoint write_fifo (data : list byte) : M unit :=
  match data with
  | [] => ret tt
  | b :: rest => _write Registers.FIFO (int_of_byte b) ;;; write_fifo rest
  end.

Definition write_packet (data : pydata) : M Z :=
  let data := match data with PyStr s => encode s | PyBytes b => b end in
  let* current_length := _read Registers.PAYLOAD_LENGTH in
  let new_length := current_length + Z.of_nat (length data) in
  if Config.MAX_PKT_LENGTH <? new_length then raise PacketTooLarge
  else
    write_fifo data ;;;
    _write Registers.PAYLOAD_LENGTH new_length ;;;
    ret (Z.of_nat (length data)).

(** The polling loop of [end_packet]; [fuel] bounds its iterations. *)
Fixpoint end_packet_wait (fuel : nat) (start_time timeout : Z) : M bool :=
  match fuel with
  | O => fun _ => OutOfFuel
  | S fuel' =>
      let* now := ticks_ms in
      if ticks_diff now start_time <? timeout then
        let* flags := _read Registers.IRQ_FLAGS in
        if truthy (Z.land flags IRQFlags.TX_DONE) then
          _write Registers.IRQ_FLAGS IRQFlags.TX_DONE ;;;
          ret true
        else
          sleep_ms 10 ;;;
          end_packet_wait fuel' start_time timeout
      else ret false
  end.

Definition end_packet (fuel : nat) (timeout : Z) : M bool :=
  _set_mode Modes.TX ;;;
  let* start_time := ticks_ms in
  end_packet_wait fuel start_time timeout.

Definition send (fuel : nat) (data : pydata) (timeout : Z) : M bool :=
  begin_packet ;;;
  write_packet data ;;;
  end_packet fuel timeout.

(** ** Receive *)

(** [for i in range(length): payload[i] = self._read(Registers.FIFO)] *)
Fixpoint read_fifo (n : nat) : M (list Z) :=
  match n with
  | O => ret []
  | S n' => let* b := _read Registers.FIFO in let* rest := read_fifo n' in ret (b :: rest)
  end.

Definition _read_payload : M (list Z) :=
  let* current_addr := _read Registers.FIFO_RX_CURRENT_ADDR in
  _write Registers.FIFO_ADDR_PTR current_addr ;;;
  let* cfg := get_cfg in
  let* len := (if implicit cfg then _read Registers.PAYLOAD_LENGTH
               else _read Registers.RX_NB_BYTES) in
  read_fifo (Z.to_nat len).

(** [self._on_recv(payload)]: the callback receives the payload. *)
Definition deliver (payload : list Z) : M unit :=
  fun s => Returned tt
    {| _config := _config s; hw := hw s; clock := clock s;
       console := console s; _on_recv := _on_recv s;
       inbox := inbox s ++ [payload] |}.

Definition _irq_handler : M unit :=
  let* irq_flags := _read Registers.IRQ_FLAGS in
  _write Registers.IRQ_FLAGS irq_flags ;;;
  if truthy (Z.land irq_flags IRQFlags.RX_DONE)
     && negb (truthy (Z.land irq_flags IRQFlags.PAYLOAD_CRC_ERROR))
  then
    let* payload := _read_payload in
    fun s => if _on_recv s then deliver payload s else Returned tt s
  else ret tt.

(** One pass through the body of the [while] loop of [receive_message];
    [again] is what follows when the pass does not return: the pause and
    the next test of the loop condition.  [None] is Python's [None]. *)
Definition receive_poll (again : M (option (list Z))) : M (option (list Z)) :=
  let* irq_flags := _read Registers.IRQ_FLAGS in
  if truthy (Z.land irq_flags IRQFlags.RX_DONE) then
    _write Registers.IRQ_FLAGS IRQFlags.RX_DONE ;;;
    if negb (truthy (Z.land irq_flags IRQFlags.PAYLOAD_CRC_ERROR)) then
      let* payload := _read_payload in ret (Some payload)
    else again
  else again.

(** The polling loop of [receive_message]; [fuel] bounds its iterations. *)
Fixpoint receive_wait (fuel : nat) (start_time timeout : Z) : M (option (list Z)) :=
  match fuel with
  | O => fun _ => OutOfFuel
  | S fuel' =>
      let again : M (option (list Z)) :=
        (if 0 <? timeout then sleep_ms 10 else ret tt) ;;;
        receive_wait fuel' start_time timeout in
      if timeout =? 0 then receive_poll again
      else
        let* now := ticks_ms in
        if ticks_diff now start_time <? timeout then receive_poll again
        else ret None
  end.

Definition receive_message (fuel : nat) (timeout : Z) : M (option (list Z)) :=
  recv ;;;
  let* start_time := ticks_ms in
  receive_wait fuel start_time timeout.

(** ** Construction *)

(** The retry loop of [_verify_chip_version].  The loop condition bounds
    the iterations by itself; [budget] is the structural argument. *)
Fixpoint version_retry (budget : nat) (version attempts : Z) : M Z :=
  if negb (version =? Config.SX127X_VERSION) && (attempts <? 5) then
    match budget with
    | O => fun _ => OutOfFuel
    | S budget' =>
        sleep_ms 100 ;;;
        let* version := _read Registers.VERSION in
        print (VersionRead version) ;;;
        version_retry budget' version (attempts + 1)
    end
  else ret version.

Definition _verify_chip_version : M unit :=
  let* version := _read Registers.VERSION in
  let* version := version_retry 5 version 0 in
  if negb (version =? Config.SX127X_VERSION) then
    print (VersionWarning version) ;;;
    print ContinuingAnyway
  else ret tt.

Definition _configure_radio : M unit :=
  _write Registers.FIFO_TX_BASE_ADDR Config.TX_BASE_ADDR ;;;
  _write Registers.FIFO_RX_BASE_ADDR Config.RX_BASE_ADDR ;;;
  let* cfg := get_cfg in set_frequency (frequency cfg) ;;;
  let* cfg := get_cfg in set_bandwidth (bandwidth cfg) ;;;
  let* cfg := get_cfg in set_spreading_factor (spreading_factor cfg) ;;;
  let* cfg := get_cfg in set_coding_rate (coding_rate cfg) ;;;
  let* cfg := get_cfg in set_preamble_length (preamble_length cfg) ;;;
  let* cfg := get_cfg in set_crc (crc cfg) ;;;
  let* cfg := get_cfg in set_sync_word (sync_word cfg) ;;;
  let* cfg := get_cfg in set_implicit (implicit cfg) ;;;
  let* lna := _read Registers.LNA in
  _write Registers.LNA (Z.lor lna 0x03) ;;;
  _write Registers.MODEM_CONFIG_3 0x04 ;;;
  let* cfg := get_cfg in set_tx_power (tx_power cfg) (output_pin cfg).

(** Keyword arguments of the constructor: [kw_cs] tells whether [cs] was
    given, the other fields are [kwargs.get(key)]. *)
Record Kwargs := mkKwargs {
  kw_cs : bool;
  kw_frequency : option Q;
  kw_bandwidth : option Z;
  kw_spreading_factor : option Z;
  kw_coding_rate : option Z;
  kw_preamble_length : option Z;
  kw_tx_power : option Z;
  kw_crc : option bool;
  kw_implicit : option bool;
  kw_sync_word : option Z;
  kw_output_pin : option Z
}.

Definition _init_config (kw : Kwargs) : RadioConfig :=
  {| frequency := default (frequency Config.DEFAULT) (kw_frequency kw);
     bandwidth := default (bandwidth Config.DEFAULT) (kw_bandwidth kw);
     spreading_factor :=
       default (spreading_factor Config.DEFAULT) (kw_spreading_factor kw);
     coding_rate := default (coding_rate Config.DEFAULT) (kw_coding_rate kw);
     preamble_length :=
       default (preamble_length Config.DEFAULT) (kw_preamble_length kw);
     tx_power := default (tx_power Config.DEFAULT) (kw_tx_power kw);
     crc := default (crc Config.DEFAULT) (kw_crc kw);
     implicit := default (implicit Config.DEFAULT) (kw_implicit kw);
     sync_word := default (sync_word Config.DEFAULT) (kw_sync_word kw);
     output_pin := default (output_pin Config.DEFAULT) (kw_output_pin kw) |}.

(** [LoRa(spi, **kwargs)] on a board whose bus reaches [chip] and whose
    clock reads [now]. *)
Definition __init__ (chip : Chip) (now : Z) (kw : Kwargs) : outcome unit :=
  let self :=
    {| _config := _init_config kw; hw := chip; clock := now;
       console := []; _on_recv := false; inbox := [] |} in
  if negb (kw_cs kw) then Raised MissingCs self
  else
    (_verify_chip_version ;;;
     _set_mode Modes.SLEEP ;;;
     _configure_radio ;;;
     standby) self.

(** ** Register-level view of complete bus frames

    What one call of [_read] or [_write] leaves behind, by kind of
    register.  The lemmas of the next part relate the frames built by
    [_transfer] to these. *)

Definition plain_reg (a : Z) : bool :=
  (0 <=? a) && (a <? 128) && negb (a =? Registers.FIFO)
  && negb (a =? Registers.IRQ_FLAGS) && negb (status_reg a).

(** Any register but the buffer window. *)
Definition cell_reg (a : Z) : bool :=
  (0 <=? a) && (a <? 128) && negb (a =? Registers.FIFO).

(** A register the hardware never changes on its own. *)
Definition driver_reg (a : Z) : bool :=
  negb (a =? Registers.IRQ_FLAGS) && negb (status_reg a).

Definition store (a v : Z) (c : Chip) : Chip :=
  {| nss := true; latch := None; regs := <[a := v]> (tick_regs c);
     fifo := fifo c; script := tail (script c);
     bus_log := bus_log c ++ [RegWrite a v] |}.

Definition load (a : Z) (c : Chip) : Chip :=
  {| nss := true; latch := None; regs := tick_regs c;
     fifo := fifo c; script := tail (script c);
     bus_log := bus_log c ++ [RegRead a (peek (tick_regs c) a)] |}.

(** A frame that stopped after its address byte. *)
Definition aborted (c : Chip) : Chip :=
  {| nss := true; latch := None; regs := tick_regs c;
     fifo := fifo c; script := tail (script c); bus_log := bus_log c |}.

Definition ack (v : Z) (c : Chip) : Chip :=
  {| nss := true; latch := None;
     regs := <[Registers.IRQ_FLAGS :=
                 Z.land (peek (tick_regs c) Registers.IRQ_FLAGS) (Z.lnot v)]>
               (tick_regs c);
     fifo := fifo c; script := tail (script c);
     bus_log := bus_log c ++ [RegWrite Registers.IRQ_FLAGS v] |}.

Definition push (v : Z) (c : Chip) : Chip :=
  let p := peek (tick_regs c) Registers.FIFO_ADDR_PTR in
  {| nss := true; latch := None;
     regs := <[Registers.FIFO_ADDR_PTR := (p + 1) mod 256]> (tick_regs c);
     fifo := <[p := v]> (fifo c); script := tail (script c);
     bus_log := bus_log c ++ [RegWrite Registers.FIFO v] |}.

Definition pop (c : Chip) : Chip :=
  let p := peek (tick_regs c) Registers.FIFO_ADDR_PTR in
  {| nss := true; latch := None;
     regs := <[Registers.FIFO_ADDR_PTR := (p + 1) mod 256]> (tick_regs c);
     fifo := fifo c; script := tail (script c);
     bus_log := bus_log c ++ [RegRead Registers.FIFO (peek (fifo c) p)] |}.

(** The value of register [a] as the driver would read it. *)
Definition reg (s : LoRa) (a : Z) : Z := peek (regs (hw s)) a.

(** ** Specification vocabulary *)




(** Successive writes to the buffer register. *)
Fixpoint push_all (l : list Z) (c : Chip) : Chip :=
  match l with
  | [] => c
  | v :: rest => push_all rest (push v c)
  end.

(** Successive reads of the buffer register. *)
Fixpoint pop_all (n : nat) (c : Chip) : list Z * Chip :=
  match n with
  | O => ([], c)
  | S n' =>
      let v := peek (fifo c) (peek (tick_regs c) Registers.FIFO_ADDR_PTR) in
      let '(rest, c') := pop_all n' (pop c) in
      (v :: rest, c')
  end.

Definition is_read_of (a : Z) (e : access) : bool :=
  match e with
  | RegRead a' _ => a' =? a
  | RegWrite _ _ => false
  end.

Definition is_write (e : access) : bool :=
  match e with
  | RegWrite _ _ => true
  | RegRead _ _ => false
  end.

(** The bytes [write_packet] works on after its [isinstance] test. *)
Definition payload_bytes (data : pydata) : list byte :=
  match data with PyStr s => encode s | PyBytes b => b end.

(** The packet under construction holds exactly the bytes [acc]: the
    length register and the cursor both stand at their count and the
    buffer holds them from the transmit base address on. *)
Definition packet_holds (acc : list byte) (s : LoRa) : Prop :=
  (length acc <= 255)%nat
  /\ reg s Registers.PAYLOAD_LENGTH = Z.of_nat (length acc)
  /\ reg s Registers.FIFO_ADDR_PTR = Z.of_nat (length acc)
  /\ forall (i : nat) b,
       acc !! i = Some b ->
       peek (fifo (hw s)) (Config.TX_BASE_ADDR + Z.of_nat i) = int_of_byte b.

(** The configurations every setter accepts: the spreading factor is in
    range, the sync word is a byte, and the boosted path is not asked for
    less than 2 dBm. *)
Definition constructible (cfg : RadioConfig) : Prop :=
  6 <= spreading_factor cfg <= 12
  /\ 0 <= sync_word cfg <= 255
  /\ (output_pin cfg = PAConfig.RFO_PIN \/ 2 <= tx_power cfg).

(** [LoRa(spi, cs=cs)]: only the chip-select pin is given. *)
Definition default_kwargs : Kwargs :=
  {| kw_cs := true; kw_frequency := None; kw_bandwidth := None;
     kw_spreading_factor := None; kw_coding_rate := None;
     kw_preamble_length := None; kw_tx_power := None; kw_crc := None;
     kw_implicit := None; kw_sync_word := None; kw_output_pin := None |}.

(** The object [__init__] starts from. *)
Definition new_object (chip : Chip) (now : Z) (kw : Kwargs) : LoRa :=
  {| _config := _init_config kw; hw := chip; clock := now;
     console := []; _on_recv := false; inbox := [] |}.

(** From [s] to [s'] the driver-owned registers outside [ws] kept their
    values. *)
Definition touches_only (ws : list Z) (s s' : LoRa) : Prop :=
  forall a, driver_reg a = true -> ~ In a ws -> reg s' a = reg s a.

(** A bus access that does not write any flag but receive-complete back
    to the flag register. *)
Definition acks_rx_done_only (e : access) : Prop :=
  match e with
  | RegWrite a v => a = Registers.IRQ_FLAGS -> v = IRQFlags.RX_DONE
  | RegRead _ _ => True
  end.

(** From [s] to [s'] the bus saw only such accesses. *)
Definition extends_politely (s s' : LoRa) : Prop :=
  exists tail,
    bus_log (hw s') = bus_log (hw s) ++ tail /\ Forall acks_rx_done_only tail.

(** The payload-CRC-error flag is set in the flag register. *)
Definition crc_latched (s : LoRa) : Prop :=
  Z.testbit (reg s Registers.IRQ_FLAGS) 5 = true.

(** Sequences of setter calls.  An exception ends the sequence, as it
    does in Python when nothing catches it. *)
Inductive setter_call :=
  | SetFrequency (f : Q)
  | SetBandwidth (bw : Z)
  | SetSpreadingFactor (sf : Z)
  | SetCodingRate (denom : Z)
  | SetPreambleLength (n : Z)
  | SetCrc (on : bool)
  | SetSyncWord (sw : Z)
  | SetImplicit (on : bool)
  | SetTxPower (level pin : Z).

Definition call (c : setter_call) : M unit :=
  match c with
  | SetFrequency f => set_frequency f
  | SetBandwidth bw => set_bandwidth bw
  | SetSpreadingFactor sf => set_spreading_factor sf
  | SetCodingRate d => set_coding_rate d
  | SetPreambleLength n => set_preamble_length n
  | SetCrc on => set_crc on
  | SetSyncWord sw => set_sync_word sw
  | SetImplicit on => set_implicit on
  | SetTxPower level pin => set_tx_power level pin
  end.

Fixpoint run_calls (cs : list setter_call) : M unit :=
  match cs with
  | [] => ret tt
  | c :: rest => call c ;;; run_calls rest
  end.

(** What a returning setter call leaves in [_config]. *)
Definition stored (cfg : RadioConfig) (c : setter_call) : RadioConfig :=
  match c with
  | SetFrequency f => with_frequency f cfg
  | SetBandwidth bw => with_bandwidth bw cfg
  | SetSpreadingFactor sf => with_spreading_factor sf cfg
  | SetCodingRate d => with_coding_rate (Z.min (Z.max d 5) 8) cfg
  | SetPreambleLength n => with_preamble_length (Z.max 6 (Z.min n 65535)) cfg
  | SetCrc on => with_crc on cfg
  | SetSyncWord sw => with_sync_word sw cfg
  | SetImplicit on => with_implicit on cfg
  | SetTxPower level pin => with_output_pin pin (with_tx_power level cfg)
  end.

(** What the specification expects there: the value after clamping to
    the setter's range, for the power level as for the others. *)
Definition spec_stored (cfg : RadioConfig) (c : setter_call) : RadioConfig :=
  match c with
  | SetTxPower level pin =>
      with_output_pin pin
        (with_tx_power
           (if pin =? PAConfig.RFO_PIN then Z.min (Z.max level 0) 14 else level)
           cfg)
  | _ => stored cfg c
  end.

(** ** Sample states

    A chip fresh out of reset with nothing scripted, and a driver object
    holding the default configuration, for the closed examples. *)

Definition idle_chip : Chip :=
  {| nss := true; latch := None; regs := ∅; fifo := ∅; script := [];
     bus_log := [] |}.

Definition sample_driver : LoRa :=
  {| _config := Config.DEFAULT; hw := idle_chip; clock := 0; console := [];
     _on_recv := false; inbox := [] |}.

(** The state an outcome leaves behind. *)
Definition final_state {A} (o : outcome A) (dflt : LoRa) : LoRa :=
  match o with
  | Returned _ s => s
  | Raised _ s => s
  | OutOfFuel => dflt
  end.

(** A packet begun on [sample_driver] and filled with 254 bytes. *)
Definition nearly_full_packet : LoRa :=
  final_state
    ((begin_packet ;;; write_packet (PyBytes (repeat Byte.x78 254))) sample_driver)
    sample_driver.

(** A driver on a chip that latches transmit-complete at the first poll
    after the switch to transmit mode. *)
Definition completing_driver : LoRa :=
  set_hw
    {| nss := true; latch := None; regs := ∅; fifo := ∅;
       script := [HwIrq 0; HwIrq IRQFlags.TX_DONE]; bus_log := [] |}
    sample_driver.

(** A driver whose chip holds a received frame with a bad CRC: the
    receive-complete and CRC-error flags are both set, and the hardware
    will signal another frame at the fourth bus frame from now. *)
Definition crc_latched_driver : LoRa :=
  set_hw
    {| nss := true; latch := None;
       regs := {[ Registers.IRQ_FLAGS := 0x60 ]}; fifo := ∅;
       script := [HwIrq 0; HwIrq 0; HwIrq 0; HwIrq IRQFlags.RX_DONE];
       bus_log := [] |}
    sample_driver.

(** A driver on a chip that completes a transmission at the first poll of
    [send]: eight bus frames pass before it. *)
Definition sending_driver : LoRa :=
  set_hw
    {| nss := true; latch := None; regs := ∅; fifo := ∅;
       script := repeat (HwIrq 0) 8 ++ [HwIrq IRQFlags.TX_DONE];
       bus_log := [] |}
    sample_driver.

(** ** Signal metrics *)

Definition get_rssi : M Z :=
  let* rssi := _read Registers.PKT_RSSI_VALUE in
  let* cfg := get_cfg in
  if Qle_bool (779 # 1) (frequency cfg) then ret (rssi - 157)
  else ret (rssi - 164).

(** The register value times 0.25. *)
Definition get_snr : M Q :=
  let* raw := _read Registers.PKT_SNR_VALUE in
  ret (inject_Z raw * (25 # 100))%Q.

(** ** Receive control *)

(** The state of the interrupt of the [rx] pin, as left by the last
    [rx.irq(handler=..., trigger=...)]: whether the handler is
    [self._irq_handler] or [None], and whether the trigger is
    [Pin.IRQ_RISING] or 0. *)
Record RxPin := mkRxPin {
  irq_handler : bool;
  irq_rising : bool
}.

Definition set_on_recv (callback : bool) : M unit :=
  fun s => Returned tt
    {| _config := _config s; hw := hw s; clock := clock s;
       console := console s; _on_recv := callback; inbox := inbox s |}.

(** [on_recv], [start_continuous_receive] and [stop_receive] take the
    [rx] attribute (a pin or [None]) and return it as they leave it;
    [callback] tells a function from [None]. *)
Definition on_recv (rx : option RxPin) (callback : bool) : M (option RxPin) :=
  set_on_recv callback ;;;
  match rx with
  | Some _ =>
      if callback then
        _write Registers.DIO_MAPPING_1 0x00 ;;;
        ret (Some {| irq_handler := true; irq_rising := true |})
      else ret (Some {| irq_handler := false; irq_rising := false |})
  | None => ret None
  end.

Definition start_continuous_receive (rx : option RxPin) (callback : bool)
  : M (option RxPin) :=
  let* rx := (if callback then on_recv rx callback else ret rx) in
  recv ;;;
  ret rx.

Definition stop_receive (rx : option RxPin) : M (option RxPin) :=
  standby ;;;
  match rx with
  | Some _ => ret (Some {| irq_handler := false; irq_rising := false |})
  | None => ret None
  end.

(** A rising edge on the pin runs the handler the interrupt is armed
    with, if any. *)
Definition rising_edge (rx : option RxPin) : M unit :=
  match rx with
  | Some pin => if irq_handler pin && irq_rising pin then _irq_handler else ret tt
  | None => ret tt
  end.

(** ** Agreement between the configuration and the registers *)

(** The byte [set_tx_power] computes for PA_CONFIG from a level and an
    output pin that it accepts. *)
Definition pa_config_of (level pin : Z) : Z :=
  if pin =? PAConfig.RFO_PIN then Z.lor 0x70 (Z.min (Z.max level 0) 14)
  else Z.lor PAConfig.PA_BOOST (if 17 <? level then 15 else level - 2).

(** One clause per parameter: what the registers hold is what the
    setter of the parameter derives from the value in [_config]. *)
Inductive clause :=
  | CFrequency | CBandwidth | CSpreadingFactor | CCodingRate
  | CPreambleLength | CCrc | CSyncWord | CImplicit | CTxPower.

Definition holds (k : clause) (s : LoRa) : Prop :=
  let cfg := _config s in
  match k with
  | CFrequency =>
      let frf := int_of_Q (frequency cfg * (1000000 # 1) / FRF_STEP)%Q in
      reg s Registers.FRF_MSB = Z.land (Z.shiftr frf 16) 0xff
      /\ reg s Registers.FRF_MID = Z.land (Z.shiftr frf 8) 0xff
      /\ reg s Registers.FRF_LSB = Z.land frf 0xff
  | CBandwidth =>
      Z.shiftr (reg s Registers.MODEM_CONFIG_1) 4
      = bw_search (bandwidth cfg) Config.BANDWIDTHS 0 9
  | CSpreadingFactor =>
      Z.shiftr (reg s Registers.MODEM_CONFIG_2) 4 = spreading_factor cfg
  | CCodingRate =>
      Z.land (Z.shiftr (reg s Registers.MODEM_CONFIG_1) 1) 0x07
      = coding_rate cfg - 4
  | CPreambleLength =>
      reg s Registers.PREAMBLE_MSB * 256 + reg s Registers.PREAMBLE_LSB
      = preamble_length cfg
  | CCrc => Z.testbit (reg s Registers.MODEM_CONFIG_2) 2 = crc cfg
  | CSyncWord => reg s Registers.SYNC_WORD = sync_word cfg
  | CImplicit => Z.testbit (reg s Registers.MODEM_CONFIG_1) 0 = implicit cfg
  | CTxPower =>
      reg s Registers.PA_CONFIG = pa_config_of (tx_power cfg) (output_pin cfg)
  end.

(** The clause a setter call is about. *)
Definition sets (c : setter_call) (k : clause) : bool :=
  match c, k with
  | SetFrequency _, CFrequency
  | SetBandwidth _, CBandwidth
  | SetSpreadingFactor _, CSpreadingFactor
  | SetCodingRate _, CCodingRate
  | SetPreambleLength _, CPreambleLength
  | SetCrc _, CCrc
  | SetSyncWord _, CSyncWord
  | SetImplicit _, CImplicit
  | SetTxPower _ _, CTxPower => true
  | _, _ => false
  end.

Definition agrees (s : LoRa) : Prop := forall k, holds k s.

(** The setter calls [_configure_radio] makes before it turns to the
    amplifiers, for a configuration [cfg]. *)
Definition modem_calls (cfg : RadioConfig) : list setter_call :=
  [SetFrequency (frequency cfg); SetBandwidth (bandwidth cfg);
   SetSpreadingFactor (spreading_factor cfg); SetCodingRate (coding_rate cfg);
   SetPreambleLength (preamble_length cfg); SetCrc (crc cfg);
   SetSyncWord (sync_word cfg); SetImplicit (implicit cfg)].

(** The registers the clauses of [holds] speak about. *)
Definition modem_registers : list Z :=
  [Registers.FRF_MSB; Registers.FRF_MID; Registers.FRF_LSB;
   Registers.MODEM_CONFIG_1; Registers.MODEM_CONFIG_2;
   Registers.PREAMBLE_MSB; Registers.PREAMBLE_LSB;
   Registers.SYNC_WORD; Registers.PA_CONFIG].


(** ** Operations that are not setters *)




(** From [s] to [s'] neither [_config] nor a register of a clause
    changed. *)
Definition same_modem (s s' : LoRa) : Prop :=
  _config s' = _config s
  /\ forall a, In a modem_registers -> reg s' a = reg s a.

(** [m] ends, whether it returns or raises, with [_config] and the
    registers of the clauses as it found them. *)
Definition keeps {A} (m : M A) : Prop :=
  forall s,
    match m s with
    | Returned _ s' | Raised _ s' => same_modem s s'
    | OutOfFuel => True
    end.

(** ** Which setter calls raise *)



(** ** The factory function *)

(** [create_lora(spi, cs_pin, rx_pin, **kwargs)]: the [cs] pin is always
    made and passed on; the [rx] pin is made only when [rx_pin] is truthy,
    so neither for [None] nor for pin number 0.  The result is the object
    and its [rx] attribute. *)
Definition create_lora (chip : Chip) (now : Z) (rx_pin : option Z) (kw : Kwargs)
  : outcome (option RxPin) :=
  let rx :=
    match rx_pin with
    | Some n =>
        if truthy n then Some {| irq_handler := false; irq_rising := false |}
        else None
    | None => None
    end in
  let kw :=
    {| kw_cs := true; kw_frequency := kw_frequency kw;
       kw_bandwidth := kw_bandwidth kw;
       kw_spreading_factor := kw_spreading_factor kw;
       kw_coding_rate := kw_coding_rate kw;
       kw_preamble_length := kw_preamble_length kw;
       kw_tx_power := kw_tx_power kw; kw_crc := kw_crc kw;
       kw_implicit := kw_implicit kw; kw_sync_word := kw_sync_word kw;
       kw_output_pin := kw_output_pin kw |} in
  match __init__ chip now kw with
  | Returned _ s => Returned rx s
  | Raised e s => Raised e s
  | OutOfFuel => OutOfFuel
  end.

(** * The T-Beam node (tbeam_optimized.py)

    The class [TBeam] owns a [LoRa] object and adds a message buffer, a
    message counter and an activity LED.  The methods below are those
    that do not parse JSON; a dictionary message is a value of a type [D]
    with the three operations [send_message] uses. *)

Module TBeam.

(** [key in message], [message[key] = text] and [json.dumps(message)]. *)
Class Dict (D : Type) := {
  contains : string -> D -> bool;
  setitem : string -> string -> D -> D;
  dumps : D -> string
}.

Inductive error :=
  | Driver (e : exn)
  | IndexError
  | InitFailed.

(** Lines the methods print. *)
Inductive tb_line :=
  | Sending (message_str : string)
  | UnsupportedParam (param : string)
  | ParamError (param : string) (e : error)
  | LoraReady
  | LoraError (e : error)
  | TryingAlternative
  | LoraReadyAlternative
  | SecondError (e : error).

(** The attributes the methods use; [rx] is the [rx] pin of [lora], the
    clock is that of [lora]. *)
Record Node (D : Type) := mkNode {
  node_id : string;
  message_counter : Z;
  received_messages : list D;
  last_send_time : Z;
  led : bool;
  lora : LoRa;
  rx : option RxPin;
  stdout : list tb_line
}.
Arguments mkNode {D}.
Arguments node_id {D}.
Arguments message_counter {D}.
Arguments received_messages {D}.
Arguments last_send_time {D}.
Arguments led {D}.
Arguments lora {D}.
Arguments rx {D}.
Arguments stdout {D}.

Inductive result (D A : Type) :=
  | Ok (a : A) (t : Node D)
  | Err (e : error) (t : Node D)
  | Fuel.
Arguments Ok {D A}.
Arguments Err {D A}.
Arguments Fuel {D A}.

Definition T (D A : Type) : Type := Node D -> result D A.

Definition tret {D A} (a : A) : T D A := fun t => Ok a t.
Definition tbind {D A B} (m : T D A) (k : A -> T D B) : T D B :=
  fun t => match m t with
           | Ok a t' => k a t'
           | Err e t' => Err e t'
           | Fuel => Fuel
           end.


Definition with_lora {D} (s : LoRa) (t : Node D) : Node D :=
  {| node_id := node_id t; message_counter := message_counter t;
     received_messages := received_messages t;
     last_send_time := last_send_time t; led := led t; lora := s;
     rx := rx t; stdout := stdout t |}.

(** A call of a method of [self.lora]. *)
Definition lift {D A} (m : M A) : T D A :=
  fun t => match m (lora t) with
           | Returned a s => Ok a (with_lora s t)
           | Raised e s => Err (Driver e) (with_lora s t)
           | OutOfFuel => Fuel
           end.

Definition say {D} (l : tb_line) : T D unit :=
  fun t => Ok tt
    {| node_id := node_id t; message_counter := message_counter t;
       received_messages := received_messages t;
       last_send_time := last_send_time t; led := led t; lora := lora t;
       rx := rx t; stdout := stdout t ++ [l] |}.

Definition led_value {D} (v : bool) : T D unit :=
  fun t => Ok tt
    {| node_id := node_id t; message_counter := message_counter t;
       received_messages := received_messages t;
       last_send_time := last_send_time t; led := v; lora := lora t;
       rx := rx t; stdout := stdout t |}.

Definition set_received {D} (l : list D) : T D unit :=
  fun t => Ok tt
    {| node_id := node_id t; message_counter := message_counter t;
       received_messages := l;
       last_send_time := last_send_time t; led := led t; lora := lora t;
       rx := rx t; stdout := stdout t |}.

Definition set_last_send_time {D} (v : Z) : T D unit :=
  fun t => Ok tt
    {| node_id := node_id t; message_counter := message_counter t;
       received_messages := received_messages t;
       last_send_time := v; led := led t; lora := lora t;
       rx := rx t; stdout := stdout t |}.

Definition set_message_counter {D} (v : Z) : T D unit :=
  fun t => Ok tt
    {| node_id := node_id t; message_counter := v;
       received_messages := received_messages t;
       last_send_time := last_send_time t; led := led t; lora := lora t;
       rx := rx t; stdout := stdout t |}.

Definition set_rx {D} (v : option RxPin) : T D unit :=
  fun t => Ok tt
    {| node_id := node_id t; message_counter := message_counter t;
       received_messages := received_messages t;
       last_send_time := last_send_time t; led := led t; lora := lora t;
       rx := v; stdout := stdout t |}.

Declare Scope tbeam_scope.
#[local] Notation "'let*' x ':=' m 'in' k" := (tbind m (fun x => k))
  (at level 10, x name, m at level 100, k at level 200, only parsing)
  : tbeam_scope.
#[local] Notation "m ;;; k" := (tbind m (fun _ => k))
  (at level 100, k at level 200, right associativity, only parsing)
  : tbeam_scope.
Local Open Scope tbeam_scope.

Definition get_received {D} : T D (list D) := fun t => Ok (received_messages t) t.
Definition get_node_id {D} : T D string := fun t => Ok (node_id t) t.
Definition get_message_counter {D} : T D Z := fun t => Ok (message_counter t) t.

(** ** Message buffer *)

(** [self.received_messages.pop(0)]: an empty list raises [IndexError]. *)
Definition pop_first {D} : T D D :=
  fun t => match received_messages t with
           | [] => Err IndexError t
           | m :: rest => tbind (set_received rest) (fun _ => tret m) t
           end.

Definition _add_to_message_buffer {D} (message : D) (max_buffer : Z) : T D unit :=
  let* l := get_received in
  (if max_buffer <=? Z.of_nat (length l) then let* _ := pop_first in tret tt
   else tret tt) ;;;
  let* l := get_received in
  set_received (l ++ [message]).

Definition get_messages {D} (clear : bool) : T D (list D) :=
  let* messages := get_received in
  (if clear then set_received [] else tret tt) ;;;
  tret messages.

Definition clear_messages {D} : T D unit := set_received [].

(** ** Message ids *)

(** [f"{self.node_id}_{self.message_counter}"]; [pretty] writes an
    integer in decimal as [str] does. *)
Definition _get_next_message_id {D} : T D string :=
  let* c := get_message_counter in
  set_message_counter (c + 1) ;;;
  let* nid := get_node_id in
  let* c := get_message_counter in
  tret (String.append nid (String.append "_" (pretty c))).

(** ** LED *)

(** The body of [for _ in range(times)], [n] times. *)
Fixpoint blink_loop {D} (n : nat) (delay : Z) : T D unit :=
  match n with
  | O => tret tt
  | S n' =>
      led_value true ;;;
      lift (sleep_ms delay) ;;;
      led_value false ;;;
      lift (sleep_ms delay) ;;;
      blink_loop n' delay
  end.

Definition _blink_led {D} (times delay : Z) : T D unit :=
  blink_loop (Z.to_nat times) delay.

(** ** Sending *)

(** A message is a dictionary or a string. *)
Inductive message (D : Type) :=
  | MDict (d : D)
  | MStr (s : string).
Arguments MDict {D}.
Arguments MStr {D}.

(** [fuel] bounds the polling loop of [lora.send], which is called with
    its default timeout of 5000 ms. *)
Definition send_message {D} `{Dict D} (fuel : nat) (message : message D)
    (blink : bool) : T D bool :=
  let* message_str :=
    match message with
    | MDict d =>
        let* d := (if contains "src" d then tret d
                   else let* nid := get_node_id in tret (setitem "src" nid d)) in
        let* d := (if contains "id" d then tret d
                   else let* id := _get_next_message_id in
                        tret (setitem "id" id d)) in
        tret (dumps d)
    | MStr s => tret s
    end in
  let* now := lift ticks_ms in
  set_last_send_time now ;;;
  say (Sending message_str) ;;;
  let* result := lift (send fuel (PyStr message_str) 5000) in
  (if blink && result then _blink_led 2 100 else tret tt) ;;;
  lift recv ;;;
  tret result.

(** ** Changing a radio parameter *)





(** ** Bringing the radio up *)






(** ** Mode *)

Definition wake {D} : T D unit :=
  lift recv ;;;
  led_value true.

Definition standby {D} : T D unit := lift standby.

End TBeam.

(** Messages arriving one after the other, each buffered with the same
    bound. *)
Fixpoint buffer_all {D} (ms : list D) (max_buffer : Z) : TBeam.T D unit :=
  match ms with
  | [] => TBeam.tret tt
  | m :: rest =>
      TBeam.tbind (TBeam._add_to_message_buffer m max_buffer)
                  (fun _ => buffer_all rest max_buffer)
  end.

(** No character of [s] is an underscore. *)
Fixpoint no_underscore (s : string) : bool :=
  match s with
  | EmptyString => true
  | String c rest => negb (Ascii.eqb c "_"%char) && no_underscore rest
  end.

(** * Part II: properties *)

(** ** Bytes and bit patterns *)

Lemma forall_byte (p : Z -> bool) :
  forallb p (map Z.of_nat (seq 0 256)) = true ->
  forall r, 0 <= r <= 255 -> p r = true.
Proof.
  intros H r Hr. rewrite forallb_forall in H. apply H.
  apply in_map_iff. exists (Z.to_nat r). split; [lia|].
  apply in_seq. lia.
Qed.

Lemma peek_range m a : 0 <= peek m a <= 255.
Proof.
  unfold peek. change 255 with (Z.ones 8).
  rewrite Z.land_ones by lia. change (Z.ones 8) with 255.
  pose proof (Z.mod_pos_bound (default 0 (m !! a)) (2 ^ 8)). lia.
Qed.

Lemma is_byte_true v : is_byte v = true <-> 0 <= v <= 255.
Proof. unfold is_byte. rewrite andb_true_iff, !Z.leb_le. tauto. Qed.

Lemma is_byte_false v : is_byte v = false <-> v < 0 \/ 255 < v.
Proof.
  unfold is_byte. rewrite andb_false_iff, !Z.leb_gt. tauto.
Qed.

Lemma is_byte_peek m a : is_byte (peek m a) = true.
Proof. apply is_byte_true, peek_range. Qed.

(** ** Frames built by [_transfer] *)

Lemma write_addr_facts a :
  0 <= a < 128 ->
  is_byte (Z.lor a 0x80) = true /\ Z.testbit (Z.lor a 0x80) 7 = true
  /\ Z.land (Z.lor a 0x80) 0x7f = a.
Proof.
  intros Ha.
  pose proof (forall_byte
    (fun a => is_byte (Z.lor a 0x80) && Z.testbit (Z.lor a 0x80) 7
              && (Z.land (Z.lor a 0x80) 0x7f =? a) || (127 <? a))
    ltac:(vm_compute; reflexivity) a ltac:(lia)) as H.
  cbv beta in H. apply orb_true_iff in H. destruct H as [H|H]; [|lia].
  apply andb_true_iff in H. destruct H as [H H3].
  apply andb_true_iff in H. destruct H as [H1 H2].
  apply Z.eqb_eq in H3. auto.
Qed.

Lemma read_addr_facts a :
  0 <= a < 128 ->
  is_byte (Z.land a 0x7f) = true /\ Z.testbit (Z.land a 0x7f) 7 = false
  /\ Z.land (Z.land a 0x7f) 0x7f = a.
Proof.
  intros Ha.
  pose proof (forall_byte
    (fun a => is_byte (Z.land a 0x7f) && negb (Z.testbit (Z.land a 0x7f) 7)
              && (Z.land (Z.land a 0x7f) 0x7f =? a) || (127 <? a))
    ltac:(vm_compute; reflexivity) a ltac:(lia)) as H.
  cbv beta in H. apply orb_true_iff in H. destruct H as [H|H]; [|lia].
  apply andb_true_iff in H. destruct H as [H H3].
  apply andb_true_iff in H. destruct H as [H1 H2].
  apply Z.eqb_eq in H3. apply negb_true_iff in H2. auto.
Qed.

Lemma plain_reg_addr a : plain_reg a = true -> 0 <= a < 128.
Proof.
  unfold plain_reg. rewrite !andb_true_iff, Z.leb_le, Z.ltb_lt. tauto.
Qed.

Lemma _write_plain a v s :
  plain_reg a = true -> is_byte v = true ->
  _write a v s = Returned tt (set_hw (store a v (hw s)) s).
Proof.
  intros Ha Hv. pose proof (plain_reg_addr _ Ha) as Hr.
  destruct (write_addr_facts a Hr) as (Hb & Ht & Hl).
  unfold plain_reg in Ha. rewrite !andb_true_iff, !negb_true_iff in Ha.
  destruct Ha as [[[_ Hf] Hi] Hs].
  unfold _write, bind, _transfer. rewrite Hb, Hv.
  cbv beta iota delta [spi_write_readinto spi_write cs_value set_hw hw_tick
                       nss latch hw].
  rewrite Ht, Hl. unfold reg_write. rewrite Hf, Hi, Hs.
  reflexivity.
Qed.

Lemma _write_irq v s :
  is_byte v = true ->
  _write Registers.IRQ_FLAGS v s = Returned tt (set_hw (ack v (hw s)) s).
Proof.
  intros Hv. unfold _write, bind, _transfer.
  change (is_byte (Z.lor Registers.IRQ_FLAGS 128)) with true. rewrite Hv.
  reflexivity.
Qed.

Lemma _write_fifo v s :
  is_byte v = true ->
  _write Registers.FIFO v s = Returned tt (set_hw (push v (hw s)) s).
Proof.
  intros Hv. unfold _write, bind, _transfer.
  change (is_byte (Z.lor Registers.FIFO 128)) with true. rewrite Hv.
  reflexivity.
Qed.

Lemma _write_refused a v s :
  0 <= a < 128 -> is_byte v = false ->
  _write a v s = Raised (BytesRange v) (set_hw (aborted (hw s)) s).
Proof.
  intros Hr Hv. destruct (write_addr_facts a Hr) as (Hb & _).
  unfold _write, bind, _transfer. rewrite Hb, Hv. reflexivity.
Qed.

Lemma _read_reg a s :
  cell_reg a = true ->
  _read a s = Returned (peek (tick_regs (hw s)) a) (set_hw (load a (hw s)) s).
Proof.
  unfold cell_reg. rewrite !andb_true_iff, negb_true_iff, Z.leb_le, Z.ltb_lt.
  intros [Hr Hf]. destruct (read_addr_facts a Hr) as (Hb & Ht & Hl).
  unfold _read, _transfer. rewrite Hb.
  change (is_byte 0) with true.
  cbv beta iota delta [spi_write_readinto spi_write cs_value set_hw hw_tick
                       nss latch hw].
  rewrite Ht, Hl. unfold reg_read. rewrite Hf.
  reflexivity.
Qed.

Lemma _read_fifo s :
  _read Registers.FIFO s =
  Returned (peek (fifo (hw s)) (peek (tick_regs (hw s)) Registers.FIFO_ADDR_PTR))
           (set_hw (pop (hw s)) s).
Proof. reflexivity. Qed.

(** Registers the hardware does not own keep their value across the
    start of a frame. *)
Lemma peek_insert_eq (m : gmap Z Z) a v : peek (<[a := v]> m) a = Z.land v 0xff.
Proof. unfold peek. rewrite lookup_insert_eq. reflexivity. Qed.

Lemma peek_insert_ne (m : gmap Z Z) a b v : a <> b -> peek (<[a := v]> m) b = peek m b.
Proof. intros H. unfold peek. rewrite lookup_insert_ne by exact H. reflexivity. Qed.

Lemma peek_insert_byte (m : gmap Z Z) a v : is_byte v = true -> peek (<[a := v]> m) a = v.
Proof.
  intros H. apply is_byte_true in H. rewrite peek_insert_eq.
  change 255 with (Z.ones 8). rewrite Z.land_ones by lia.
  apply Z.mod_small. lia.
Qed.

Lemma tick_regs_driver c a :
  driver_reg a = true -> peek (tick_regs c) a = peek (regs c) a.
Proof.
  unfold driver_reg. rewrite andb_true_iff, !negb_true_iff.
  intros [Hi Hs]. apply Z.eqb_neq in Hi.
  unfold tick_regs. destruct (script c) as [|[bits|b v] rest]; [reflexivity| |].
  - simpl. apply peek_insert_ne. congruence.
  - simpl. destruct (status_reg b) eqn:Hb; [|reflexivity].
    apply peek_insert_ne. intros ->. congruence.
Qed.

(** ** Stepping through monadic code *)

Ltac mred :=
  cbv beta iota delta [bind ret raise put_cfg get_cfg get_config
                       ticks_ms ticks_diff sleep_ms print deliver].

Ltac neq_consts :=
  let H := fresh in intro H; vm_compute in H; discriminate H.

Create HintDb bytes.
#[local] Hint Resolve is_byte_peek : bytes.

Ltac side := first [reflexivity | assumption | neq_consts | solve [auto with bytes] | lia].

Ltac mstep :=
  first
    [ rewrite _write_plain by side
    | rewrite _write_irq by side
    | rewrite _write_fifo by side
    | rewrite _read_reg by side
    | rewrite _read_fifo ];
  mred.

Ltac proj :=
  unfold reg;
  cbn [hw set_hw set_config store load aborted ack push pop
       regs bus_log fifo script nss latch _config clock console
       _on_recv inbox
       frequency bandwidth spreading_factor coding_rate preamble_length
       tx_power crc implicit sync_word output_pin
       with_frequency with_bandwidth with_spreading_factor with_coding_rate
       with_preamble_length with_tx_power with_crc with_implicit
       with_sync_word with_output_pin].

Ltac reg_simpl :=
  proj;
  repeat first
    [ rewrite peek_insert_byte by side
    | rewrite peek_insert_ne by neq_consts
    | rewrite tick_regs_driver by reflexivity
    | progress proj ].

Ltac log_simpl :=
  proj; rewrite ?tick_regs_driver by reflexivity;
  rewrite <- ?List.app_assoc; cbn [app].

(** ** Byte-valued bit patterns written by the setters *)

Lemma byte_implies (p q : Z -> bool) :
  forallb (fun r => implb (p r) (q r)) (map Z.of_nat (seq 0 256)) = true ->
  forall r, 0 <= r <= 255 -> p r = true -> q r = true.
Proof.
  intros H r Hr Hp.
  pose proof (forall_byte _ H r Hr) as Hi. cbv beta in Hi.
  rewrite Hp in Hi. exact Hi.
Qed.

Lemma is_byte_lor_const k r :
  is_byte k = true -> is_byte r = true -> is_byte (Z.lor r k) = true.
Proof.
  rewrite !is_byte_true. intros Hk Hr.
  assert (H : 0 <= Z.lor r k < 2 ^ 8); [|lia].
  split; [apply Z.lor_nonneg; lia|].
  destruct (Z.eq_dec (Z.lor r k) 0) as [->|Hz]; [lia|].
  apply Z.log2_lt_pow2; [pose proof (Z.lor_nonneg r k); lia|].
  rewrite Z.log2_lor by lia.
  apply Z.max_lub_lt.
  - destruct (Z.eq_dec r 0) as [->|]; [simpl; lia|]. apply Z.log2_lt_pow2; lia.
  - destruct (Z.eq_dec k 0) as [->|]; [simpl; lia|]. apply Z.log2_lt_pow2; lia.
Qed.

Lemma is_byte_land_l r k : is_byte r = true -> is_byte (Z.land r k) = true.
Proof.
  rewrite !is_byte_true. intros Hr.
  split; [apply Z.land_nonneg; lia|].
  destruct (Z.eq_dec (Z.land r k) 0) as [->|Hz]; [lia|].
  assert (0 <= Z.land r k) by (apply Z.land_nonneg; lia).
  assert (Z.land r k < 2 ^ 8); [|lia].
  apply Z.log2_lt_pow2; [lia|].
  destruct (Z.eq_dec r 0) as [->|Hr0]; [rewrite Z.land_0_l in Hz; lia|].
  assert (Z.log2 r < 8) by (apply Z.log2_lt_pow2; lia).
  assert (Z.log2 (Z.land r k) <= Z.log2 r); [|lia].
  destruct (Z.le_gt_cases (Z.log2 (Z.land r k)) (Z.log2 r)) as [Hle|Hgt]; [exact Hle|].
  exfalso.
  assert (Hb : Z.testbit (Z.land r k) (Z.log2 (Z.land r k)) = true)
    by (apply Z.bit_log2; lia).
  rewrite Z.land_spec, (Z.bits_above_log2 r) in Hb by lia. discriminate.
Qed.

Lemma is_byte_land_r r k : is_byte k = true -> is_byte (Z.land r k) = true.
Proof. intros H. rewrite Z.land_comm. apply is_byte_land_l, H. Qed.

#[local] Hint Resolve is_byte_lor_const is_byte_land_l is_byte_land_r : bytes.

#[local] Hint Extern 3 (is_byte _ = true) => (apply is_byte_true; lia) : bytes.
#[local] Hint Extern 1 (is_byte _ = true) => reflexivity : bytes.

Lemma is_byte_clamp x lo hi :
  0 <= lo -> lo <= hi -> hi <= 255 -> is_byte (Z.min (Z.max x lo) hi) = true.
Proof. intros. apply is_byte_true. lia. Qed.

Lemma is_byte_clamp' x lo hi :
  0 <= lo -> lo <= hi -> hi <= 255 -> is_byte (Z.max lo (Z.min x hi)) = true.
Proof. intros. apply is_byte_true. lia. Qed.

#[local] Hint Resolve is_byte_clamp is_byte_clamp' : bytes.

(** ** Power amplifier *)

Lemma set_tx_power_rfo level s :
  set_tx_power level PAConfig.RFO_PIN s =
  Returned tt
    (set_hw (store Registers.PA_CONFIG (Z.lor 0x70 (Z.min (Z.max level 0) 14))
                   (hw s))
       (set_config (with_output_pin PAConfig.RFO_PIN
                      (with_tx_power level (_config s))) s)).
Proof.
  unfold set_tx_power. mred. change (PAConfig.RFO_PIN =? PAConfig.RFO_PIN) with true.
  mred. mstep. reflexivity.
Qed.

Lemma set_tx_power_boost_full level pin s :
  pin <> PAConfig.RFO_PIN -> 19 < level ->
  set_tx_power level pin s =
  let s0 := set_config (with_output_pin pin (with_tx_power level (_config s))) s in
  let dac := reg s Registers.PA_DAC in
  Returned tt
    (set_hw (store Registers.PA_CONFIG (Z.lor PAConfig.PA_BOOST 15)
               (store Registers.PA_DAC (Z.lor dac 0x07)
                  (load Registers.PA_DAC (hw s)))) s0).
Proof.
  intros Hp Hl. unfold set_tx_power. mred.
  apply Z.eqb_neq in Hp. rewrite Hp.
  replace (17 <? level) with true by (symmetry; apply Z.ltb_lt; lia).
  replace (19 <? level) with true by (symmetry; apply Z.ltb_lt; lia).
  mred. do 3 mstep. proj. rewrite tick_regs_driver by reflexivity.
  reflexivity.
Qed.

Lemma set_tx_power_boost_partial level pin s :
  pin <> PAConfig.RFO_PIN -> 17 < level <= 19 ->
  set_tx_power level pin s =
  let s0 := set_config (with_output_pin pin (with_tx_power level (_config s))) s in
  let dac := reg s Registers.PA_DAC in
  Returned tt
    (set_hw (store Registers.PA_CONFIG (Z.lor PAConfig.PA_BOOST 15)
               (store Registers.PA_DAC (Z.lor (Z.land dac (Z.lnot 0x07)) 0x04)
                  (load Registers.PA_DAC (hw s)))) s0).
Proof.
  intros Hp Hl. unfold set_tx_power. mred.
  apply Z.eqb_neq in Hp. rewrite Hp.
  replace (17 <? level) with true by (symmetry; apply Z.ltb_lt; lia).
  replace (19 <? level) with false by (symmetry; apply Z.ltb_ge; lia).
  mred. do 3 mstep. proj. rewrite tick_regs_driver by reflexivity.
  reflexivity.
Qed.

Lemma set_tx_power_boost_low level pin s :
  pin <> PAConfig.RFO_PIN -> 2 <= level <= 17 ->
  set_tx_power level pin s =
  let s0 := set_config (with_output_pin pin (with_tx_power level (_config s))) s in
  let dac := reg s Registers.PA_DAC in
  Returned tt
    (set_hw (store Registers.PA_CONFIG (Z.lor PAConfig.PA_BOOST (level - 2))
               (store Registers.PA_DAC (Z.land dac (Z.lnot 0x07))
                  (load Registers.PA_DAC (hw s)))) s0).
Proof.
  intros Hp Hl. unfold set_tx_power. mred.
  apply Z.eqb_neq in Hp. rewrite Hp.
  replace (17 <? level) with false by (symmetry; apply Z.ltb_ge; lia).
  mred. do 2 mstep.
  rewrite _write_plain;
    [|reflexivity
     |rewrite Z.lor_comm; apply is_byte_lor_const; [reflexivity|apply is_byte_true; lia]].
  proj. rewrite tick_regs_driver by reflexivity.
  reflexivity.
Qed.

Lemma boost_field_negative level :
  level < 2 -> Z.lor PAConfig.PA_BOOST (level - 2) < 0.
Proof. intros H. apply Z.lor_neg. right. lia. Qed.

Lemma set_tx_power_boost_refused level pin s :
  pin <> PAConfig.RFO_PIN -> level < 2 ->
  set_tx_power level pin s =
  let s0 := set_config (with_output_pin pin (with_tx_power level (_config s))) s in
  let dac := reg s Registers.PA_DAC in
  Raised (BytesRange (Z.lor PAConfig.PA_BOOST (level - 2)))
    (set_hw (aborted
               (store Registers.PA_DAC (Z.land dac (Z.lnot 0x07))
                  (load Registers.PA_DAC (hw s)))) s0).
Proof.
  intros Hp Hl. unfold set_tx_power. mred.
  apply Z.eqb_neq in Hp. rewrite Hp.
  replace (17 <? level) with false by (symmetry; apply Z.ltb_ge; lia).
  mred. do 2 mstep.
  rewrite _write_refused;
    [|vm_compute; intuition congruence
     |apply is_byte_false; left; apply boost_field_negative; exact Hl].
  proj. rewrite tick_regs_driver by reflexivity.
  reflexivity.
Qed.

(** C6: what [set_tx_power] writes.  On the RFO path the register gets
    0x70 or'ed with the level clamped to 0..14.  On the boosted path a level
    above 17 turns the auxiliary amplifier stage on (all three low bits of
    its register when the level is above 19, bit 2 alone otherwise) and the
    level field written with the boost flag is 15; a level of at most 17
    clears the three bits of the auxiliary stage and hands the boost flag
    or'ed with [level - 2] to the register write, which stores it whenever
    it is a byte. *)
Theorem set_tx_power_encoding (level pin : Z) (s : LoRa) :
  let dac := reg s Registers.PA_DAC in
  (pin = PAConfig.RFO_PIN ->
   exists s',
     set_tx_power level pin s = Returned tt s'
     /\ bus_log (hw s') = bus_log (hw s) ++
          [RegWrite Registers.PA_CONFIG (Z.lor 0x70 (Z.min (Z.max level 0) 14))]
     /\ reg s' Registers.PA_CONFIG = Z.lor 0x70 (Z.min (Z.max level 0) 14))
  /\ (pin <> PAConfig.RFO_PIN -> 19 < level ->
      exists s',
        set_tx_power level pin s = Returned tt s'
        /\ bus_log (hw s') = bus_log (hw s) ++
             [RegRead Registers.PA_DAC dac;
              RegWrite Registers.PA_DAC (Z.lor dac 0x07);
              RegWrite Registers.PA_CONFIG (Z.lor PAConfig.PA_BOOST 15)]
        /\ reg s' Registers.PA_DAC = Z.lor dac 0x07
        /\ reg s' Registers.PA_CONFIG = Z.lor PAConfig.PA_BOOST 15)
  /\ (pin <> PAConfig.RFO_PIN -> 17 < level <= 19 ->
      exists s',
        set_tx_power level pin s = Returned tt s'
        /\ bus_log (hw s') = bus_log (hw s) ++
             [RegRead Registers.PA_DAC dac;
              RegWrite Registers.PA_DAC (Z.lor (Z.land dac (Z.lnot 0x07)) 0x04);
              RegWrite Registers.PA_CONFIG (Z.lor PAConfig.PA_BOOST 15)]
        /\ reg s' Registers.PA_DAC = Z.lor (Z.land dac (Z.lnot 0x07)) 0x04
        /\ reg s' Registers.PA_CONFIG = Z.lor PAConfig.PA_BOOST 15)
  /\ (pin <> PAConfig.RFO_PIN -> level <= 17 ->
      exists s',
        set_tx_power level pin s =
          (if 2 <=? level then Returned tt s'
           else Raised (BytesRange (Z.lor PAConfig.PA_BOOST (level - 2))) s')
        /\ bus_log (hw s') = bus_log (hw s) ++
             [RegRead Registers.PA_DAC dac;
              RegWrite Registers.PA_DAC (Z.land dac (Z.lnot 0x07))] ++
             (if 2 <=? level
              then [RegWrite Registers.PA_CONFIG
                      (Z.lor PAConfig.PA_BOOST (level - 2))]
              else [])
        /\ reg s' Registers.PA_DAC = Z.land dac (Z.lnot 0x07)
        /\ (2 <= level ->
            reg s' Registers.PA_CONFIG = Z.lor PAConfig.PA_BOOST (level - 2))).
Proof.
  intros dac. repeat split.
  - intros ->. eexists. split; [apply set_tx_power_rfo|].
    split; [reflexivity|]. reg_simpl. reflexivity.
  - intros Hp Hl. eexists. split; [apply set_tx_power_boost_full; assumption|].
    cbv zeta. split; [log_simpl; reflexivity|].
    split; reg_simpl; reflexivity.
  - intros Hp Hl. eexists. split; [apply set_tx_power_boost_partial; assumption|].
    cbv zeta. split; [log_simpl; reflexivity|].
    split; reg_simpl; reflexivity.
  - intros Hp Hl. destruct (2 <=? level) eqn:H2.
    + apply Z.leb_le in H2. eexists.
      split; [apply set_tx_power_boost_low; [assumption|lia]|].
      cbv zeta. split; [log_simpl; reflexivity|].
      split; [reg_simpl; reflexivity|]. intros _.
      reg_simpl. reflexivity.
    + apply Z.leb_gt in H2. eexists.
      split; [apply set_tx_power_boost_refused; [assumption|lia]|].
      cbv zeta. split; [log_simpl; reflexivity|].
      split; [reg_simpl; reflexivity|]. intros; lia.
Qed.

Lemma set_tx_power_encoding_witness :
  (exists s',
     set_tx_power 20 PAConfig.BOOST_PIN sample_driver = Returned tt s'
     /\ reg s' Registers.PA_DAC = 0x07
     /\ reg s' Registers.PA_CONFIG = 0x8f)
  /\ (exists s',
        set_tx_power 14 PAConfig.RFO_PIN sample_driver = Returned tt s'
        /\ reg s' Registers.PA_CONFIG = 0x7e).
Proof.
  split.
  - destruct (set_tx_power_encoding 20 PAConfig.BOOST_PIN sample_driver)
      as (_ & H & _).
    destruct H as (s' & He & _ & Hd & Hc); [neq_consts | lia |].
    exists s'. split; [exact He|]. split; [exact Hd | exact Hc].
  - destruct (set_tx_power_encoding 14 PAConfig.RFO_PIN sample_driver)
      as (H & _).
    destruct H as (s' & He & _ & Hc); [reflexivity|].
    exists s'. split; [exact He | exact Hc].
Defined.

(** C10: on the boosted path the level has no lower clamp.  Below 2 the
    value handed to the register write, the boost flag or'ed with
    [level - 2], is negative: [bytes([value])] refuses it, the frame stops
    after its address byte and the register keeps its old value.  From 2
    upwards the call returns and the register holds a byte. *)
Theorem set_tx_power_boost_lower_bound (level pin : Z) (s : LoRa) :
  pin <> PAConfig.RFO_PIN ->
  (level < 2 ->
   Z.lor PAConfig.PA_BOOST (level - 2) < 0
   /\ exists s',
        set_tx_power level pin s =
          Raised (BytesRange (Z.lor PAConfig.PA_BOOST (level - 2))) s'
        /\ bus_log (hw s') = bus_log (hw s) ++
             [RegRead Registers.PA_DAC (reg s Registers.PA_DAC);
              RegWrite Registers.PA_DAC
                (Z.land (reg s Registers.PA_DAC) (Z.lnot 0x07))]
        /\ reg s' Registers.PA_CONFIG = reg s Registers.PA_CONFIG
        /\ tx_power (_config s') = level)
  /\ (2 <= level ->
      exists s' field,
        set_tx_power level pin s = Returned tt s'
        /\ 0 <= field <= 15
        /\ (level <= 17 -> field = level - 2)
        /\ reg s' Registers.PA_CONFIG = PAConfig.PA_BOOST + field).
Proof.
  intros Hp. split.
  - intros Hl. split; [apply boost_field_negative, Hl|].
    eexists. split; [apply set_tx_power_boost_refused; assumption|].
    cbv zeta. split; [log_simpl; reflexivity|].
    split; [reg_simpl; reflexivity | reflexivity].
  - intros Hl.
    assert (Hadd : forall f, 0 <= f <= 15 ->
              Z.lor PAConfig.PA_BOOST f = PAConfig.PA_BOOST + f).
    { intros f Hf.
      pose proof (byte_implies (fun f => f <=? 15)
                    (fun f => Z.lor PAConfig.PA_BOOST f =? PAConfig.PA_BOOST + f)
                    ltac:(vm_compute; reflexivity) f ltac:(lia)) as H.
      cbv beta in H. apply Z.eqb_eq, H. apply Z.leb_le. lia. }
    destruct (Z.le_gt_cases level 17) as [H17|H17].
    + exists (set_hw (store Registers.PA_CONFIG (Z.lor PAConfig.PA_BOOST (level - 2))
               (store Registers.PA_DAC (Z.land (reg s Registers.PA_DAC) (Z.lnot 0x07))
                  (load Registers.PA_DAC (hw s))))
               (set_config (with_output_pin pin (with_tx_power level (_config s))) s)),
             (level - 2).
      split; [apply set_tx_power_boost_low; [assumption|lia]|].
      split; [lia|]. split; [reflexivity|].
      reg_simpl. apply Hadd. lia.
    + destruct (Z.le_gt_cases level 19) as [H19|H19].
      * eexists; exists 15.
        split; [apply set_tx_power_boost_partial; [assumption|lia]|].
        split; [lia|]. split; [lia|]. cbv zeta. reg_simpl. apply Hadd. lia.
      * eexists; exists 15.
        split; [apply set_tx_power_boost_full; [assumption|lia]|].
        split; [lia|]. split; [lia|]. cbv zeta. reg_simpl. apply Hadd. lia.
Qed.

Lemma set_tx_power_boost_lower_bound_witness :
  (exists s',
     set_tx_power 0 PAConfig.BOOST_PIN sample_driver = Raised (BytesRange (-2)) s'
     /\ reg s' Registers.PA_CONFIG = reg sample_driver Registers.PA_CONFIG)
  /\ (exists s',
        set_tx_power 1 PAConfig.BOOST_PIN sample_driver = Raised (BytesRange (-1)) s')
  /\ (exists s',
        set_tx_power 2 PAConfig.BOOST_PIN sample_driver = Returned tt s'
        /\ reg s' Registers.PA_CONFIG = 0x80).
Proof.
  assert (Hp : PAConfig.BOOST_PIN <> PAConfig.RFO_PIN) by neq_consts.
  split; [|split].
  - destruct (set_tx_power_boost_lower_bound 0 _ sample_driver Hp) as (H & _).
    destruct H as (_ & s' & He & _ & Hc & _); [lia|].
    exists s'. split; [exact He | exact Hc].
  - destruct (set_tx_power_boost_lower_bound 1 _ sample_driver Hp) as (H & _).
    destruct H as (_ & s' & He & _); [lia|].
    exists s'. exact He.
  - destruct (set_tx_power_boost_lower_bound 2 _ sample_driver Hp) as (_ & H).
    destruct H as (s' & f & He & _ & Hf & Hc); [lia|].
    exists s'. split; [exact He|]. rewrite Hc, Hf by lia. reflexivity.
Defined.

(** ** Bandwidth and spreading factor *)

(** The search loop returns the position of the first entry that is at
    least [bw], counted from [i], or the fallback when there is none. *)
Lemma bw_search_spec bw table :
  forall i d,
    (bw_search bw table i d = d /\ Forall (fun b => b < bw) table)
    \/ (exists (k : nat) b,
          bw_search bw table i d = i + Z.of_nat k
          /\ table !! k = Some b /\ bw <= b
          /\ forall (j : nat) b', (j < k)%nat -> table !! j = Some b' -> b' < bw).
Proof.
  induction table as [|b rest IH]; intros i d.
  - left. split; [reflexivity | constructor].
  - simpl. destruct (bw <=? b) eqn:Hb.
    + apply Z.leb_le in Hb. right. exists 0%nat, b.
      split; [lia|]. split; [reflexivity|]. split; [exact Hb|]. intros; lia.
    + apply Z.leb_gt in Hb.
      destruct (IH (i + 1) d) as [[He Hall] | (k & b' & He & Hk & Hle & Hlt)].
      * left. split; [exact He | constructor; assumption].
      * right. exists (S k), b'. split; [lia|]. split; [exact Hk|].
        split; [exact Hle|]. intros [|j] c Hj Hc.
        -- simpl in Hc. injection Hc as <-. exact Hb.
        -- simpl in Hc. apply (Hlt j); [lia | exact Hc].
Qed.

Lemma bw_index_range bw : 0 <= bw_search bw Config.BANDWIDTHS 0 9 <= 9.
Proof.
  destruct (bw_search_spec bw Config.BANDWIDTHS 0 9)
    as [[-> _] | (k & b & -> & Hk & _)]; [lia|].
  apply lookup_lt_Some in Hk. simpl in Hk. lia.
Qed.

Lemma is_byte_bw_index bw :
  is_byte (Z.shiftl (bw_search bw Config.BANDWIDTHS 0 9) 4) = true.
Proof.
  pose proof (bw_index_range bw). apply is_byte_true.
  rewrite Z.shiftl_mul_pow2 by lia. lia.
Qed.

#[local] Hint Resolve is_byte_bw_index : bytes.

(** The value both setters write to MODEM_CONFIG_3. *)
Lemma write_ldro (c : bool) s :
  (if c then _write Registers.MODEM_CONFIG_3 0x08
   else _write Registers.MODEM_CONFIG_3 0x04) s =
  Returned tt
    (set_hw (store Registers.MODEM_CONFIG_3 (if c then 0x08 else 0x04) (hw s)) s).
Proof. destruct c; rewrite _write_plain by side; reflexivity. Qed.

Lemma set_bandwidth_run bw s :
  set_bandwidth bw s =
  let idx := bw_search bw Config.BANDWIDTHS 0 9 in
  let sf := spreading_factor (_config s) in
  Returned tt
    (set_hw
       (store Registers.MODEM_CONFIG_3
          (if (10 <? sf) && (bw <? 250000) then 0x08 else 0x04)
          (store Registers.MODEM_CONFIG_1
             (Z.lor (Z.land (reg s Registers.MODEM_CONFIG_1) 0x0f)
                    (Z.shiftl idx 4))
             (load Registers.MODEM_CONFIG_1 (hw s))))
       (set_config (with_bandwidth bw (_config s)) s)).
Proof.
  unfold set_bandwidth. mred. do 2 mstep. rewrite write_ldro.
  proj. rewrite tick_regs_driver by reflexivity. reflexivity.
Qed.

Lemma is_byte_sf_field r sf :
  is_byte (Z.lor (Z.land r 0x0f) (Z.land (Z.shiftl sf 4) 0xf0)) = true.
Proof.
  apply is_byte_lor_const; apply is_byte_land_r; reflexivity.
Qed.

#[local] Hint Resolve is_byte_sf_field : bytes.

Lemma set_spreading_factor_run sf s :
  6 <= sf <= 12 ->
  set_spreading_factor sf s =
  let bw := bandwidth (_config s) in
  Returned tt
    (set_hw
       (store Registers.MODEM_CONFIG_3
          (if (10 <? sf) && (bw <? 250000) then 0x08 else 0x04)
          (store Registers.MODEM_CONFIG_2
             (Z.lor (Z.land (reg s Registers.MODEM_CONFIG_2) 0x0f)
                    (Z.land (Z.shiftl sf 4) 0xf0))
             (load Registers.MODEM_CONFIG_2
                (store Registers.DETECTION_THRESHOLD
                   (if sf =? 6 then 0x0c else 0x0a)
                   (store Registers.DETECTION_OPTIMIZE
                      (if sf =? 6 then 0xc5 else 0xc3) (hw s))))))
       (set_config (with_spreading_factor sf (_config s)) s)).
Proof.
  intros Hsf. unfold set_spreading_factor.
  replace (sf <? 6) with false by (symmetry; apply Z.ltb_ge; lia).
  replace (12 <? sf) with false by (symmetry; apply Z.ltb_ge; lia).
  cbn [orb]. mred.
  assert (H1 : is_byte (if sf =? 6 then 0xc5 else 0xc3) = true)
    by (destruct (sf =? 6); reflexivity).
  assert (H2 : is_byte (if sf =? 6 then 0x0c else 0x0a) = true)
    by (destruct (sf =? 6); reflexivity).
  do 4 mstep. rewrite write_ldro.
  proj. rewrite !tick_regs_driver by reflexivity.
  reg_simpl. reflexivity.
Qed.

Lemma set_spreading_factor_rejects sf s :
  sf < 6 \/ 12 < sf -> set_spreading_factor sf s = Raised SpreadingFactorRange s.
Proof.
  intros H. unfold set_spreading_factor.
  replace ((sf <? 6) || (12 <? sf)) with true; [reflexivity|].
  symmetry. apply orb_true_iff. rewrite Z.ltb_lt, Z.ltb_lt. exact H.
Qed.

Lemma nibble_pack r i :
  0 <= r <= 255 -> 0 <= i <= 15 ->
  Z.shiftr (Z.lor (Z.land r 0x0f) (Z.shiftl i 4)) 4 = i
  /\ Z.land (Z.lor (Z.land r 0x0f) (Z.shiftl i 4)) 0x0f = Z.land r 0x0f.
Proof.
  intros Hr Hi.
  pose proof (forall_byte
    (fun r => forallb
       (fun i => (Z.shiftr (Z.lor (Z.land r 0x0f) (Z.shiftl i 4)) 4 =? i)
                 && (Z.land (Z.lor (Z.land r 0x0f) (Z.shiftl i 4)) 0x0f
                     =? Z.land r 0x0f))
       (map Z.of_nat (seq 0 16)))
    ltac:(vm_compute; reflexivity) r Hr) as H.
  cbv beta in H. rewrite forallb_forall in H.
  specialize (H i). rewrite andb_true_iff, !Z.eqb_eq in H. apply H.
  apply in_map_iff. exists (Z.to_nat i). split; [lia|]. apply in_seq. lia.
Qed.

(** C5: [set_bandwidth] stores in the high nibble of MODEM_CONFIG_1 the
    position of the first entry of the ascending table that is at least the
    requested bandwidth and keeps the low nibble; when every entry is
    below the request the index is 9, the length of the table; a request
    of 125000 gives index 7. *)
Theorem set_bandwidth_index (bw : Z) (s : LoRa) :
  exists s' idx,
    set_bandwidth bw s = Returned tt s'
    /\ 0 <= idx <= 9
    /\ ((exists b,
           Config.BANDWIDTHS !! Z.to_nat idx = Some b /\ bw <= b
           /\ forall (j : nat) b',
                (j < Z.to_nat idx)%nat -> Config.BANDWIDTHS !! j = Some b' -> b' < bw)
        \/ (Forall (fun b => b < bw) Config.BANDWIDTHS
            /\ idx = Z.of_nat (length Config.BANDWIDTHS)))
    /\ reg s' Registers.MODEM_CONFIG_1 =
         Z.lor (Z.land (reg s Registers.MODEM_CONFIG_1) 0x0f) (Z.shiftl idx 4)
    /\ Z.shiftr (reg s' Registers.MODEM_CONFIG_1) 4 = idx
    /\ Z.land (reg s' Registers.MODEM_CONFIG_1) 0x0f =
         Z.land (reg s Registers.MODEM_CONFIG_1) 0x0f
    /\ (250000 < bw <-> idx = 9)
    /\ (bw = 125000 -> idx = 7).
Proof.
  eexists. exists (bw_search bw Config.BANDWIDTHS 0 9).
  split; [apply set_bandwidth_run|].
  pose proof (bw_index_range bw) as Hrange.
  split; [exact Hrange|].
  assert (Hreg : reg
     (set_hw
        (store Registers.MODEM_CONFIG_3
           (if (10 <? spreading_factor (_config s)) && (bw <? 250000) then 8 else 4)
           (store Registers.MODEM_CONFIG_1
              (Z.lor (Z.land (reg s Registers.MODEM_CONFIG_1) 15)
                     (Z.shiftl (bw_search bw Config.BANDWIDTHS 0 9) 4))
              (load Registers.MODEM_CONFIG_1 (hw s))))
        (set_config (with_bandwidth bw (_config s)) s)) Registers.MODEM_CONFIG_1
     = Z.lor (Z.land (reg s Registers.MODEM_CONFIG_1) 0x0f)
             (Z.shiftl (bw_search bw Config.BANDWIDTHS 0 9) 4)).
  { reg_simpl. reflexivity. }
  cbv zeta. rewrite Hreg.
  destruct (nibble_pack (reg s Registers.MODEM_CONFIG_1)
              (bw_search bw Config.BANDWIDTHS 0 9)) as [Hhi Hlo];
    [apply peek_range | lia |].
  split.
  { destruct (bw_search_spec bw Config.BANDWIDTHS 0 9)
      as [[He Hall] | (k & b & He & Hk & Hle & Hlt)].
    - right. split; [exact Hall | rewrite He; reflexivity].
    - left. exists b. rewrite He. rewrite Z.add_0_l, Nat2Z.id.
      split; [exact Hk|]. split; [exact Hle | exact Hlt]. }
  split; [reflexivity|]. split; [exact Hhi|]. split; [exact Hlo|].
  split.
  - unfold Config.BANDWIDTHS, bw_search.
    repeat match goal with
           | |- context [bw <=? ?c] => destruct (Z.leb_spec bw c)
           end; split; intros; lia.
  - intros ->. reflexivity.
Qed.

Lemma set_bandwidth_index_witness :
  exists s',
    set_bandwidth 125000 sample_driver = Returned tt s'
    /\ Z.shiftr (reg s' Registers.MODEM_CONFIG_1) 4 = 7
    /\ Z.land (reg s' Registers.MODEM_CONFIG_1) 0x0f =
       Z.land (reg sample_driver Registers.MODEM_CONFIG_1) 0x0f.
Proof.
  destruct (set_bandwidth_index 125000 sample_driver)
    as (s' & idx & He & _ & _ & _ & Hhi & Hlo & _ & H7).
  exists s'. split; [exact He|]. split; [|exact Hlo].
  rewrite Hhi. apply H7. reflexivity.
Defined.

Lemma peek_insert_case (m : gmap Z Z) k a v :
  peek (<[k := v]> m) a = if k =? a then Z.land v 0xff else peek m a.
Proof.
  destruct (Z.eqb_spec k a) as [->|Hne];
    [apply peek_insert_eq | apply peek_insert_ne, Hne].
Qed.

(** C2: for a spreading factor in 6..12 and any bandwidth, calling
    [set_bandwidth] and [set_spreading_factor] in either order leaves the
    same value in MODEM_CONFIG_3: 0x08, the low-data-rate-optimize bit,
    exactly when the factor is above 10 and the bandwidth below 250000 Hz,
    and otherwise 0x04, the automatic-gain-control bit alone.  The stored
    configuration and every register the driver owns agree as well. *)
Theorem ldro_order_independent (sf bw : Z) (s : LoRa) :
  6 <= sf <= 12 ->
  exists s1 s2,
    (set_bandwidth bw ;;; set_spreading_factor sf) s = Returned tt s1
    /\ (set_spreading_factor sf ;;; set_bandwidth bw) s = Returned tt s2
    /\ reg s1 Registers.MODEM_CONFIG_3 = reg s2 Registers.MODEM_CONFIG_3
    /\ reg s1 Registers.MODEM_CONFIG_3 =
         (if (10 <? sf) && (bw <? 250000) then 0x08 else 0x04)
    /\ (Z.testbit (reg s1 Registers.MODEM_CONFIG_3) 3 = true
        <-> 10 < sf /\ bw < 250000)
    /\ (~ (10 < sf /\ bw < 250000) -> reg s1 Registers.MODEM_CONFIG_3 = 0x04)
    /\ _config s1 = _config s2
    /\ (forall a, driver_reg a = true -> reg s1 a = reg s2 a).
Proof.
  intros Hsf.
  assert (Hv : forall c : bool, is_byte (if c then 0x08 else 0x04) = true)
    by (intros []; reflexivity).
  eexists. eexists.
  split.
  { unfold bind. rewrite set_bandwidth_run. cbv zeta beta iota.
    rewrite set_spreading_factor_run by exact Hsf. cbv zeta. proj. reflexivity. }
  split.
  { unfold bind. rewrite set_spreading_factor_run by exact Hsf. cbv zeta beta iota.
    rewrite set_bandwidth_run. cbv zeta. proj. reflexivity. }
  assert (H3 : forall c : bool,
            Z.testbit (if c then 0x08 else 0x04) 3 = true <-> c = true)
    by (intros []; simpl; split; congruence).
  split; [reg_simpl; reflexivity|].
  split; [reg_simpl; reflexivity|].
  split.
  { reg_simpl. rewrite H3, andb_true_iff, !Z.ltb_lt. reflexivity. }
  split.
  { intros Hn. reg_simpl.
    destruct ((10 <? sf) && (bw <? 250000)) eqn:Hc; [|reflexivity].
    apply andb_true_iff in Hc. rewrite !Z.ltb_lt in Hc. contradiction. }
  split; [reflexivity|].
  intros a Ha. proj.
  repeat first [ rewrite tick_regs_driver by first [exact Ha | reflexivity]
               | rewrite peek_insert_case
               | progress proj ].
  repeat match goal with
         | |- context [?k =? a] => destruct (Z.eqb_spec k a)
         end; subst; try reflexivity; try (exfalso; vm_compute in *; congruence).
Qed.

Lemma ldro_order_independent_witness :
  exists s1 s2,
    (set_bandwidth 125000 ;;; set_spreading_factor 12) sample_driver = Returned tt s1
    /\ (set_spreading_factor 12 ;;; set_bandwidth 125000) sample_driver = Returned tt s2
    /\ reg s1 Registers.MODEM_CONFIG_3 = 0x08
    /\ reg s2 Registers.MODEM_CONFIG_3 = 0x08.
Proof.
  destruct (ldro_order_independent 12 125000 sample_driver ltac:(lia))
    as (s1 & s2 & H1 & H2 & Heq & Hv & _).
  exists s1, s2. split; [exact H1|]. split; [exact H2|].
  split; [exact Hv | rewrite <- Heq; exact Hv].
Defined.

(** ** Frequency *)

Lemma set_frequency_run f s :
  set_frequency f s =
  let frf := int_of_Q (f * (1000000 # 1) / FRF_STEP)%Q in
  Returned tt
    (set_hw
       (store Registers.FRF_LSB (Z.land frf 0xff)
          (store Registers.FRF_MID (Z.land (Z.shiftr frf 8) 0xff)
             (store Registers.FRF_MSB (Z.land (Z.shiftr frf 16) 0xff) (hw s))))
       (set_config (with_frequency f (_config s)) s)).
Proof.
  unfold set_frequency. mred.
  assert (Hb : forall x, is_byte (Z.land x 0xff) = true)
    by (intros x; apply is_byte_land_r; reflexivity).
  do 3 mstep. reflexivity.
Qed.









(** ** Transmit buffer *)

Lemma int_of_byte_range b : 0 <= int_of_byte b <= 255.
Proof.
  unfold int_of_byte. pose proof (Byte.to_N_bounded b). lia.
Qed.

Lemma is_byte_int_of_byte b : is_byte (int_of_byte b) = true.
Proof. apply is_byte_true, int_of_byte_range. Qed.

#[local] Hint Resolve is_byte_int_of_byte : bytes.

Lemma set_hw_set_hw c c' s : set_hw c (set_hw c' s) = set_hw c s.
Proof. reflexivity. Qed.

Lemma write_fifo_run data :
  forall s,
    write_fifo data s =
    Returned tt (set_hw (push_all (map int_of_byte data) (hw s)) s).
Proof.
  induction data as [|b rest IH]; intros s.
  - destruct s; reflexivity.
  - cbn [write_fifo map push_all]. mred. mstep. rewrite IH. reflexivity.
Qed.

Lemma push_all_log l :
  forall c, bus_log (push_all l c) = bus_log c ++ map (RegWrite Registers.FIFO) l.
Proof.
  induction l as [|v rest IH]; intros c; cbn [push_all map].
  - rewrite app_nil_r. reflexivity.
  - rewrite IH. cbn [push bus_log]. rewrite <- List.app_assoc. reflexivity.
Qed.

Lemma is_byte_mod256 x : is_byte (x mod 256) = true.
Proof. apply is_byte_true. pose proof (Z.mod_pos_bound x 256). lia. Qed.

#[local] Hint Resolve is_byte_mod256 : bytes.

Lemma push_ptr v c :
  peek (regs (push v c)) Registers.FIFO_ADDR_PTR =
  (peek (regs c) Registers.FIFO_ADDR_PTR + 1) mod 256.
Proof.
  cbn [push regs]. rewrite peek_insert_byte by side.
  rewrite tick_regs_driver by reflexivity. reflexivity.
Qed.

Lemma push_all_ptr l :
  forall c,
    peek (regs (push_all l c)) Registers.FIFO_ADDR_PTR =
    (peek (regs c) Registers.FIFO_ADDR_PTR + Z.of_nat (length l)) mod 256.
Proof.
  induction l as [|v rest IH]; intros c; cbn [push_all length].
  - rewrite Z.add_0_r. symmetry. apply Z.mod_small.
    pose proof (peek_range (regs c) Registers.FIFO_ADDR_PTR). lia.
  - rewrite IH, push_ptr, Zplus_mod_idemp_l. f_equal. lia.
Qed.

Lemma push_all_reg l a :
  driver_reg a = true -> a <> Registers.FIFO_ADDR_PTR ->
  forall c, peek (regs (push_all l c)) a = peek (regs c) a.
Proof.
  intros Ha Hne. induction l as [|v rest IH]; intros c; cbn [push_all].
  - reflexivity.
  - rewrite IH. cbn [push regs]. rewrite peek_insert_ne by congruence.
    apply tick_regs_driver, Ha.
Qed.

Lemma push_all_fifo_other l :
  forall c a,
    (forall i : nat, (i < length l)%nat ->
       a <> (peek (regs c) Registers.FIFO_ADDR_PTR + Z.of_nat i) mod 256) ->
    peek (fifo (push_all l c)) a = peek (fifo c) a.
Proof.
  induction l as [|v rest IH]; intros c a Ha; cbn [push_all].
  - reflexivity.
  - rewrite IH.
    + cbn [push fifo]. rewrite tick_regs_driver by reflexivity.
      apply peek_insert_ne.
      specialize (Ha 0%nat ltac:(simpl; lia)). rewrite Z.add_0_r in Ha.
      rewrite Z.mod_small in Ha
        by (pose proof (peek_range (regs c) Registers.FIFO_ADDR_PTR); lia).
      congruence.
    + intros i Hi. rewrite push_ptr, Zplus_mod_idemp_l.
      specialize (Ha (S i) ltac:(simpl; lia)).
      replace (peek (regs c) Registers.FIFO_ADDR_PTR + 1 + Z.of_nat i)
        with (peek (regs c) Registers.FIFO_ADDR_PTR + Z.of_nat (S i)) by lia.
      exact Ha.
Qed.

Lemma mod256_shift_ne p k :
  0 <= p < 256 -> 1 <= k <= 255 -> p <> (p + k) mod 256.
Proof.
  intros Hp Hk Heq.
  pose proof (Z.div_mod (p + k) 256 ltac:(lia)) as Hd.
  rewrite <- Heq in Hd. lia.
Qed.

Lemma push_all_fifo_at l :
  forall c (i : nat) v,
    (length l <= 256)%nat -> l !! i = Some v ->
    peek (fifo (push_all l c))
         ((peek (regs c) Registers.FIFO_ADDR_PTR + Z.of_nat i) mod 256)
    = Z.land v 0xff.
Proof.
  induction l as [|v0 rest IH]; intros c i v Hlen Hi; [discriminate|].
  cbn [push_all]. cbn [length] in Hlen.
  pose proof (peek_range (regs c) Registers.FIFO_ADDR_PTR) as Hp.
  destruct i as [|i].
  - injection Hi as <-. rewrite Z.add_0_r, Z.mod_small by lia.
    rewrite push_all_fifo_other.
    + cbn [push fifo]. rewrite tick_regs_driver by reflexivity.
      apply peek_insert_eq.
    + intros j Hj. rewrite push_ptr, Zplus_mod_idemp_l.
      rewrite <- Z.add_assoc. apply mod256_shift_ne; lia.
  - cbn in Hi. specialize (IH (push v0 c) i v ltac:(lia) Hi).
    rewrite push_ptr, Zplus_mod_idemp_l in IH.
    replace (peek (regs c) Registers.FIFO_ADDR_PTR + Z.of_nat (S i))
      with (peek (regs c) Registers.FIFO_ADDR_PTR + 1 + Z.of_nat i) by lia.
    exact IH.
Qed.

Lemma write_packet_run data s :
  write_packet data s =
  let bytes := payload_bytes data in
  let cur := reg s Registers.PAYLOAD_LENGTH in
  let new_length := cur + Z.of_nat (length bytes) in
  if Config.MAX_PKT_LENGTH <? new_length then
    Raised PacketTooLarge (set_hw (load Registers.PAYLOAD_LENGTH (hw s)) s)
  else
    Returned (Z.of_nat (length bytes))
      (set_hw
         (store Registers.PAYLOAD_LENGTH new_length
            (push_all (map int_of_byte bytes)
               (load Registers.PAYLOAD_LENGTH (hw s)))) s).
Proof.
  unfold write_packet. fold (payload_bytes data). cbv zeta. mred. mstep.
  rewrite tick_regs_driver by reflexivity. fold (reg s Registers.PAYLOAD_LENGTH).
  destruct (Config.MAX_PKT_LENGTH <? _) eqn:Hc; [reflexivity|].
  apply Z.ltb_ge in Hc. unfold Config.MAX_PKT_LENGTH in Hc.
  rewrite write_fifo_run. mred.
  pose proof (peek_range (regs (hw s)) Registers.PAYLOAD_LENGTH).
  unfold reg in *. mstep. reflexivity.
Qed.

Lemma write_packet_rejected data s :
  255 < reg s Registers.PAYLOAD_LENGTH + Z.of_nat (length (payload_bytes data)) ->
  exists s',
    write_packet data s = Raised PacketTooLarge s'
    /\ bus_log (hw s') = bus_log (hw s) ++
         [RegRead Registers.PAYLOAD_LENGTH (reg s Registers.PAYLOAD_LENGTH)]
    /\ fifo (hw s') = fifo (hw s)
    /\ reg s' Registers.PAYLOAD_LENGTH = reg s Registers.PAYLOAD_LENGTH
    /\ reg s' Registers.FIFO_ADDR_PTR = reg s Registers.FIFO_ADDR_PTR.
Proof.
  intros H. eexists. split.
  { rewrite write_packet_run. cbv zeta.
    replace (Config.MAX_PKT_LENGTH <? _) with true; [reflexivity|].
    symmetry. apply Z.ltb_lt. exact H. }
  split; [log_simpl; reflexivity|]. split; [reflexivity|].
  split; reg_simpl; reflexivity.
Qed.

Lemma write_packet_accepted data s :
  let bytes := payload_bytes data in
  let n := Z.of_nat (length bytes) in
  let cur := reg s Registers.PAYLOAD_LENGTH in
  let p := reg s Registers.FIFO_ADDR_PTR in
  cur + n <= 255 ->
  exists s',
    write_packet data s = Returned n s'
    /\ bus_log (hw s') = bus_log (hw s) ++
         RegRead Registers.PAYLOAD_LENGTH cur
         :: map (fun b => RegWrite Registers.FIFO (int_of_byte b)) bytes
         ++ [RegWrite Registers.PAYLOAD_LENGTH (cur + n)]
    /\ reg s' Registers.PAYLOAD_LENGTH = cur + n
    /\ reg s' Registers.FIFO_ADDR_PTR = (p + n) mod 256
    /\ (forall (i : nat) b,
          bytes !! i = Some b ->
          peek (fifo (hw s')) ((p + Z.of_nat i) mod 256) = int_of_byte b)
    /\ (forall a,
          (forall i : nat, (i < length bytes)%nat -> a <> (p + Z.of_nat i) mod 256) ->
          peek (fifo (hw s')) a = peek (fifo (hw s)) a).
Proof.
  intros bytes n cur p H. eexists. split.
  { rewrite write_packet_run. cbv zeta. fold bytes. fold cur. fold n.
    replace (Config.MAX_PKT_LENGTH <? _) with false; [reflexivity|].
    symmetry. apply Z.ltb_ge. exact H. }
  pose proof (peek_range (regs (hw s)) Registers.PAYLOAD_LENGTH) as Hcur.
  fold (reg s Registers.PAYLOAD_LENGTH) in Hcur. fold cur in Hcur.
  assert (Hlen : (length (map int_of_byte bytes) <= 256)%nat)
    by (rewrite length_map; unfold n in H; lia).
  assert (Hp : peek (regs (load Registers.PAYLOAD_LENGTH (hw s)))
                    Registers.FIFO_ADDR_PTR = p).
  { cbn [load regs]. rewrite tick_regs_driver by reflexivity. reflexivity. }
  split.
  { proj. rewrite push_all_log. proj.
    rewrite tick_regs_driver by reflexivity.
    rewrite map_map, <- !List.app_assoc. reflexivity. }
  split.
  { proj. rewrite peek_insert_byte; [reflexivity|].
    apply is_byte_true. unfold n in *. lia. }
  split.
  { proj. rewrite peek_insert_ne by neq_consts.
    rewrite tick_regs_driver by reflexivity.
    rewrite push_all_ptr, Hp, length_map. reflexivity. }
  split.
  - intros i b Hi. proj.
    rewrite <- Hp. rewrite (push_all_fifo_at _ _ i (int_of_byte b) Hlen).
    + pose proof (int_of_byte_range b).
      change 255 with (Z.ones 8). rewrite Z.land_ones by lia.
      apply Z.mod_small. lia.
    + rewrite list_lookup_fmap, Hi. reflexivity.
  - intros a Ha. proj. rewrite push_all_fifo_other; [reflexivity|].
    intros i Hi. rewrite Hp. apply Ha. rewrite length_map in Hi. exact Hi.
Qed.

Lemma begin_packet_run s :
  begin_packet s =
  Returned tt
    (set_hw
       (store Registers.PAYLOAD_LENGTH 0
          (store Registers.FIFO_ADDR_PTR Config.TX_BASE_ADDR
             (store Registers.OP_MODE (Z.lor Modes.LORA_MASK Modes.STDBY) (hw s))))
       s).
Proof.
  unfold begin_packet, standby, _set_mode. mred. do 3 mstep. reflexivity.
Qed.

Lemma begin_packet_holds s :
  exists s', begin_packet s = Returned tt s' /\ packet_holds [] s'.
Proof.
  eexists. split; [apply begin_packet_run|].
  split; [simpl; lia|]. split; [reg_simpl; reflexivity|].
  split; [reg_simpl; reflexivity|]. intros i b Hi. discriminate.
Qed.

Lemma packet_holds_rejected acc s s' :
  fifo (hw s') = fifo (hw s) ->
  reg s' Registers.PAYLOAD_LENGTH = reg s Registers.PAYLOAD_LENGTH ->
  reg s' Registers.FIFO_ADDR_PTR = reg s Registers.FIFO_ADDR_PTR ->
  packet_holds acc s -> packet_holds acc s'.
Proof.
  intros Hf Hl Hp (Hn & Hlen & Hptr & Hbytes).
  split; [exact Hn|]. split; [congruence|]. split; [congruence|].
  intros i b Hi. rewrite Hf. apply Hbytes, Hi.
Qed.

Lemma packet_holds_accepted acc bytes s s' :
  reg s Registers.PAYLOAD_LENGTH + Z.of_nat (length bytes) <= 255 ->
  reg s' Registers.PAYLOAD_LENGTH =
    reg s Registers.PAYLOAD_LENGTH + Z.of_nat (length bytes) ->
  reg s' Registers.FIFO_ADDR_PTR =
    (reg s Registers.FIFO_ADDR_PTR + Z.of_nat (length bytes)) mod 256 ->
  (forall (i : nat) b,
     bytes !! i = Some b ->
     peek (fifo (hw s')) ((reg s Registers.FIFO_ADDR_PTR + Z.of_nat i) mod 256)
     = int_of_byte b) ->
  (forall a,
     (forall i : nat, (i < length bytes)%nat ->
        a <> (reg s Registers.FIFO_ADDR_PTR + Z.of_nat i) mod 256) ->
     peek (fifo (hw s')) a = peek (fifo (hw s)) a) ->
  packet_holds acc s -> packet_holds (acc ++ bytes) s'.
Proof.
  intros Hfit Hl Hp Hnew Hold (Hn & Hlen & Hptr & Hbytes).
  rewrite Hlen in *. rewrite Hptr in *.
  split; [rewrite length_app; lia|].
  split; [rewrite Hl, length_app; lia|].
  split; [rewrite Hp, length_app, Z.mod_small; lia|].
  intros i b Hi. unfold Config.TX_BASE_ADDR. rewrite Z.add_0_l.
  destruct (Nat.lt_ge_cases i (length acc)) as [Hlt|Hge].
  - rewrite lookup_app_l in Hi by exact Hlt.
    rewrite Hold.
    + specialize (Hbytes i b Hi). unfold Config.TX_BASE_ADDR in Hbytes.
      rewrite Z.add_0_l in Hbytes. exact Hbytes.
    + intros j Hj. rewrite Z.mod_small by lia. lia.
  - rewrite lookup_app_r in Hi by exact Hge.
    specialize (Hnew _ _ Hi).
    pose proof (lookup_lt_Some _ _ _ Hi).
    rewrite Z.mod_small in Hnew by lia.
    replace (Z.of_nat i) with (Z.of_nat (length acc) + Z.of_nat (i - length acc)) by lia.
    exact Hnew.
Qed.

(** C4: a [write_packet] call whose data would take the payload length
    above 255 raises, performs no write at all (its only bus access is the
    read of the length register), and leaves the buffer, the length
    register and the cursor as they were, so the bytes of earlier calls of
    the same packet stay in place.  A call that fits writes every byte to
    the buffer register in order, sets the length register to the new
    total and returns the number of bytes. *)
Theorem write_packet_limit (data : pydata) (s : LoRa) :
  let bytes := payload_bytes data in
  let n := Z.of_nat (length bytes) in
  let cur := reg s Registers.PAYLOAD_LENGTH in
  let p := reg s Registers.FIFO_ADDR_PTR in
  (255 < cur + n ->
   exists s',
     write_packet data s = Raised PacketTooLarge s'
     /\ bus_log (hw s') = bus_log (hw s) ++ [RegRead Registers.PAYLOAD_LENGTH cur]
     /\ fifo (hw s') = fifo (hw s)
     /\ reg s' Registers.PAYLOAD_LENGTH = cur
     /\ (forall acc, packet_holds acc s -> packet_holds acc s'))
  /\ (cur + n <= 255 ->
      exists s',
        write_packet data s = Returned n s'
        /\ bus_log (hw s') = bus_log (hw s) ++
             RegRead Registers.PAYLOAD_LENGTH cur
             :: map (fun b => RegWrite Registers.FIFO (int_of_byte b)) bytes
             ++ [RegWrite Registers.PAYLOAD_LENGTH (cur + n)]
        /\ reg s' Registers.PAYLOAD_LENGTH = cur + n
        /\ (forall (i : nat) b,
              bytes !! i = Some b ->
              peek (fifo (hw s')) ((p + Z.of_nat i) mod 256) = int_of_byte b)
        /\ (forall a,
              (forall i : nat, (i < length bytes)%nat ->
                 a <> (p + Z.of_nat i) mod 256) ->
              peek (fifo (hw s')) a = peek (fifo (hw s)) a)
        /\ (forall acc, packet_holds acc s -> packet_holds (acc ++ bytes) s')).
Proof.
  intros bytes n cur p. split.
  - intros H.
    destruct (write_packet_rejected data s H) as (s' & He & Hlog & Hf & Hl & Hp).
    exists s'.
    split; [exact He|]. split; [exact Hlog|]. split; [exact Hf|].
    split; [exact Hl|].
    intros acc. apply packet_holds_rejected; assumption.
  - intros H.
    destruct (write_packet_accepted data s H)
      as (s' & He & Hlog & Hl & Hp & Hnew & Hold).
    exists s'.
    split; [exact He|]. split; [exact Hlog|]. split; [exact Hl|].
    split; [exact Hnew|]. split; [exact Hold|].
    intros acc. apply packet_holds_accepted; assumption.
Qed.

Lemma write_packet_limit_witness :
  (exists s',
     write_packet (PyStr "hi") nearly_full_packet = Raised PacketTooLarge s'
     /\ fifo (hw s') = fifo (hw nearly_full_packet)
     /\ reg s' Registers.PAYLOAD_LENGTH = 254)
  /\ (exists s',
        write_packet (PyStr "hi") sample_driver = Returned 2 s'
        /\ reg s' Registers.PAYLOAD_LENGTH = 2).
Proof.
  split.
  - destruct (write_packet_limit (PyStr "hi") nearly_full_packet) as [H _].
    destruct H as (s' & He & _ & Hf & Hl & _); [vm_compute; reflexivity|].
    exists s'. split; [exact He|]. split; [exact Hf|].
    rewrite Hl. vm_compute. reflexivity.
  - destruct (write_packet_limit (PyStr "hi") sample_driver) as [_ H].
    destruct H as (s' & He & _ & Hl & _); [vm_compute; discriminate|].
    exists s'. split; [exact He|]. rewrite Hl. vm_compute. reflexivity.
Defined.

(** ** Interrupt flags *)

Lemma truthy_land_pow2 v n :
  0 <= n -> truthy (Z.land v (2 ^ n)) = Z.testbit v n.
Proof.
  intros Hn. unfold truthy.
  destruct (Z.testbit v n) eqn:Hb.
  - apply negb_true_iff, Z.eqb_neq. intros H0.
    assert (Ht : Z.testbit (Z.land v (2 ^ n)) n = true)
      by (rewrite Z.land_spec, Hb, Z.pow2_bits_true by lia; reflexivity).
    rewrite H0, Z.bits_0 in Ht. discriminate.
  - apply negb_false_iff, Z.eqb_eq. apply Z.bits_inj'. intros k Hk.
    rewrite Z.land_spec, Z.bits_0.
    destruct (Z.eq_dec k n) as [->|Hne].
    + rewrite Hb. reflexivity.
    + rewrite Z.pow2_bits_false by lia. apply andb_false_r.
Qed.

Lemma truthy_tx_done v : truthy (Z.land v IRQFlags.TX_DONE) = Z.testbit v 3.
Proof. apply (truthy_land_pow2 v 3). lia. Qed.

Lemma truthy_rx_done v : truthy (Z.land v IRQFlags.RX_DONE) = Z.testbit v 6.
Proof. apply (truthy_land_pow2 v 6). lia. Qed.

Lemma truthy_crc_error v :
  truthy (Z.land v IRQFlags.PAYLOAD_CRC_ERROR) = Z.testbit v 5.
Proof. apply (truthy_land_pow2 v 5). lia. Qed.

Lemma peek_testbit m a n :
  0 <= n < 8 -> Z.testbit (peek m a) n = Z.testbit (default 0 (m !! a)) n.
Proof.
  intros Hn. unfold peek. change 255 with (Z.ones 8).
  rewrite Z.land_spec, Z.ones_spec_low by lia. apply andb_true_r.
Qed.

(** Writing a flag back clears it, whatever the hardware latched when the
    frame started. *)
Lemma ack_clears v c n :
  0 <= n < 8 -> Z.testbit v n = true ->
  Z.testbit (peek (regs (ack v c)) Registers.IRQ_FLAGS) n = false.
Proof.
  intros Hn Hv. cbn [ack regs]. rewrite peek_testbit by exact Hn.
  rewrite lookup_insert_eq. cbv [default from_option id].
  rewrite Z.land_spec, Z.lnot_spec, Hv by lia. apply andb_false_r.
Qed.

(** A flag that is not written back survives the acknowledgement. *)
Lemma ack_keeps v c n :
  0 <= n < 8 -> Z.testbit v n = false ->
  Z.testbit (peek (regs (ack v c)) Registers.IRQ_FLAGS) n =
  Z.testbit (peek (tick_regs c) Registers.IRQ_FLAGS) n.
Proof.
  intros Hn Hv. cbn [ack regs]. rewrite peek_testbit by exact Hn.
  rewrite lookup_insert_eq. cbv [default from_option id].
  rewrite Z.land_spec, Z.lnot_spec, Hv by lia. apply andb_true_r.
Qed.

(** The hardware latches flags and never clears one on its own. *)
Lemma tick_keeps_flag c n :
  0 <= n < 8 ->
  Z.testbit (peek (regs c) Registers.IRQ_FLAGS) n = true ->
  Z.testbit (peek (tick_regs c) Registers.IRQ_FLAGS) n = true.
Proof.
  intros Hn H. unfold tick_regs.
  destruct (script c) as [|[bits|a v] rest]; [exact H| |].
  - cbn [hw_apply]. rewrite peek_testbit by exact Hn.
    rewrite lookup_insert_eq. cbv [default from_option id].
    rewrite Z.lor_spec, H. reflexivity.
  - cbn [hw_apply]. destruct (status_reg a) eqn:Ha; [|exact H].
    rewrite peek_insert_ne; [exact H|]. intros ->. discriminate.
Qed.

Lemma ack_driver_reg v c a :
  driver_reg a = true -> peek (regs (ack v c)) a = peek (regs c) a.
Proof.
  intros Ha. cbn [ack regs]. rewrite peek_insert_ne.
  - apply tick_regs_driver, Ha.
  - intros <-. discriminate.
Qed.

Lemma load_driver_reg b c a :
  driver_reg a = true -> peek (regs (load b c)) a = peek (regs c) a.
Proof. intros Ha. cbn [load regs]. apply tick_regs_driver, Ha. Qed.

(** ** Transmit completion *)

Lemma end_packet_wait_run :
  forall fuel start timeout s,
    (0 < fuel)%nat ->
    timeout - (clock s - start) <= 10 * (Z.of_nat fuel - 1) ->
    exists b vs s',
      end_packet_wait fuel start timeout s = Returned b s'
      /\ bus_log (hw s') = bus_log (hw s) ++
           map (RegRead Registers.IRQ_FLAGS) vs ++
           (if b then [RegWrite Registers.IRQ_FLAGS IRQFlags.TX_DONE] else [])
      /\ (b = true ->
          (exists vs0 v,
             vs = vs0 ++ [v] /\ Z.testbit v 3 = true
             /\ Forall (fun x => Z.testbit x 3 = false) vs0)
          /\ Z.testbit (reg s' Registers.IRQ_FLAGS) 3 = false
          /\ clock s' - start < timeout)
      /\ (b = false ->
          Forall (fun x => Z.testbit x 3 = false) vs
          /\ timeout <= clock s' - start)
      /\ (forall a, driver_reg a = true -> reg s' a = reg s a).
Proof.
  induction fuel as [|fuel IH]; intros start timeout s Hpos Hfuel; [lia|].
  cbn [end_packet_wait]. mred.
  destruct (Z.ltb_spec (clock s - start) timeout) as [Hlt|Hge].
  - mstep. rewrite truthy_tx_done.
    destruct (Z.testbit (peek (tick_regs (hw s)) Registers.IRQ_FLAGS) 3) eqn:Hbit.
    + mstep.
      exists true, [peek (tick_regs (hw s)) Registers.IRQ_FLAGS]. eexists.
      split; [reflexivity|].
      split; [log_simpl; reflexivity|].
      split.
      { intros _. split.
        - exists [], (peek (tick_regs (hw s)) Registers.IRQ_FLAGS).
          split; [reflexivity|]. split; [exact Hbit | constructor].
        - split; [|proj; exact Hlt].
          unfold reg. cbn [hw set_hw]. apply ack_clears; [lia | reflexivity]. }
      split; [discriminate|].
      intros a Ha. unfold reg. cbn [hw set_hw].
      rewrite ack_driver_reg, load_driver_reg by exact Ha. reflexivity.
    + match goal with
      | |- context [end_packet_wait fuel start timeout ?s1] =>
          destruct (IH start timeout s1) as (b & vs & s' & He & Hlog & Ht & Hf & Hr)
      end.
      { proj. lia. }
      { proj. lia. }
      exists b, (peek (tick_regs (hw s)) Registers.IRQ_FLAGS :: vs), s'.
      split; [exact He|].
      split.
      { rewrite Hlog. proj. rewrite <- List.app_assoc. reflexivity. }
      split.
      { intros Hb. destruct (Ht Hb) as ((vs0 & v & -> & Hv & Hall) & Hclr & Hclk).
        split; [|split; [exact Hclr | revert Hclk; proj; lia]].
        exists (peek (tick_regs (hw s)) Registers.IRQ_FLAGS :: vs0), v.
        split; [reflexivity|]. split; [exact Hv|]. constructor; assumption. }
      split.
      { intros Hb. destruct (Hf Hb) as (Hall & Hclk).
        split; [constructor; assumption | exact Hclk]. }
      intros a Ha. rewrite (Hr a Ha). unfold reg. cbn [hw set_hw].
      apply load_driver_reg, Ha.
  - exists false, [], s.
    split; [reflexivity|].
    split; [cbn [map app]; rewrite app_nil_r; reflexivity|].
    split; [discriminate|].
    split; [intros _; split; [constructor | lia]|].
    reflexivity.
Qed.

(** C7: [end_packet] writes the transmit mode to OP_MODE once and then
    only reads the flag register.  It returns [true] exactly when a poll
    made before the timeout sees the transmit-complete bit, and then its
    last bus access writes that bit back, which clears it.  It returns
    [false] when the timeout has elapsed with the bit never seen; no write
    follows the mode switch, and OP_MODE still holds the transmit mode. *)
Theorem end_packet_outcome (fuel : nat) (timeout : Z) (s : LoRa) :
  (0 < fuel)%nat -> timeout <= 10 * (Z.of_nat fuel - 1) ->
  exists (b : bool) (vs : list Z) (s' : LoRa),
    let tail :=
      RegWrite Registers.OP_MODE (Z.lor Modes.LORA_MASK Modes.TX)
      :: map (RegRead Registers.IRQ_FLAGS) vs
      ++ (if b then [RegWrite Registers.IRQ_FLAGS IRQFlags.TX_DONE] else []) in
    end_packet fuel timeout s = Returned b s'
    /\ bus_log (hw s') = bus_log (hw s) ++ tail
    /\ List.filter is_write tail =
         RegWrite Registers.OP_MODE (Z.lor Modes.LORA_MASK Modes.TX)
         :: (if b then [RegWrite Registers.IRQ_FLAGS IRQFlags.TX_DONE] else [])
    /\ (b = true ->
        (exists vs0 v,
           vs = vs0 ++ [v] /\ Z.testbit v 3 = true
           /\ Forall (fun x => Z.testbit x 3 = false) vs0)
        /\ Z.testbit (reg s' Registers.IRQ_FLAGS) 3 = false
        /\ clock s' - clock s < timeout)
    /\ (b = false ->
        Forall (fun x => Z.testbit x 3 = false) vs
        /\ timeout <= clock s' - clock s)
    /\ reg s' Registers.OP_MODE = Z.lor Modes.LORA_MASK Modes.TX.
Proof.
  intros Hpos Hfuel. unfold end_packet, _set_mode. mred. mstep.
  match goal with
  | |- context [end_packet_wait fuel ?st timeout ?s1] =>
      destruct (end_packet_wait_run fuel st timeout s1 Hpos)
        as (b & vs & s' & He & Hlog & Ht & Hf & Hr)
  end.
  { proj. lia. }
  exists b, vs, s'. cbv zeta.
  split; [exact He|].
  split.
  { rewrite Hlog. proj. rewrite <- List.app_assoc. reflexivity. }
  split.
  { cbn [List.filter is_write]. f_equal.
    rewrite List.filter_app.
    replace (List.filter is_write (map (RegRead Registers.IRQ_FLAGS) vs)) with (@nil access).
    - destruct b; reflexivity.
    - clear. induction vs as [|v vs IH]; [reflexivity | exact IH]. }
  split; [exact Ht|]. split; [exact Hf|].
  rewrite Hr by reflexivity. reg_simpl. reflexivity.
Qed.

Lemma end_packet_outcome_witness :
  (exists s',
     end_packet 4 30 sample_driver = Returned false s'
     /\ reg s' Registers.OP_MODE = 0x83
     /\ List.filter is_write (bus_log (hw s')) = [RegWrite Registers.OP_MODE 0x83])
  /\ (exists s',
        end_packet 4 30 completing_driver = Returned true s'
        /\ Z.testbit (reg s' Registers.IRQ_FLAGS) 3 = false).
Proof.
  split.
  - destruct (end_packet_outcome 4 30 sample_driver ltac:(lia) ltac:(lia))
      as (b & vs & s' & He & Hlog & Hw & _ & _ & Hm).
    assert (Hb : b = false).
    { vm_compute in He. injection He as Hb _. symmetry. exact Hb. }
    subst b. exists s'. split; [exact He|]. split; [exact Hm|].
    rewrite Hlog. exact Hw.
  - destruct (end_packet_outcome 4 30 completing_driver ltac:(lia) ltac:(lia))
      as (b & vs & s' & He & _ & _ & Ht & _).
    assert (Hb : b = true).
    { vm_compute in He. injection He as Hb _. symmetry. exact Hb. }
    subst b. exists s'. split; [exact He|]. apply Ht. reflexivity.
Defined.

(** ** The remaining setters *)

Lemma set_coding_rate_run denom s :
  set_coding_rate denom s =
  let d := Z.min (Z.max denom 5) 8 in
  Returned tt
    (set_hw
       (store Registers.MODEM_CONFIG_1
          (Z.lor (Z.land (reg s Registers.MODEM_CONFIG_1) 0xf1)
                 (Z.shiftl (d - 4) 1))
          (load Registers.MODEM_CONFIG_1 (hw s)))
       (set_config (with_coding_rate d (_config s)) s)).
Proof.
  unfold set_coding_rate. cbv zeta. mred. mstep.
  assert (Hcr : is_byte (Z.shiftl (Z.min (Z.max denom 5) 8 - 4) 1) = true).
  { apply is_byte_true. rewrite Z.shiftl_mul_pow2 by lia. lia. }
  mstep. proj. rewrite tick_regs_driver by reflexivity. reflexivity.
Qed.

Lemma set_preamble_length_run n s :
  set_preamble_length n s =
  let len := Z.max 6 (Z.min n 65535) in
  Returned tt
    (set_hw
       (store Registers.PREAMBLE_LSB (Z.land len 0xff)
          (store Registers.PREAMBLE_MSB (Z.land (Z.shiftr len 8) 0xff) (hw s)))
       (set_config (with_preamble_length len (_config s)) s)).
Proof.
  unfold set_preamble_length. cbv zeta. mred.
  assert (Hb : forall x, is_byte (Z.land x 0xff) = true)
    by (intros x; apply is_byte_land_r; reflexivity).
  do 2 mstep. reflexivity.
Qed.

Lemma set_crc_run on s :
  set_crc on s =
  let r := reg s Registers.MODEM_CONFIG_2 in
  Returned tt
    (set_hw
       (store Registers.MODEM_CONFIG_2
          (if on then Z.lor r 0x04 else Z.land r 0xfb)
          (load Registers.MODEM_CONFIG_2 (hw s)))
       (set_config (with_crc on (_config s)) s)).
Proof.
  unfold set_crc. mred. mstep.
  assert (Hb : forall r, is_byte r = true ->
            is_byte (if on then Z.lor r 0x04 else Z.land r 0xfb) = true)
    by (intros r Hr; destruct on; auto with bytes).
  mstep. proj. rewrite tick_regs_driver by reflexivity. reflexivity.
Qed.

Lemma set_implicit_run on s :
  set_implicit on s =
  let r := reg s Registers.MODEM_CONFIG_1 in
  Returned tt
    (set_hw
       (store Registers.MODEM_CONFIG_1
          (if on then Z.lor r 0x01 else Z.land r 0xfe)
          (load Registers.MODEM_CONFIG_1 (hw s)))
       (set_config (with_implicit on (_config s)) s)).
Proof.
  unfold set_implicit. mred. mstep.
  assert (Hb : forall r, is_byte r = true ->
            is_byte (if on then Z.lor r 0x01 else Z.land r 0xfe) = true)
    by (intros r Hr; destruct on; auto with bytes).
  mstep. proj. rewrite tick_regs_driver by reflexivity. reflexivity.
Qed.

Lemma set_sync_word_run sw s :
  is_byte sw = true ->
  set_sync_word sw s =
  Returned tt
    (set_hw (store Registers.SYNC_WORD sw (hw s))
       (set_config (with_sync_word sw (_config s)) s)).
Proof. intros H. unfold set_sync_word. mred. mstep. reflexivity. Qed.

Lemma set_sync_word_refused sw s :
  is_byte sw = false ->
  set_sync_word sw s =
  Raised (BytesRange sw)
    (set_hw (aborted (hw s)) (set_config (with_sync_word sw (_config s)) s)).
Proof.
  intros H. unfold set_sync_word. mred.
  rewrite _write_refused; [reflexivity | vm_compute; intuition congruence | exact H].
Qed.

(** ** Identity check *)

Lemma last_cons {A} (a d : A) l : List.last (a :: l) d = List.last l a.
Proof.
  revert a d. induction l as [|b l IH]; intros a d; [reflexivity|].
  change (List.last (a :: b :: l) d) with (List.last (b :: l) d).
  rewrite (IH b d), (IH b a). reflexivity.
Qed.

Lemma version_retry_run :
  forall budget version attempts s,
    0 <= attempts <= 5 -> 5 - attempts <= Z.of_nat budget ->
    exists vs v s',
      version_retry budget version attempts s = Returned v s'
      /\ v = List.last vs version
      /\ Z.of_nat (length vs) <= 5 - attempts
      /\ Forall (fun x => x <> Config.SX127X_VERSION) (removelast (version :: vs))
      /\ (v <> Config.SX127X_VERSION -> Z.of_nat (length vs) = 5 - attempts)
      /\ bus_log (hw s') = bus_log (hw s) ++ map (RegRead Registers.VERSION) vs
      /\ clock s' = clock s + 100 * Z.of_nat (length vs)
      /\ console s' = console s ++ map VersionRead vs
      /\ _config s' = _config s.
Proof.
  induction budget as [|budget IH]; intros version attempts s Ha Hb.
  - assert (attempts = 5) by lia. subst attempts.
    exists [], version, s. cbn [version_retry].
    change (5 <? 5) with false. rewrite andb_false_r.
    split; [reflexivity|]. split; [reflexivity|]. split; [simpl; lia|].
    split; [constructor|]. split; [intros; simpl; lia|].
    split; [simpl; rewrite app_nil_r; reflexivity|].
    split; [simpl; lia|].
    split; [simpl; rewrite app_nil_r; reflexivity | reflexivity].
  - cbn [version_retry].
    destruct (negb (version =? Config.SX127X_VERSION) && (attempts <? 5)) eqn:Hc.
    + apply andb_true_iff in Hc. destruct Hc as [Hne Hlt].
      apply negb_true_iff, Z.eqb_neq in Hne. apply Z.ltb_lt in Hlt.
      mred. mstep.
      match goal with
      | |- context [version_retry budget ?v1 (attempts + 1) ?s1] =>
          destruct (IH v1 (attempts + 1) s1 ltac:(lia) ltac:(lia))
            as (vs & v & s' & He & Hv & Hn & Hall & Hmis & Hlog & Hclk & Hcon & Hcfg);
          exists (v1 :: vs), v, s'
      end.
      split; [exact He|].
      split; [rewrite last_cons; exact Hv|].
      split; [cbn [length]; lia|].
      split; [constructor; [exact Hne | exact Hall]|].
      split; [intros Hv'; specialize (Hmis Hv'); cbn [length]; lia|].
      split.
      { rewrite Hlog. proj. cbn [map]. rewrite <- List.app_assoc. reflexivity. }
      split; [rewrite Hclk; proj; cbn [length]; lia|].
      split.
      { rewrite Hcon. proj. cbn [map]. rewrite <- List.app_assoc. reflexivity. }
      rewrite Hcfg. reflexivity.
    + exists [], version, s. mred.
      split; [reflexivity|]. split; [reflexivity|]. split; [simpl; lia|].
      split; [constructor|].
      split.
      { intros Hv. apply andb_false_iff in Hc. destruct Hc as [Hc|Hc].
        - apply negb_false_iff, Z.eqb_eq in Hc. contradiction.
        - apply Z.ltb_ge in Hc. simpl. lia. }
      split; [simpl; rewrite app_nil_r; reflexivity|].
      split; [simpl; lia|].
      split; [simpl; rewrite app_nil_r; reflexivity | reflexivity].
Qed.

Lemma _verify_chip_version_run s :
  exists v0 vs s',
    _verify_chip_version s = Returned tt s'
    /\ bus_log (hw s') = bus_log (hw s) ++ map (RegRead Registers.VERSION) (v0 :: vs)
    /\ (length vs <= 5)%nat
    /\ Forall (fun x => x <> Config.SX127X_VERSION) (removelast (v0 :: vs))
    /\ clock s' = clock s + 100 * Z.of_nat (length vs)
    /\ (List.last vs v0 <> Config.SX127X_VERSION ->
        length vs = 5%nat
        /\ console s' = console s ++ map VersionRead vs ++
             [VersionWarning (List.last vs v0); ContinuingAnyway])
    /\ (List.last vs v0 = Config.SX127X_VERSION ->
        console s' = console s ++ map VersionRead vs)
    /\ _config s' = _config s.
Proof.
  unfold _verify_chip_version. mred. mstep.
  match goal with
  | |- context [version_retry 5 ?v0 0 ?s1] =>
      destruct (version_retry_run 5 v0 0 s1 ltac:(lia) ltac:(simpl; lia))
        as (vs & v & s' & He & Hv & Hn & Hall & Hmis & Hlog & Hclk & Hcon & Hcfg);
      exists v0, vs
  end.
  rewrite He. mred. subst v.
  destruct (Z.eqb_spec (List.last vs (peek (tick_regs (hw s)) Registers.VERSION))
                       Config.SX127X_VERSION) as [Heq|Hne]; cbn [negb]; mred.
  - exists s'. split; [reflexivity|].
    split; [rewrite Hlog; proj; cbn [map]; rewrite <- List.app_assoc; reflexivity|].
    split; [lia|]. split; [exact Hall|]. split; [rewrite Hclk; proj; lia|].
    split; [intros H; contradiction|].
    split; [intros _; rewrite Hcon; reflexivity|].
    rewrite Hcfg. reflexivity.
  - eexists. split; [reflexivity|].
    split; [proj; rewrite Hlog; proj; cbn [map]; rewrite <- List.app_assoc; reflexivity|].
    split; [lia|]. split; [exact Hall|]. split; [proj; rewrite Hclk; proj; lia|].
    split.
    { intros _. specialize (Hmis Hne). split; [lia|].
      proj. rewrite Hcon. proj. rewrite <- !List.app_assoc. reflexivity. }
    split; [intros H; contradiction|].
    proj. rewrite Hcfg. reflexivity.
Qed.

Lemma store_driver_reg k v c a :
  driver_reg a = true -> a <> k -> peek (regs (store k v c)) a = peek (regs c) a.
Proof.
  intros Ha Hne. cbn [store regs]. rewrite peek_insert_ne by congruence.
  apply tick_regs_driver, Ha.
Qed.

(** ** Frame properties of the setters *)

Ltac frame_side Ha Hn :=
  first [ exact Ha
        | let He := fresh in intros He; apply Hn; rewrite He; cbn [In]; tauto ].

Ltac frame_solve :=
  let a := fresh "a" in
  let Ha := fresh "Ha" in
  let Hn := fresh "Hn" in
  intros a Ha Hn; unfold reg; cbn [hw set_hw set_config];
  repeat first [ rewrite store_driver_reg by frame_side Ha Hn
               | rewrite load_driver_reg by frame_side Ha Hn ];
  reflexivity.

Lemma touches_only_trans ws1 ws2 s s1 s2 :
  touches_only ws1 s s1 -> touches_only ws2 s1 s2 ->
  touches_only (ws1 ++ ws2) s s2.
Proof.
  intros H1 H2 a Ha Hn. rewrite in_app_iff in Hn.
  rewrite H2, H1; [reflexivity | exact Ha | tauto | exact Ha | tauto].
Qed.

Lemma set_frequency_ok f s :
  exists s',
    set_frequency f s = Returned tt s'
    /\ _config s' = with_frequency f (_config s)
    /\ console s' = console s
    /\ touches_only [Registers.FRF_MSB; Registers.FRF_MID; Registers.FRF_LSB] s s'.
Proof.
  eexists. split; [apply set_frequency_run|]. cbv zeta.
  split; [reflexivity|]. split; [reflexivity|]. frame_solve.
Qed.

Lemma set_bandwidth_ok bw s :
  exists s',
    set_bandwidth bw s = Returned tt s'
    /\ _config s' = with_bandwidth bw (_config s)
    /\ console s' = console s
    /\ touches_only [Registers.MODEM_CONFIG_1; Registers.MODEM_CONFIG_3] s s'.
Proof.
  eexists. split; [apply set_bandwidth_run|]. cbv zeta.
  split; [reflexivity|]. split; [reflexivity|]. frame_solve.
Qed.

Lemma set_spreading_factor_ok sf s :
  6 <= sf <= 12 ->
  exists s',
    set_spreading_factor sf s = Returned tt s'
    /\ _config s' = with_spreading_factor sf (_config s)
    /\ console s' = console s
    /\ touches_only [Registers.DETECTION_OPTIMIZE; Registers.DETECTION_THRESHOLD;
                     Registers.MODEM_CONFIG_2; Registers.MODEM_CONFIG_3] s s'.
Proof.
  intros H. eexists. split; [apply set_spreading_factor_run, H|]. cbv zeta.
  split; [reflexivity|]. split; [reflexivity|]. frame_solve.
Qed.

Lemma set_coding_rate_ok denom s :
  exists s',
    set_coding_rate denom s = Returned tt s'
    /\ _config s' = with_coding_rate (Z.min (Z.max denom 5) 8) (_config s)
    /\ console s' = console s
    /\ touches_only [Registers.MODEM_CONFIG_1] s s'.
Proof.
  eexists. split; [apply set_coding_rate_run|]. cbv zeta.
  split; [reflexivity|]. split; [reflexivity|]. frame_solve.
Qed.

Lemma set_preamble_length_ok n s :
  exists s',
    set_preamble_length n s = Returned tt s'
    /\ _config s' = with_preamble_length (Z.max 6 (Z.min n 65535)) (_config s)
    /\ console s' = console s
    /\ touches_only [Registers.PREAMBLE_MSB; Registers.PREAMBLE_LSB] s s'.
Proof.
  eexists. split; [apply set_preamble_length_run|]. cbv zeta.
  split; [reflexivity|]. split; [reflexivity|]. frame_solve.
Qed.

Lemma set_crc_ok on s :
  exists s',
    set_crc on s = Returned tt s'
    /\ _config s' = with_crc on (_config s)
    /\ console s' = console s
    /\ touches_only [Registers.MODEM_CONFIG_2] s s'.
Proof.
  eexists. split; [apply set_crc_run|]. cbv zeta.
  split; [reflexivity|]. split; [reflexivity|]. frame_solve.
Qed.

Lemma set_sync_word_ok sw s :
  0 <= sw <= 255 ->
  exists s',
    set_sync_word sw s = Returned tt s'
    /\ _config s' = with_sync_word sw (_config s)
    /\ console s' = console s
    /\ reg s' Registers.SYNC_WORD = sw
    /\ touches_only [Registers.SYNC_WORD] s s'.
Proof.
  intros H. apply is_byte_true in H.
  eexists. split; [apply set_sync_word_run, H|].
  split; [reflexivity|]. split; [reflexivity|].
  split; [reg_simpl; reflexivity | frame_solve].
Qed.

Lemma set_implicit_ok on s :
  exists s',
    set_implicit on s = Returned tt s'
    /\ _config s' = with_implicit on (_config s)
    /\ console s' = console s
    /\ touches_only [Registers.MODEM_CONFIG_1] s s'.
Proof.
  eexists. split; [apply set_implicit_run|]. cbv zeta.
  split; [reflexivity|]. split; [reflexivity|]. frame_solve.
Qed.

Lemma set_tx_power_ok level pin s :
  pin = PAConfig.RFO_PIN \/ 2 <= level ->
  exists s',
    set_tx_power level pin s = Returned tt s'
    /\ _config s' = with_output_pin pin (with_tx_power level (_config s))
    /\ console s' = console s
    /\ touches_only [Registers.PA_DAC; Registers.PA_CONFIG] s s'.
Proof.
  intros H.
  destruct (Z.eq_dec pin PAConfig.RFO_PIN) as [->|Hp].
  - eexists. split; [apply set_tx_power_rfo|].
    split; [reflexivity|]. split; [reflexivity|]. frame_solve.
  - destruct H as [H|H]; [contradiction|].
    destruct (Z.le_gt_cases level 17) as [H17|H17];
      [|destruct (Z.le_gt_cases level 19) as [H19|H19]].
    + eexists. split; [apply set_tx_power_boost_low; [exact Hp | lia]|].
      cbv zeta. split; [reflexivity|]. split; [reflexivity|]. frame_solve.
    + eexists. split; [apply set_tx_power_boost_partial; [exact Hp | lia]|].
      cbv zeta. split; [reflexivity|]. split; [reflexivity|]. frame_solve.
    + eexists. split; [apply set_tx_power_boost_full; [exact Hp | lia]|].
      cbv zeta. split; [reflexivity|]. split; [reflexivity|]. frame_solve.
Qed.

Ltac notin :=
  let H := fresh in
  intro H; cbn [In] in H;
  repeat (destruct H as [H|H]; [vm_compute in H; discriminate H|]);
  exact H.

Ltac kept T := rewrite (T _) by first [reflexivity | notin].

(** ** Construction *)

Lemma _configure_radio_ok s :
  constructible (_config s) ->
  exists s',
    _configure_radio s = Returned tt s'
    /\ reg s' Registers.FIFO_TX_BASE_ADDR = Config.TX_BASE_ADDR
    /\ reg s' Registers.FIFO_RX_BASE_ADDR = Config.RX_BASE_ADDR
    /\ reg s' Registers.SYNC_WORD = sync_word (_config s)
    /\ reg s' Registers.MODEM_CONFIG_3 = 0x04
    /\ console s' = console s
    /\ _config s' =
         with_preamble_length (Z.max 6 (Z.min (preamble_length (_config s)) 65535))
           (with_coding_rate (Z.min (Z.max (coding_rate (_config s)) 5) 8)
              (_config s)).
Proof.
  intros (Hsf & Hsw & Hpw).
  unfold _configure_radio. mred. do 2 mstep.
  match goal with
  | |- context [set_frequency ?x ?st] => remember st as s2 eqn:Hs2
  end.
  destruct (set_frequency_ok (frequency (_config s2)) s2)
    as (s3 & E3 & C3 & K3 & T3).
  rewrite E3. mred.
  destruct (set_bandwidth_ok (bandwidth (_config s3)) s3) as (s4 & E4 & C4 & K4 & T4).
  rewrite E4. mred.
  destruct (set_spreading_factor_ok (spreading_factor (_config s4)) s4)
    as (s5 & E5 & C5 & K5 & T5).
  { rewrite C4, C3, Hs2. exact Hsf. }
  rewrite E5. mred.
  destruct (set_coding_rate_ok (coding_rate (_config s5)) s5)
    as (s6 & E6 & C6 & K6 & T6).
  rewrite E6. mred.
  destruct (set_preamble_length_ok (preamble_length (_config s6)) s6)
    as (s7 & E7 & C7 & K7 & T7).
  rewrite E7. mred.
  destruct (set_crc_ok (crc (_config s7)) s7) as (s8 & E8 & C8 & K8 & T8).
  rewrite E8. mred.
  destruct (set_sync_word_ok (sync_word (_config s8)) s8)
    as (s9 & E9 & C9 & K9 & V9 & T9).
  { rewrite C8, C7, C6, C5, C4, C3, Hs2. exact Hsw. }
  rewrite E9. mred.
  destruct (set_implicit_ok (implicit (_config s9)) s9)
    as (s10 & E10 & C10 & K10 & T10).
  rewrite E10. mred. do 3 mstep.
  match goal with
  | |- context [set_tx_power ?l ?p ?st] => remember st as s12 eqn:Hs12
  end.
  destruct (set_tx_power_ok (tx_power (_config s12)) (output_pin (_config s12)) s12)
    as (s13 & E13 & C13 & K13 & T13).
  { rewrite Hs12. proj. rewrite C10, C9, C8, C7, C6, C5, C4, C3, Hs2. exact Hpw. }
  rewrite E13.
  assert (H12 : touches_only [Registers.LNA; Registers.MODEM_CONFIG_3] s10 s12)
    by (rewrite Hs12; frame_solve).
  unfold touches_only in *.
  exists s13. split; [reflexivity|].
  split.
  { kept T13. kept H12. kept T10. kept T9. kept T8. kept T7. kept T6. kept T5.
    kept T4. kept T3. rewrite Hs2. reg_simpl. reflexivity. }
  split.
  { kept T13. kept H12. kept T10. kept T9. kept T8. kept T7. kept T6. kept T5.
    kept T4. kept T3. rewrite Hs2. reg_simpl. reflexivity. }
  split.
  { kept T13. kept H12. kept T10. rewrite V9, C8, C7, C6, C5, C4, C3, Hs2.
    reflexivity. }
  split.
  { kept T13. rewrite Hs12. reg_simpl. reflexivity. }
  split.
  { rewrite K13, Hs12. proj. rewrite K10, K9, K8, K7, K6, K5, K4, K3, Hs2.
    reflexivity. }
  rewrite C13, Hs12. proj. rewrite C10, C9, C8, C7, C6, C5, C4, C3, Hs2.
  reflexivity.
Qed.

(** C8, as the code has it: construction reads the identity register
    once and, while the value differs from the expected constant, waits
    100 ms and reads it again, at most 5 more times (6 reads in all).  A
    value that is still wrong after the last read only prints a warning:
    [_verify_chip_version] returns, and for every configuration the
    setters accept [__init__] goes on to configure the chip and ends in
    standby. *)
Theorem version_check_advisory (chip : Chip) (now : Z) (kw : Kwargs) :
  kw_cs kw = true -> constructible (_init_config kw) ->
  exists v0 vs s1 s',
    _verify_chip_version (new_object chip now kw) = Returned tt s1
    /\ bus_log (hw s1) = bus_log chip ++ map (RegRead Registers.VERSION) (v0 :: vs)
    /\ (length vs <= 5)%nat
    /\ Forall (fun x => x <> Config.SX127X_VERSION) (removelast (v0 :: vs))
    /\ clock s1 = now + 100 * Z.of_nat (length vs)
    /\ (List.last vs v0 <> Config.SX127X_VERSION ->
        length vs = 5%nat
        /\ console s1 =
             map VersionRead vs ++
             [VersionWarning (List.last vs v0); ContinuingAnyway])
    /\ (List.last vs v0 = Config.SX127X_VERSION ->
        console s1 = map VersionRead vs)
    /\ __init__ chip now kw = Returned tt s'
    /\ console s' = console s1
    /\ reg s' Registers.OP_MODE = Z.lor Modes.LORA_MASK Modes.STDBY
    /\ reg s' Registers.FIFO_TX_BASE_ADDR = Config.TX_BASE_ADDR
    /\ reg s' Registers.FIFO_RX_BASE_ADDR = Config.RX_BASE_ADDR
    /\ reg s' Registers.SYNC_WORD = sync_word (_init_config kw)
    /\ reg s' Registers.MODEM_CONFIG_3 = 0x04.
Proof.
  intros Hcs Hok.
  destruct (_verify_chip_version_run (new_object chip now kw))
    as (v0 & vs & s1 & E1 & Hlog & Hn & Hall & Hclk & Hbad & Hgood & Hcfg).
  exists v0, vs, s1.
  unfold __init__. rewrite Hcs. cbn [negb]. fold (new_object chip now kw).
  mred. rewrite E1. mred. unfold _set_mode, standby, _set_mode. mstep.
  match goal with
  | |- context [_configure_radio ?st] => remember st as s2 eqn:Hs2
  end.
  destruct (_configure_radio_ok s2)
    as (s3 & E3 & Htx & Hrx & Hsw & Hm3 & Hcon & _).
  { rewrite Hs2. proj. rewrite Hcfg. exact Hok. }
  rewrite E3. mred. mstep.
  eexists. split; [reflexivity|].
  split; [exact Hlog|]. split; [exact Hn|]. split; [exact Hall|].
  split; [exact Hclk|]. split; [exact Hbad|]. split; [exact Hgood|].
  split; [reflexivity|].
  split; [proj; rewrite Hcon, Hs2; reflexivity|].
  split; [reg_simpl; reflexivity|].
  split; [reg_simpl; exact Htx|].
  split; [reg_simpl; exact Hrx|].
  split; [reg_simpl; fold (reg s3 Registers.SYNC_WORD); rewrite Hsw, Hs2;
          proj; rewrite Hcfg; reflexivity|].
  reg_simpl. exact Hm3.
Qed.

Lemma version_check_advisory_witness :
  exists s',
    __init__ idle_chip 0 default_kwargs = Returned tt s'
    /\ reg s' Registers.OP_MODE = 0x81
    /\ reg s' Registers.SYNC_WORD = 0x12.
Proof.
  destruct (version_check_advisory idle_chip 0 default_kwargs)
    as (v0 & vs & s1 & s' & _ & _ & _ & _ & _ & _ & _ & He & _ & Hm & _ & _ & Hs & _).
  - reflexivity.
  - unfold constructible. simpl. lia.
  - exists s'. split; [exact He|]. split; [exact Hm | exact Hs].
Defined.

(** The identity register is read six times, not five, by a chip that
    never answers with the expected value, and construction still
    succeeds. *)
Lemma version_check_reads_counterexample :
  exists s1 s',
    _verify_chip_version (new_object idle_chip 0 default_kwargs) = Returned tt s1
    /\ bus_log (hw s1) = repeat (RegRead Registers.VERSION 0) 6
    /\ (5 < length (List.filter (is_read_of Registers.VERSION) (bus_log (hw s1))))%nat
    /\ __init__ idle_chip 0 default_kwargs = Returned tt s'.
Proof.
  eexists. eexists.
  split; [vm_compute; reflexivity|].
  split; [vm_compute; reflexivity|].
  split; [vm_compute; lia|].
  vm_compute. reflexivity.
Qed.

(** ** Receive *)

Lemma read_fifo_run n :
  forall s,
    read_fifo n s =
    Returned (fst (pop_all n (hw s))) (set_hw (snd (pop_all n (hw s))) s).
Proof.
  induction n as [|n IH]; intros s.
  - destruct s; reflexivity.
  - cbn [read_fifo pop_all]. mred. mstep. rewrite IH. mred.
    cbn [hw set_hw]. destruct (pop_all n (pop (hw s))) as [rest c']. reflexivity.
Qed.

Lemma pop_all_log n :
  forall c,
    bus_log (snd (pop_all n c)) =
    bus_log c ++ map (RegRead Registers.FIFO) (fst (pop_all n c)).
Proof.
  induction n as [|n IH]; intros c; cbn [pop_all].
  - cbn [snd fst map]. rewrite app_nil_r. reflexivity.
  - specialize (IH (pop c)). destruct (pop_all n (pop c)) as [rest c'].
    cbn [snd fst map] in *. rewrite IH. cbn [pop bus_log].
    rewrite <- List.app_assoc. reflexivity.
Qed.

Lemma _read_payload_run s :
  _read_payload s =
  let cur := peek (tick_regs (hw s)) Registers.FIFO_RX_CURRENT_ADDR in
  let c2 := store Registers.FIFO_ADDR_PTR cur
              (load Registers.FIFO_RX_CURRENT_ADDR (hw s)) in
  let len_reg := if implicit (_config s) then Registers.PAYLOAD_LENGTH
                 else Registers.RX_NB_BYTES in
  let n := Z.to_nat (peek (tick_regs c2) len_reg) in
  Returned (fst (pop_all n (load len_reg c2)))
           (set_hw (snd (pop_all n (load len_reg c2))) s).
Proof.
  unfold _read_payload. mred. do 2 mstep. proj.
  destruct (implicit (_config s)); mstep; rewrite read_fifo_run; reflexivity.
Qed.

Lemma extends_politely_refl s : extends_politely s s.
Proof. exists []. split; [rewrite app_nil_r; reflexivity | constructor]. Qed.

Lemma extends_politely_trans s1 s2 s3 :
  extends_politely s1 s2 -> extends_politely s2 s3 -> extends_politely s1 s3.
Proof.
  intros (t1 & H1 & F1) (t2 & H2 & F2). exists (t1 ++ t2).
  split; [rewrite H2, H1, <- List.app_assoc; reflexivity|].
  apply Forall_app. split; assumption.
Qed.

Lemma extends_politely_same_log s s' :
  bus_log (hw s') = bus_log (hw s) -> extends_politely s s'.
Proof.
  intros H. exists []. split; [rewrite app_nil_r; exact H | constructor].
Qed.

Lemma reads_polite a l : Forall acks_rx_done_only (map (RegRead a) l).
Proof. induction l; constructor; [exact I | assumption]. Qed.

Lemma _read_payload_polite s :
  exists payload s',
    _read_payload s = Returned payload s' /\ extends_politely s s'.
Proof.
  eexists. eexists. split; [apply _read_payload_run|]. cbv zeta.
  eexists. split.
  - cbn [hw set_hw]. rewrite pop_all_log. cbn [load store bus_log].
    rewrite <- !List.app_assoc. reflexivity.
  - cbn [app]. constructor; [exact I|].
    constructor; [intros H; vm_compute in H; discriminate H|].
    constructor; [exact I|]. apply reads_polite.
Qed.

Lemma receive_poll_polite again s r s' :
  (forall st r' st', again st = Returned r' st' -> extends_politely st st') ->
  receive_poll again s = Returned r s' -> extends_politely s s'.
Proof.
  intros Hagain. unfold receive_poll. mred. mstep.
  assert (Hload : extends_politely s (set_hw (load Registers.IRQ_FLAGS (hw s)) s)).
  { eexists. split; [reflexivity|]. constructor; [exact I | constructor]. }
  destruct (truthy (Z.land _ IRQFlags.RX_DONE)).
  - mstep.
    match goal with
    | |- context [set_hw (ack ?v ?c) ?st] =>
        assert (Hack : extends_politely s (set_hw (ack v c) st))
    end.
    { eexists. split; [cbn [hw set_hw ack load bus_log];
                       rewrite <- List.app_assoc; reflexivity|].
      constructor; [exact I|]. constructor; [intros _; reflexivity | constructor]. }
    destruct (negb (truthy (Z.land _ IRQFlags.PAYLOAD_CRC_ERROR))).
    + match goal with
      | |- context [_read_payload ?st] =>
          destruct (_read_payload_polite st) as (p & s2 & He & Hp)
      end.
      rewrite He. mred. intros Heq. injection Heq as _ <-.
      eapply extends_politely_trans; [exact Hack | exact Hp].
    + intros He. eapply extends_politely_trans; [exact Hack|].
      eapply Hagain, He.
  - intros He. eapply extends_politely_trans; [exact Hload|].
    eapply Hagain, He.
Qed.

Lemma receive_wait_polite :
  forall fuel start timeout s r s',
    receive_wait fuel start timeout s = Returned r s' -> extends_politely s s'.
Proof.
  induction fuel as [|fuel IH]; intros start timeout s r s'; [discriminate|].
  cbn [receive_wait]. cbv zeta.
  assert (Hagain : forall st r' st',
            (bind (if 0 <? timeout then sleep_ms 10 else ret tt)
                  (fun _ => receive_wait fuel start timeout)) st = Returned r' st' ->
            extends_politely st st').
  { intros st r' st'. destruct (0 <? timeout); mred; intros He.
    - eapply extends_politely_trans; [|eapply IH, He].
      apply extends_politely_same_log. reflexivity.
    - eapply IH, He. }
  destruct (timeout =? 0).
  - apply receive_poll_polite, Hagain.
  - mred. destruct (clock s - start <? timeout).
    + apply receive_poll_polite, Hagain.
    + intros He. injection He as _ <-. apply extends_politely_refl.
Qed.

Lemma receive_message_polite fuel timeout s r s' :
  receive_message fuel timeout s = Returned r s' -> extends_politely s s'.
Proof.
  unfold receive_message, recv, _set_mode. mred. mstep. intros He.
  eapply extends_politely_trans; [|eapply receive_wait_polite, He].
  eexists. split; [reflexivity|].
  constructor; [intros H; vm_compute in H; discriminate H | constructor].
Qed.

(** With the CRC-error flag set, a pass through the loop body never
    returns a payload: it goes on to [again] with the flag still set. *)
Lemma receive_poll_latched again s :
  crc_latched s ->
  exists st,
    receive_poll again s = again st /\ crc_latched st /\ clock st = clock s.
Proof.
  intros Hl. unfold crc_latched, reg in Hl.
  pose proof (tick_keeps_flag (hw s) 5 ltac:(lia) Hl) as Hv.
  unfold receive_poll. mred. mstep.
  rewrite truthy_rx_done, truthy_crc_error, Hv. cbn [negb].
  destruct (Z.testbit (peek (tick_regs (hw s)) Registers.IRQ_FLAGS) 6).
  - mstep. eexists. split; [reflexivity|]. split; [|reflexivity].
    unfold crc_latched, reg. cbn [hw set_hw].
    rewrite ack_keeps by (try lia; reflexivity).
    apply tick_keeps_flag; [lia|]. exact Hv.
  - eexists. split; [reflexivity|]. split; [|reflexivity].
    unfold crc_latched, reg. cbn [hw set_hw]. exact Hv.
Qed.

Lemma receive_wait_latched :
  forall fuel start timeout s,
    crc_latched s ->
    receive_wait fuel start timeout s = OutOfFuel
    \/ exists s',
         receive_wait fuel start timeout s = Returned None s' /\ crc_latched s'.
Proof.
  induction fuel as [|fuel IH]; intros start timeout s Hl; [left; reflexivity|].
  cbn [receive_wait]. cbv zeta.
  assert (Hbody : forall st, crc_latched st ->
            let o := receive_poll
                       (bind (if 0 <? timeout then sleep_ms 10 else ret tt)
                             (fun _ => receive_wait fuel start timeout)) st in
            o = OutOfFuel \/ exists s', o = Returned None s' /\ crc_latched s').
  { intros st Hst. cbv zeta.
    destruct (receive_poll_latched
                (bind (if 0 <? timeout then sleep_ms 10 else ret tt)
                      (fun _ => receive_wait fuel start timeout)) st Hst)
      as (st' & -> & Hst' & _).
    destruct (0 <? timeout); mred; apply IH; exact Hst'. }
  destruct (timeout =? 0).
  - apply Hbody, Hl.
  - mred. destruct (clock s - start <? timeout).
    + apply Hbody, Hl.
    + right. exists s. split; [reflexivity | exact Hl].
Qed.

Lemma receive_wait_latched_forever :
  forall fuel start s,
    crc_latched s -> receive_wait fuel start 0 s = OutOfFuel.
Proof.
  induction fuel as [|fuel IH]; intros start s Hl; [reflexivity|].
  cbn [receive_wait]. cbv zeta. change (0 =? 0) with true. cbv iota.
  destruct (receive_poll_latched
              (bind (if 0 <? 0 then sleep_ms 10 else ret tt)
                    (fun _ => receive_wait fuel start 0)) s Hl)
    as (st & -> & Hst & _).
  change (0 <? 0) with false. mred. apply IH, Hst.
Qed.

Lemma receive_wait_latched_total :
  forall fuel start timeout s,
    crc_latched s -> 0 < timeout -> (0 < fuel)%nat ->
    timeout - (clock s - start) <= 10 * (Z.of_nat fuel - 1) ->
    exists s',
      receive_wait fuel start timeout s = Returned None s'
      /\ crc_latched s' /\ timeout <= clock s' - start.
Proof.
  induction fuel as [|fuel IH]; intros start timeout s Hl Ht Hpos Hfuel; [lia|].
  cbn [receive_wait]. cbv zeta.
  replace (timeout =? 0) with false by (symmetry; apply Z.eqb_neq; lia).
  set (again := bind (if 0 <? timeout then sleep_ms 10 else ret tt)
                     (fun _ => receive_wait fuel start timeout)).
  mred. destruct (Z.ltb_spec (clock s - start) timeout) as [Hlt|Hge].
  - destruct (receive_poll_latched again s Hl) as (st & -> & Hst & Hclk).
    subst again.
    replace (0 <? timeout) with true by (symmetry; apply Z.ltb_lt; lia).
    mred. apply IH.
    + exact Hst.
    + exact Ht.
    + lia.
    + proj. lia.
  - exists s. split; [reflexivity|]. split; [exact Hl | lia].
Qed.

Lemma store_keeps_flag k v c n :
  0 <= n < 8 -> k <> Registers.IRQ_FLAGS ->
  Z.testbit (peek (regs c) Registers.IRQ_FLAGS) n = true ->
  Z.testbit (peek (regs (store k v c)) Registers.IRQ_FLAGS) n = true.
Proof.
  intros Hn Hk H. cbn [store regs]. rewrite peek_insert_ne by exact Hk.
  apply tick_keeps_flag; assumption.
Qed.

Lemma _irq_handler_latched s :
  crc_latched s ->
  exists v s',
    _irq_handler s = Returned tt s'
    /\ bus_log (hw s') = bus_log (hw s) ++
         [RegRead Registers.IRQ_FLAGS v; RegWrite Registers.IRQ_FLAGS v]
    /\ Z.testbit v 5 = true
    /\ ~ crc_latched s'
    /\ inbox s' = inbox s.
Proof.
  intros Hl. unfold crc_latched, reg in Hl.
  pose proof (tick_keeps_flag (hw s) 5 ltac:(lia) Hl) as Hv.
  unfold _irq_handler. mred. do 2 mstep.
  rewrite truthy_crc_error, Hv. cbn [negb]. rewrite andb_false_r.
  eexists. eexists. split; [reflexivity|].
  split; [log_simpl; reflexivity|]. split; [exact Hv|].
  split; [|reflexivity].
  unfold crc_latched, reg. cbn [hw set_hw].
  rewrite ack_clears; [discriminate | lia | exact Hv].
Qed.

(** C9: the poll path writes nothing but the receive-complete bit back
    to the flag register.  So once the CRC-error flag is set it is still
    set when [receive_message] returns, the call never returns a payload
    (with a finite timeout it returns [None]; with timeout 0 it never
    returns), and the same holds for the call after it.  The interrupt
    handler writes back the value it read and thereby clears the flag. *)
Theorem crc_error_stays_latched (fuel : nat) (timeout : Z) (s : LoRa) :
  (forall r s',
     receive_message fuel timeout s = Returned r s' -> extends_politely s s')
  /\ (crc_latched s ->
      (receive_message fuel timeout s = OutOfFuel
       \/ exists s',
            receive_message fuel timeout s = Returned None s' /\ crc_latched s')
      /\ (0 < timeout -> (0 < fuel)%nat -> timeout <= 10 * (Z.of_nat fuel - 1) ->
          exists s',
            receive_message fuel timeout s = Returned None s' /\ crc_latched s')
      /\ (timeout = 0 -> receive_message fuel timeout s = OutOfFuel)
      /\ exists v s',
           _irq_handler s = Returned tt s'
           /\ bus_log (hw s') = bus_log (hw s) ++
                [RegRead Registers.IRQ_FLAGS v; RegWrite Registers.IRQ_FLAGS v]
           /\ Z.testbit v 5 = true
           /\ ~ crc_latched s'
           /\ inbox s' = inbox s).
Proof.
  split; [intros r s'; apply receive_message_polite|].
  intros Hl.
  assert (Hrecv : crc_latched
            (set_hw (store Registers.OP_MODE
                       (Z.lor Modes.LORA_MASK Modes.RX_CONTINUOUS) (hw s)) s)).
  { unfold crc_latched, reg. cbn [hw set_hw].
    apply store_keeps_flag; [lia | neq_consts | exact Hl]. }
  split; [|split; [|split]].
  - unfold receive_message, recv, _set_mode. mred. mstep.
    apply receive_wait_latched, Hrecv.
  - intros Ht Hpos Hfuel. unfold receive_message, recv, _set_mode. mred. mstep.
    match goal with
    | |- context [receive_wait fuel ?st timeout ?s1] =>
        destruct (receive_wait_latched_total fuel st timeout s1 Hrecv Ht Hpos)
          as (s' & He & Hl' & _)
    end.
    { proj. lia. }
    exists s'. split; [exact He | exact Hl'].
  - intros ->. unfold receive_message, recv, _set_mode. mred. mstep.
    apply receive_wait_latched_forever, Hrecv.
  - apply _irq_handler_latched, Hl.
Qed.

Lemma crc_error_stays_latched_witness :
  (exists s',
     receive_message 5 30 crc_latched_driver = Returned None s' /\ crc_latched s')
  /\ (exists v s',
        _irq_handler crc_latched_driver = Returned tt s'
        /\ Z.testbit v 5 = true /\ ~ crc_latched s').
Proof.
  destruct (crc_error_stays_latched 5 30 crc_latched_driver) as [_ H].
  destruct H as (_ & Hpoll & _ & Hirq); [reflexivity|].
  split.
  - apply Hpoll; lia.
  - destruct Hirq as (v & s' & He & _ & Hv & Hc & _).
    exists v, s'. split; [exact He|]. split; [exact Hv | exact Hc].
Defined.

(** What [crc_latched_driver] goes through: the frame signalled while the
    flag is latched is read with both flags set and dropped like the
    first, whereas the same frames on a chip without the CRC-error flag
    are returned. *)
Lemma poll_drops_later_frame :
  exists s',
    receive_message 5 30 crc_latched_driver = Returned None s'
    /\ bus_log (hw s') =
         [RegWrite Registers.OP_MODE 0x85;
          RegRead Registers.IRQ_FLAGS 0x60; RegWrite Registers.IRQ_FLAGS 0x40;
          RegRead Registers.IRQ_FLAGS 0x60; RegWrite Registers.IRQ_FLAGS 0x40;
          RegRead Registers.IRQ_FLAGS 0x20]
    /\ reg s' Registers.IRQ_FLAGS = 0x20.
Proof. eexists. split; [vm_compute; reflexivity|]. split; reflexivity. Qed.

(** ** The stored configuration *)

Lemma call_stores c s s' :
  call c s = Returned tt s' -> _config s' = stored (_config s) c.
Proof.
  destruct c as [f|bw|sf|d|n|on|sw|on|level pin]; cbn [call stored].
  - rewrite set_frequency_run. cbv zeta. intros H. injection H as <-. reflexivity.
  - rewrite set_bandwidth_run. cbv zeta. intros H. injection H as <-. reflexivity.
  - destruct (Z.lt_ge_cases sf 6) as [Hlo|Hlo];
      [rewrite set_spreading_factor_rejects by lia; discriminate|].
    destruct (Z.lt_ge_cases 12 sf) as [Hhi|Hhi];
      [rewrite set_spreading_factor_rejects by lia; discriminate|].
    rewrite set_spreading_factor_run by lia. cbv zeta.
    intros H. injection H as <-. reflexivity.
  - rewrite set_coding_rate_run. cbv zeta. intros H. injection H as <-. reflexivity.
  - rewrite set_preamble_length_run. cbv zeta. intros H. injection H as <-. reflexivity.
  - rewrite set_crc_run. cbv zeta. intros H. injection H as <-. reflexivity.
  - destruct (is_byte sw) eqn:Hb.
    + rewrite set_sync_word_run by exact Hb. intros H. injection H as <-. reflexivity.
    + rewrite set_sync_word_refused by exact Hb. discriminate.
  - rewrite set_implicit_run. cbv zeta. intros H. injection H as <-. reflexivity.
  - destruct (Z.eq_dec pin PAConfig.RFO_PIN) as [->|Hp].
    + rewrite set_tx_power_rfo. intros H. injection H as <-. reflexivity.
    + destruct (Z.lt_ge_cases level 2) as [H2|H2];
        [rewrite set_tx_power_boost_refused by assumption; discriminate|].
      destruct (Z.le_gt_cases level 17) as [H17|H17];
        [|destruct (Z.le_gt_cases level 19) as [H19|H19]].
      * rewrite set_tx_power_boost_low by (try assumption; lia). cbv zeta.
        intros H. injection H as <-. reflexivity.
      * rewrite set_tx_power_boost_partial by (try assumption; lia). cbv zeta.
        intros H. injection H as <-. reflexivity.
      * rewrite set_tx_power_boost_full by (try assumption; lia). cbv zeta.
        intros H. injection H as <-. reflexivity.
Qed.

(** After any sequence of setter calls that return, [get_config] gives
    the last value stored by each setter: clamped by [set_coding_rate]
    and [set_preamble_length], as passed by the others. *)
Lemma get_config_after_calls cs :
  forall s s',
    run_calls cs s = Returned tt s' ->
    get_config s' = Returned (fold_left stored cs (_config s)) s'.
Proof.
  induction cs as [|c rest IH]; intros s s'; cbn [run_calls fold_left].
  - mred. intros H. injection H as <-. reflexivity.
  - unfold bind. destruct (call c s) as [[] s1|e s1|] eqn:Hc; try discriminate.
    intros Hr. rewrite (IH s1 s' Hr). rewrite (call_stores c s s1 Hc). reflexivity.
Qed.

(** The setters that clamp before they store keep record and register in
    step. *)
Lemma set_coding_rate_consistent denom s :
  exists s',
    set_coding_rate denom s = Returned tt s'
    /\ coding_rate (_config s') = Z.min (Z.max denom 5) 8
    /\ Z.land (Z.shiftr (reg s' Registers.MODEM_CONFIG_1) 1) 0x07
       = coding_rate (_config s') - 4.
Proof.
  eexists. split; [apply set_coding_rate_run|]. cbv zeta.
  split; [reflexivity|]. proj.
  assert (Hcr : is_byte (Z.shiftl (Z.min (Z.max denom 5) 8 - 4) 1) = true).
  { apply is_byte_true. rewrite Z.shiftl_mul_pow2 by lia. lia. }
  reg_simpl.
  pose proof (peek_range (regs (hw s)) Registers.MODEM_CONFIG_1) as Hr.
  set (r := peek (regs (hw s)) Registers.MODEM_CONFIG_1) in *.
  assert (Hd : Z.min (Z.max denom 5) 8 - 4 = 1 \/ Z.min (Z.max denom 5) 8 - 4 = 2
               \/ Z.min (Z.max denom 5) 8 - 4 = 3 \/ Z.min (Z.max denom 5) 8 - 4 = 4)
    by lia.
  pose proof (forall_byte
    (fun r => forallb
       (fun cr => Z.land (Z.shiftr (Z.lor (Z.land r 0xf1) (Z.shiftl cr 1)) 1) 0x07
                  =? cr) [1; 2; 3; 4])
    ltac:(vm_compute; reflexivity) r Hr) as H.
  cbv beta in H. rewrite forallb_forall in H.
  apply Z.eqb_eq, H. cbn [In]. lia.
Qed.

Lemma set_preamble_length_consistent n s :
  exists s',
    set_preamble_length n s = Returned tt s'
    /\ preamble_length (_config s') = Z.max 6 (Z.min n 65535)
    /\ reg s' Registers.PREAMBLE_MSB * 256 + reg s' Registers.PREAMBLE_LSB
       = preamble_length (_config s').
Proof.
  eexists. split; [apply set_preamble_length_run|]. cbv zeta.
  split; [reflexivity|]. proj.
  assert (Hb : forall x, is_byte (Z.land x 0xff) = true)
    by (intros x; apply is_byte_land_r; reflexivity).
  reg_simpl.
  set (len := Z.max 6 (Z.min n 65535)).
  assert (Hlen : 0 <= len < 65536) by (unfold len; lia).
  change 255 with (Z.ones 8). rewrite !Z.land_ones, Z.shiftr_div_pow2 by lia.
  change (2 ^ 8) with 256.
  rewrite (Z.mod_small (len / 256))
    by (split; [apply Z.div_pos; lia | apply Z.div_lt_upper_bound; lia]).
  pose proof (Z.div_mod len 256 ltac:(lia)). lia.
Qed.

(** C1 fails on the code for the power level: [set_tx_power] stores the
    level it was passed and clamps only afterwards, for the register.
    After [set_tx_power(20, RFO_PIN)] the snapshot of [get_config] says 20
    while the chip was given 0x70 | 14. *)
Theorem get_config_tx_power_unclamped :
  exists cfg s',
    (run_calls [SetTxPower 20 PAConfig.RFO_PIN] ;;; get_config) sample_driver
      = Returned cfg s'
    /\ tx_power cfg = 20
    /\ reg s' Registers.PA_CONFIG = Z.lor 0x70 14
    /\ cfg <> fold_left spec_stored [SetTxPower 20 PAConfig.RFO_PIN]
                (_config sample_driver).
Proof.
  eexists. eexists. split; [vm_compute; reflexivity|].
  split; [reflexivity|]. split; [reflexivity|].
  intros H. apply (f_equal tx_power) in H. vm_compute in H. discriminate H.
Qed.

(** ** Worked examples *)

(** A whole number of MHz has an exact frequency word. *)
Lemma frf_integer_mhz n :
  int_of_Q ((n # 1) * (1000000 # 1) / FRF_STEP) = n * 16384.
Proof.
  unfold int_of_Q, FRF_STEP. cbn [Qnum Qden Qmult Qdiv Qinv].
  change (Z.pos (1 * 1 * 6103515625)) with 6103515625.
  replace (n * 1000000 * 100000000) with (n * 16384 * 6103515625) by lia.
  apply Z.quot_mul. lia.
Qed.

(** Spreading factor 6 has its own detection constants. *)
Lemma detection_constants :
  (exists s',
     set_spreading_factor 6 sample_driver = Returned tt s'
     /\ reg s' Registers.DETECTION_OPTIMIZE = 0xc5
     /\ reg s' Registers.DETECTION_THRESHOLD = 0x0c)
  /\ (exists s',
        set_spreading_factor 9 sample_driver = Returned tt s'
        /\ reg s' Registers.DETECTION_OPTIMIZE = 0xc3
        /\ reg s' Registers.DETECTION_THRESHOLD = 0x0a).
Proof.
  split; (eexists; split; [vm_compute; reflexivity | split; reflexivity]).
Qed.

(** [send] of two bytes on a chip that completes at once: success, the
    bytes are in the buffer and the flag has been acknowledged. *)
Lemma send_end_to_end :
  exists s',
    send 60 (PyStr "hi") 500 sending_driver = Returned true s'
    /\ reg s' Registers.PAYLOAD_LENGTH = 2
    /\ peek (fifo (hw s')) 0 = 0x68 /\ peek (fifo (hw s')) 1 = 0x69
    /\ reg s' Registers.IRQ_FLAGS = 0
    /\ clock s' = 0.
Proof.
  eexists. split; [vm_compute; reflexivity|]. repeat split.
Qed.

(** * Part III: the rest of the driver *)

(** ** Modem setters *)

Lemma sf_nibble r sf :
  0 <= r <= 255 -> 0 <= sf <= 15 ->
  Z.shiftr (Z.lor (Z.land r 0x0f) (Z.land (Z.shiftl sf 4) 0xf0)) 4 = sf
  /\ Z.land (Z.lor (Z.land r 0x0f) (Z.land (Z.shiftl sf 4) 0xf0)) 0x0f
     = Z.land r 0x0f.
Proof.
  intros Hr Hs.
  pose proof (forall_byte
    (fun r => forallb
       (fun i => (Z.shiftr (Z.lor (Z.land r 0x0f) (Z.land (Z.shiftl i 4) 0xf0)) 4
                  =? i)
                 && (Z.land (Z.lor (Z.land r 0x0f) (Z.land (Z.shiftl i 4) 0xf0)) 0x0f
                     =? Z.land r 0x0f))
       (map Z.of_nat (seq 0 16)))
    ltac:(vm_compute; reflexivity) r Hr) as H.
  cbv beta in H. rewrite forallb_forall in H.
  specialize (H sf). rewrite andb_true_iff, !Z.eqb_eq in H. apply H.
  apply in_map_iff. exists (Z.to_nat sf). split; [lia|]. apply in_seq. lia.
Qed.

(** X1: [set_spreading_factor] rejects a factor outside 6..12 before it
    touches anything: the object is exactly as it was, bus log included.
    A factor in range is stored, goes to the high nibble of
    MODEM_CONFIG_2 with the low nibble kept, and the two detection
    registers get 0xc5 and 0x0c for factor 6, 0xc3 and 0x0a otherwise. *)
Theorem set_spreading_factor_effect (sf : Z) (s : LoRa) :
  (sf < 6 \/ 12 < sf -> set_spreading_factor sf s = Raised SpreadingFactorRange s)
  /\ (6 <= sf <= 12 ->
      exists s',
        set_spreading_factor sf s = Returned tt s'
        /\ spreading_factor (_config s') = sf
        /\ Z.shiftr (reg s' Registers.MODEM_CONFIG_2) 4 = sf
        /\ Z.land (reg s' Registers.MODEM_CONFIG_2) 0x0f
           = Z.land (reg s Registers.MODEM_CONFIG_2) 0x0f
        /\ reg s' Registers.DETECTION_OPTIMIZE = (if sf =? 6 then 0xc5 else 0xc3)
        /\ reg s' Registers.DETECTION_THRESHOLD = (if sf =? 6 then 0x0c else 0x0a)).
Proof.
  split; [apply set_spreading_factor_rejects|].
  intros Hsf. eexists. split; [apply set_spreading_factor_run, Hsf|]. cbv zeta.
  split; [reflexivity|].
  assert (H1 : is_byte (if sf =? 6 then 0xc5 else 0xc3) = true)
    by (destruct (sf =? 6); reflexivity).
  assert (H2 : is_byte (if sf =? 6 then 0x0c else 0x0a) = true)
    by (destruct (sf =? 6); reflexivity).
  destruct (sf_nibble (reg s Registers.MODEM_CONFIG_2) sf) as [Hhi Hlo];
    [apply peek_range | lia |].
  split; [reg_simpl; exact Hhi|]. split; [reg_simpl; exact Hlo|].
  split; reg_simpl; reflexivity.
Qed.

Lemma set_spreading_factor_effect_witness :
  set_spreading_factor 13 sample_driver = Raised SpreadingFactorRange sample_driver
  /\ exists s',
       set_spreading_factor 6 sample_driver = Returned tt s'
       /\ Z.shiftr (reg s' Registers.MODEM_CONFIG_2) 4 = 6
       /\ reg s' Registers.DETECTION_OPTIMIZE = 0xc5.
Proof.
  destruct (set_spreading_factor_effect 13 sample_driver) as [H13 _].
  destruct (set_spreading_factor_effect 6 sample_driver) as [_ H6].
  split; [apply H13; lia|].
  destruct H6 as (s' & He & _ & Hn & _ & Hd & _); [lia|].
  exists s'. split; [exact He|]. split; [exact Hn | exact Hd].
Defined.

(** ** Fields of the shared modem registers *)

Lemma forall_byte2 (p : Z -> Z -> bool) (n : nat) :
  forallb (fun r => forallb (p r) (map Z.of_nat (seq 0 n)))
          (map Z.of_nat (seq 0 256)) = true ->
  forall r i, 0 <= r <= 255 -> 0 <= i < Z.of_nat n -> p r i = true.
Proof.
  intros H r i Hr Hi.
  pose proof (forall_byte _ H r Hr) as H'. cbv beta in H'.
  rewrite forallb_forall in H'. apply H'.
  apply in_map_iff. exists (Z.to_nat i). split; [lia|]. apply in_seq. lia.
Qed.

Lemma mc1_bw_fields r i :
  0 <= r <= 255 -> 0 <= i <= 15 ->
  Z.land (Z.shiftr (Z.lor (Z.land r 0x0f) (Z.shiftl i 4)) 1) 0x07
  = Z.land (Z.shiftr r 1) 0x07
  /\ Z.testbit (Z.lor (Z.land r 0x0f) (Z.shiftl i 4)) 0 = Z.testbit r 0.
Proof.
  intros Hr Hi.
  pose proof (forall_byte2
    (fun r i =>
       (Z.land (Z.shiftr (Z.lor (Z.land r 0x0f) (Z.shiftl i 4)) 1) 0x07
        =? Z.land (Z.shiftr r 1) 0x07)
       && Bool.eqb (Z.testbit (Z.lor (Z.land r 0x0f) (Z.shiftl i 4)) 0)
                   (Z.testbit r 0))
    16 ltac:(vm_compute; reflexivity) r i Hr ltac:(simpl; lia)) as H.
  cbv beta in H. apply andb_true_iff in H. destruct H as [H1 H2].
  split; [apply Z.eqb_eq, H1 | apply eqb_prop, H2].
Qed.

Lemma mc1_cr_fields r cr :
  0 <= r <= 255 -> 1 <= cr <= 4 ->
  Z.shiftr (Z.lor (Z.land r 0xf1) (Z.shiftl cr 1)) 4 = Z.shiftr r 4
  /\ Z.land (Z.shiftr (Z.lor (Z.land r 0xf1) (Z.shiftl cr 1)) 1) 0x07 = cr
  /\ Z.testbit (Z.lor (Z.land r 0xf1) (Z.shiftl cr 1)) 0 = Z.testbit r 0
  /\ Z.land (Z.lor (Z.land r 0xf1) (Z.shiftl cr 1)) 0xf1 = Z.land r 0xf1.
Proof.
  intros Hr Hc.
  pose proof (forall_byte2
    (fun r cr =>
       (cr =? 0)
       || (Z.shiftr (Z.lor (Z.land r 0xf1) (Z.shiftl cr 1)) 4 =? Z.shiftr r 4)
          && (Z.land (Z.shiftr (Z.lor (Z.land r 0xf1) (Z.shiftl cr 1)) 1) 0x07 =? cr)
          && Bool.eqb (Z.testbit (Z.lor (Z.land r 0xf1) (Z.shiftl cr 1)) 0)
                      (Z.testbit r 0)
          && (Z.land (Z.lor (Z.land r 0xf1) (Z.shiftl cr 1)) 0xf1 =? Z.land r 0xf1))
    5 ltac:(vm_compute; reflexivity) r cr Hr ltac:(simpl; lia)) as H.
  cbv beta in H. apply orb_true_iff in H.
  destruct H as [H|H]; [apply Z.eqb_eq in H; lia|].
  rewrite !andb_true_iff, !Z.eqb_eq in H. destruct H as [[[H1 H2] H3] H4].
  split; [exact H1|]. split; [exact H2|]. split; [apply eqb_prop, H3 | exact H4].
Qed.

Lemma mc1_implicit_fields r (on : bool) :
  0 <= r <= 255 ->
  let v := if on then Z.lor r 0x01 else Z.land r 0xfe in
  Z.shiftr v 4 = Z.shiftr r 4
  /\ Z.land (Z.shiftr v 1) 0x07 = Z.land (Z.shiftr r 1) 0x07
  /\ Z.testbit v 0 = on
  /\ Z.land v 0xfe = Z.land r 0xfe.
Proof.
  intros Hr.
  pose proof (forall_byte
    (fun r =>
       forallb
         (fun on : bool =>
            let v := if on then Z.lor r 0x01 else Z.land r 0xfe in
            (Z.shiftr v 4 =? Z.shiftr r 4)
            && (Z.land (Z.shiftr v 1) 0x07 =? Z.land (Z.shiftr r 1) 0x07)
            && Bool.eqb (Z.testbit v 0) on
            && (Z.land v 0xfe =? Z.land r 0xfe))
         [true; false])
    ltac:(vm_compute; reflexivity) r Hr) as H.
  cbv beta in H. rewrite forallb_forall in H.
  specialize (H on ltac:(destruct on; simpl; tauto)). cbv zeta in *.
  rewrite !andb_true_iff, !Z.eqb_eq in H. destruct H as [[[H1 H2] H3] H4].
  split; [exact H1|]. split; [exact H2|]. split; [apply eqb_prop, H3 | exact H4].
Qed.

Lemma mc2_sf_fields r sf :
  0 <= r <= 255 -> 0 <= sf <= 15 ->
  Z.testbit (Z.lor (Z.land r 0x0f) (Z.land (Z.shiftl sf 4) 0xf0)) 2
  = Z.testbit r 2.
Proof.
  intros Hr Hs.
  pose proof (forall_byte2
    (fun r i =>
       Bool.eqb (Z.testbit (Z.lor (Z.land r 0x0f) (Z.land (Z.shiftl i 4) 0xf0)) 2)
                (Z.testbit r 2))
    16 ltac:(vm_compute; reflexivity) r sf Hr ltac:(simpl; lia)) as H.
  apply eqb_prop, H.
Qed.

Lemma mc2_crc_fields r (on : bool) :
  0 <= r <= 255 ->
  let v := if on then Z.lor r 0x04 else Z.land r 0xfb in
  Z.shiftr v 4 = Z.shiftr r 4
  /\ Z.testbit v 2 = on
  /\ Z.land v 0xfb = Z.land r 0xfb.
Proof.
  intros Hr.
  pose proof (forall_byte
    (fun r =>
       forallb
         (fun on : bool =>
            let v := if on then Z.lor r 0x04 else Z.land r 0xfb in
            (Z.shiftr v 4 =? Z.shiftr r 4)
            && Bool.eqb (Z.testbit v 2) on
            && (Z.land v 0xfb =? Z.land r 0xfb))
         [true; false])
    ltac:(vm_compute; reflexivity) r Hr) as H.
  cbv beta in H. rewrite forallb_forall in H.
  specialize (H on ltac:(destruct on; simpl; tauto)). cbv zeta in *.
  rewrite !andb_true_iff, !Z.eqb_eq in H. destruct H as [[H1 H2] H3].
  split; [exact H1|]. split; [apply eqb_prop, H2 | exact H3].
Qed.

(** X2: [set_coding_rate] clamps the denominator to 5..8, stores the
    clamped value and writes it less 4 to bits 3..1 of MODEM_CONFIG_1;
    the bandwidth nibble and the header bit of that register keep their
    values.  A denominator of at most 5 gives field 1, one of at least 8
    gives field 4. *)
Theorem set_coding_rate_effect (denom : Z) (s : LoRa) :
  exists s',
    set_coding_rate denom s = Returned tt s'
    /\ 5 <= coding_rate (_config s') <= 8
    /\ (5 <= denom <= 8 -> coding_rate (_config s') = denom)
    /\ (denom <= 5 -> coding_rate (_config s') = 5)
    /\ (8 <= denom -> coding_rate (_config s') = 8)
    /\ Z.land (Z.shiftr (reg s' Registers.MODEM_CONFIG_1) 1) 0x07
       = coding_rate (_config s') - 4
    /\ Z.land (reg s' Registers.MODEM_CONFIG_1) 0xf1
       = Z.land (reg s Registers.MODEM_CONFIG_1) 0xf1.
Proof.
  eexists. split; [apply set_coding_rate_run|]. cbv zeta. proj.
  split; [lia|]. split; [lia|]. split; [lia|]. split; [lia|].
  assert (Hcr : is_byte (Z.shiftl (Z.min (Z.max denom 5) 8 - 4) 1) = true).
  { apply is_byte_true. rewrite Z.shiftl_mul_pow2 by lia. lia. }
  destruct (mc1_cr_fields (peek (regs (hw s)) Registers.MODEM_CONFIG_1)
              (Z.min (Z.max denom 5) 8 - 4)) as (_ & Hf & _ & Hk);
    [apply peek_range | lia |].
  split; reg_simpl; assumption.
Qed.

(** X3: [set_preamble_length] clamps the length to 6..65535, stores the
    clamped value and writes it as two bytes, the most significant first,
    so that the two registers give the stored length back. *)
Theorem set_preamble_length_effect (n : Z) (s : LoRa) :
  exists s',
    set_preamble_length n s = Returned tt s'
    /\ 6 <= preamble_length (_config s') <= 65535
    /\ (6 <= n <= 65535 -> preamble_length (_config s') = n)
    /\ (n <= 6 -> preamble_length (_config s') = 6)
    /\ (65535 <= n -> preamble_length (_config s') = 65535)
    /\ bus_log (hw s') = bus_log (hw s) ++
         [RegWrite Registers.PREAMBLE_MSB (reg s' Registers.PREAMBLE_MSB);
          RegWrite Registers.PREAMBLE_LSB (reg s' Registers.PREAMBLE_LSB)]
    /\ reg s' Registers.PREAMBLE_MSB * 256 + reg s' Registers.PREAMBLE_LSB
       = preamble_length (_config s').
Proof.
  destruct (set_preamble_length_consistent n s) as (s0 & He0 & _ & Hregs).
  eexists. split; [apply set_preamble_length_run|]. cbv zeta.
  rewrite set_preamble_length_run in He0. cbv zeta in He0.
  injection He0 as <-.
  proj. split; [lia|]. split; [lia|]. split; [lia|]. split; [lia|].
  assert (Hb : forall x, is_byte (Z.land x 0xff) = true)
    by (intros x; apply is_byte_land_r; reflexivity).
  split; [|exact Hregs].
  reg_simpl. rewrite <- List.app_assoc. reflexivity.
Qed.

(** X4: [set_crc] sets or clears bit 2 of MODEM_CONFIG_2 as asked and
    changes no other bit of it, the spreading-factor nibble included. *)
Theorem set_crc_effect (on : bool) (s : LoRa) :
  exists s',
    set_crc on s = Returned tt s'
    /\ crc (_config s') = on
    /\ Z.testbit (reg s' Registers.MODEM_CONFIG_2) 2 = on
    /\ Z.land (reg s' Registers.MODEM_CONFIG_2) 0xfb
       = Z.land (reg s Registers.MODEM_CONFIG_2) 0xfb
    /\ Z.shiftr (reg s' Registers.MODEM_CONFIG_2) 4
       = Z.shiftr (reg s Registers.MODEM_CONFIG_2) 4.
Proof.
  eexists. split; [apply set_crc_run|]. cbv zeta.
  split; [reflexivity|].
  destruct (mc2_crc_fields (reg s Registers.MODEM_CONFIG_2) on (peek_range _ _))
    as (Hn & Hb & Hk).
  assert (Hv : is_byte (if on then Z.lor (reg s Registers.MODEM_CONFIG_2) 0x04
                        else Z.land (reg s Registers.MODEM_CONFIG_2) 0xfb) = true)
    by (unfold reg; destruct on; auto with bytes).
  unfold reg in *.
  split; [reg_simpl; exact Hb|]. split; [reg_simpl; exact Hk|].
  reg_simpl. exact Hn.
Qed.

(** X5: [set_implicit] sets or clears bit 0 of MODEM_CONFIG_1 as asked
    and changes no other bit of it, so the bandwidth nibble and the
    coding-rate field stay. *)
Theorem set_implicit_effect (on : bool) (s : LoRa) :
  exists s',
    set_implicit on s = Returned tt s'
    /\ implicit (_config s') = on
    /\ Z.testbit (reg s' Registers.MODEM_CONFIG_1) 0 = on
    /\ Z.land (reg s' Registers.MODEM_CONFIG_1) 0xfe
       = Z.land (reg s Registers.MODEM_CONFIG_1) 0xfe.
Proof.
  eexists. split; [apply set_implicit_run|]. cbv zeta.
  split; [reflexivity|].
  destruct (mc1_implicit_fields (reg s Registers.MODEM_CONFIG_1) on (peek_range _ _))
    as (_ & _ & Hb & Hk).
  assert (Hv : is_byte (if on then Z.lor (reg s Registers.MODEM_CONFIG_1) 0x01
                        else Z.land (reg s Registers.MODEM_CONFIG_1) 0xfe) = true)
    by (unfold reg; destruct on; auto with bytes).
  unfold reg in *.
  split; reg_simpl; assumption.
Qed.

(** ** Every setter keeps the other parameters' registers in agreement *)

Lemma returned_state {A} (a b : A) (s s' : LoRa) :
  Returned a s = Returned b s' -> s' = s.
Proof. intros H. injection H as _ <-. reflexivity. Qed.

Ltac clause_cases k :=
  destruct k; cbn [sets];
  (split; [intros ? | intros ? ?]); try discriminate;
  cbv beta iota zeta delta [holds] in *; unfold reg in *.

Ltac clause_close :=
  reg_simpl; first [ assumption | reflexivity | solve [repeat split] | congruence | lia ].

Lemma clause_set_frequency f s s' k :
  set_frequency f s = Returned tt s' ->
  (sets (SetFrequency f) k = true -> holds k s')
  /\ (sets (SetFrequency f) k = false -> holds k s -> holds k s').
Proof.
  rewrite set_frequency_run. cbv zeta. intros ->%returned_state.
  assert (Hb : forall x, is_byte (Z.land x 0xff) = true)
    by (intros x; apply is_byte_land_r; reflexivity).
  clause_cases k; clause_close.
Qed.

Lemma clause_set_bandwidth bw s s' k :
  set_bandwidth bw s = Returned tt s' ->
  (sets (SetBandwidth bw) k = true -> holds k s')
  /\ (sets (SetBandwidth bw) k = false -> holds k s -> holds k s').
Proof.
  rewrite set_bandwidth_run. cbv zeta. intros ->%returned_state.
  pose proof (bw_index_range bw) as Hi.
  destruct (nibble_pack (reg s Registers.MODEM_CONFIG_1)
              (bw_search bw Config.BANDWIDTHS 0 9)) as [Hhi _];
    [apply peek_range | lia |].
  destruct (mc1_bw_fields (reg s Registers.MODEM_CONFIG_1)
              (bw_search bw Config.BANDWIDTHS 0 9)) as [Hcr Him];
    [apply peek_range | lia |].
  assert (Hl : is_byte (if (10 <? spreading_factor (_config s)) && (bw <? 250000)
                        then 0x08 else 0x04) = true)
    by (destruct (_ && _); reflexivity).
  clause_cases k; clause_close.
Qed.

Lemma two_bytes_value len :
  0 <= len < 65536 ->
  Z.land (Z.shiftr len 8) 0xff * 256 + Z.land len 0xff = len.
Proof.
  intros Hlen.
  change 255 with (Z.ones 8). rewrite !Z.land_ones, Z.shiftr_div_pow2 by lia.
  change (2 ^ 8) with 256.
  rewrite (Z.mod_small (len / 256))
    by (split; [apply Z.div_pos; lia | apply Z.div_lt_upper_bound; lia]).
  pose proof (Z.div_mod len 256 ltac:(lia)). lia.
Qed.

Lemma set_spreading_factor_returned sf s s' :
  set_spreading_factor sf s = Returned tt s' -> 6 <= sf <= 12.
Proof.
  intros H.
  destruct (Z.lt_ge_cases sf 6) as [Hlo|Hlo];
    [rewrite set_spreading_factor_rejects in H by lia; discriminate|].
  destruct (Z.lt_ge_cases 12 sf) as [Hhi|Hhi];
    [rewrite set_spreading_factor_rejects in H by lia; discriminate|].
  lia.
Qed.

Lemma clause_set_spreading_factor sf s s' k :
  set_spreading_factor sf s = Returned tt s' ->
  (sets (SetSpreadingFactor sf) k = true -> holds k s')
  /\ (sets (SetSpreadingFactor sf) k = false -> holds k s -> holds k s').
Proof.
  intros He. pose proof (set_spreading_factor_returned _ _ _ He) as Hsf.
  revert He. rewrite set_spreading_factor_run by exact Hsf.
  cbv zeta. intros ->%returned_state.
  assert (H1 : is_byte (if sf =? 6 then 0xc5 else 0xc3) = true)
    by (destruct (sf =? 6); reflexivity).
  assert (H2 : is_byte (if sf =? 6 then 0x0c else 0x0a) = true)
    by (destruct (sf =? 6); reflexivity).
  assert (Hl : is_byte (if (10 <? sf) && (bandwidth (_config s) <? 250000)
                        then 0x08 else 0x04) = true)
    by (destruct (_ && _); reflexivity).
  destruct (sf_nibble (reg s Registers.MODEM_CONFIG_2) sf) as [Hhi _];
    [apply peek_range | lia |].
  pose proof (mc2_sf_fields (reg s Registers.MODEM_CONFIG_2) sf
                (peek_range _ _) ltac:(lia)) as Hcrc.
  clause_cases k; clause_close.
Qed.

Lemma clause_set_coding_rate d s s' k :
  set_coding_rate d s = Returned tt s' ->
  (sets (SetCodingRate d) k = true -> holds k s')
  /\ (sets (SetCodingRate d) k = false -> holds k s -> holds k s').
Proof.
  rewrite set_coding_rate_run. cbv zeta. intros ->%returned_state.
  assert (Hcr : is_byte (Z.shiftl (Z.min (Z.max d 5) 8 - 4) 1) = true).
  { apply is_byte_true. rewrite Z.shiftl_mul_pow2 by lia. lia. }
  destruct (mc1_cr_fields (reg s Registers.MODEM_CONFIG_1)
              (Z.min (Z.max d 5) 8 - 4)) as (Hbw & Hf & Him & _);
    [apply peek_range | lia |].
  clause_cases k; clause_close.
Qed.

Lemma clause_set_preamble_length n s s' k :
  set_preamble_length n s = Returned tt s' ->
  (sets (SetPreambleLength n) k = true -> holds k s')
  /\ (sets (SetPreambleLength n) k = false -> holds k s -> holds k s').
Proof.
  rewrite set_preamble_length_run. cbv zeta. intros ->%returned_state.
  assert (Hb : forall x, is_byte (Z.land x 0xff) = true)
    by (intros x; apply is_byte_land_r; reflexivity).
  pose proof (two_bytes_value (Z.max 6 (Z.min n 65535)) ltac:(lia)) as Hv.
  clause_cases k; clause_close.
Qed.

Lemma clause_set_crc on s s' k :
  set_crc on s = Returned tt s' ->
  (sets (SetCrc on) k = true -> holds k s')
  /\ (sets (SetCrc on) k = false -> holds k s -> holds k s').
Proof.
  rewrite set_crc_run. cbv zeta. intros ->%returned_state.
  destruct (mc2_crc_fields (reg s Registers.MODEM_CONFIG_2) on (peek_range _ _))
    as (Hn & Hb & _).
  assert (Hv : is_byte (if on then Z.lor (reg s Registers.MODEM_CONFIG_2) 0x04
                        else Z.land (reg s Registers.MODEM_CONFIG_2) 0xfb) = true)
    by (unfold reg; destruct on; auto with bytes).
  clause_cases k; clause_close.
Qed.

Lemma clause_set_sync_word sw s s' k :
  set_sync_word sw s = Returned tt s' ->
  (sets (SetSyncWord sw) k = true -> holds k s')
  /\ (sets (SetSyncWord sw) k = false -> holds k s -> holds k s').
Proof.
  destruct (is_byte sw) eqn:Hb;
    [|rewrite set_sync_word_refused by exact Hb; discriminate].
  rewrite set_sync_word_run by exact Hb. intros ->%returned_state.
  clause_cases k; clause_close.
Qed.

Lemma clause_set_implicit on s s' k :
  set_implicit on s = Returned tt s' ->
  (sets (SetImplicit on) k = true -> holds k s')
  /\ (sets (SetImplicit on) k = false -> holds k s -> holds k s').
Proof.
  rewrite set_implicit_run. cbv zeta. intros ->%returned_state.
  destruct (mc1_implicit_fields (reg s Registers.MODEM_CONFIG_1) on (peek_range _ _))
    as (Hbw & Hcr & Hb & _).
  assert (Hv : is_byte (if on then Z.lor (reg s Registers.MODEM_CONFIG_1) 0x01
                        else Z.land (reg s Registers.MODEM_CONFIG_1) 0xfe) = true)
    by (unfold reg; destruct on; auto with bytes).
  clause_cases k; clause_close.
Qed.

Lemma set_tx_power_returned level pin s s' :
  set_tx_power level pin s = Returned tt s' ->
  pin = PAConfig.RFO_PIN \/ 2 <= level.
Proof.
  intros H. destruct (Z.eq_dec pin PAConfig.RFO_PIN) as [Hp|Hp]; [left; exact Hp|].
  destruct (Z.lt_ge_cases level 2) as [H2|H2]; [|right; lia].
  rewrite set_tx_power_boost_refused in H by assumption. discriminate.
Qed.

Lemma is_byte_boost_field level :
  2 <= level <= 17 -> is_byte (Z.lor PAConfig.PA_BOOST (level - 2)) = true.
Proof.
  intros H. rewrite Z.lor_comm.
  apply is_byte_lor_const; [reflexivity | apply is_byte_true; lia].
Qed.

Lemma clause_set_tx_power level pin s s' k :
  set_tx_power level pin s = Returned tt s' ->
  (sets (SetTxPower level pin) k = true -> holds k s')
  /\ (sets (SetTxPower level pin) k = false -> holds k s -> holds k s').
Proof.
  intros He. pose proof (set_tx_power_returned _ _ _ _ He) as Hr. revert He.
  destruct (Z.eq_dec pin PAConfig.RFO_PIN) as [->|Hp].
  - rewrite set_tx_power_rfo. intros ->%returned_state.
    assert (Hv : is_byte (Z.lor 0x70 (Z.min (Z.max level 0) 14)) = true)
      by (rewrite Z.lor_comm; auto with bytes).
    clause_cases k; clause_close.
  - destruct Hr as [Hr|Hr]; [contradiction|].
    assert (Hpin : (pin =? PAConfig.RFO_PIN) = false) by (apply Z.eqb_neq, Hp).
    destruct (Z.le_gt_cases level 17) as [H17|H17];
      [|destruct (Z.le_gt_cases level 19) as [H19|H19]].
    + rewrite set_tx_power_boost_low by (try assumption; lia). cbv zeta.
      intros ->%returned_state.
      pose proof (is_byte_boost_field level ltac:(lia)) as Hv.
      assert (Hl : (17 <? level) = false) by (apply Z.ltb_ge; lia).
      clause_cases k; try clause_close.
      reg_simpl. unfold pa_config_of. rewrite Hpin, Hl. reflexivity.
    + rewrite set_tx_power_boost_partial by (try assumption; lia). cbv zeta.
      intros ->%returned_state.
      assert (Hl : (17 <? level) = true) by (apply Z.ltb_lt; lia).
      clause_cases k; try clause_close.
      reg_simpl. unfold pa_config_of. rewrite Hpin, Hl. reflexivity.
    + rewrite set_tx_power_boost_full by (try assumption; lia). cbv zeta.
      intros ->%returned_state.
      assert (Hl : (17 <? level) = true) by (apply Z.ltb_lt; lia).
      clause_cases k; try clause_close.
      reg_simpl. unfold pa_config_of. rewrite Hpin, Hl. reflexivity.
Qed.

Lemma call_clause c k s s' :
  call c s = Returned tt s' ->
  (sets c k = true -> holds k s')
  /\ (sets c k = false -> holds k s -> holds k s').
Proof.
  destruct c; cbn [call].
  - apply clause_set_frequency.
  - apply clause_set_bandwidth.
  - apply clause_set_spreading_factor.
  - apply clause_set_coding_rate.
  - apply clause_set_preamble_length.
  - apply clause_set_crc.
  - apply clause_set_sync_word.
  - apply clause_set_implicit.
  - apply clause_set_tx_power.
Qed.

(** ** Agreement of record and registers *)

Lemma holds_frame k s s' :
  _config s' = _config s ->
  (forall a, In a modem_registers -> reg s' a = reg s a) ->
  holds k s -> holds k s'.
Proof.
  intros Hc Hr.
  assert (Hin : forall a, In a modem_registers -> reg s' a = reg s a) by exact Hr.
  unfold modem_registers in Hr.
  destruct k; cbv beta iota zeta delta [holds]; rewrite Hc;
    rewrite ?Hr by (simpl; tauto); trivial.
Qed.

Lemma call_holds c k s s' :
  call c s = Returned tt s' ->
  sets c k = true \/ holds k s -> holds k s'.
Proof.
  intros He. destruct (call_clause c k s s' He) as [Hset Hkeep].
  destruct (sets c k); intros [H|H]; auto; discriminate.
Qed.



Lemma touches_only_modem ws s s' :
  touches_only ws s s' ->
  forallb (fun a => negb (existsb (Z.eqb a) ws)) modem_registers = true ->
  forall a, In a modem_registers -> reg s' a = reg s a.
Proof.
  intros Ht Hd a Ha. rewrite forallb_forall in Hd. specialize (Hd a Ha).
  apply Ht.
  - unfold modem_registers in Ha. cbn [In] in Ha.
    repeat (destruct Ha as [<-|Ha]; [reflexivity|]). contradiction.
  - intros Hin. apply negb_true_iff in Hd.
    assert (Hex : existsb (Z.eqb a) ws = true)
      by (apply existsb_exists; exists a; split; [exact Hin | apply Z.eqb_refl]).
    congruence.
Qed.

Ltac back_setter :=
  match goal with
  | E : set_frequency _ ?s = Returned tt ?s' |- holds _ ?s' =>
      apply (call_holds (SetFrequency _) _ _ _ E)
  | E : set_bandwidth _ ?s = Returned tt ?s' |- holds _ ?s' =>
      apply (call_holds (SetBandwidth _) _ _ _ E)
  | E : set_spreading_factor _ ?s = Returned tt ?s' |- holds _ ?s' =>
      apply (call_holds (SetSpreadingFactor _) _ _ _ E)
  | E : set_coding_rate _ ?s = Returned tt ?s' |- holds _ ?s' =>
      apply (call_holds (SetCodingRate _) _ _ _ E)
  | E : set_preamble_length _ ?s = Returned tt ?s' |- holds _ ?s' =>
      apply (call_holds (SetPreambleLength _) _ _ _ E)
  | E : set_crc _ ?s = Returned tt ?s' |- holds _ ?s' =>
      apply (call_holds (SetCrc _) _ _ _ E)
  | E : set_sync_word _ ?s = Returned tt ?s' |- holds _ ?s' =>
      apply (call_holds (SetSyncWord _) _ _ _ E)
  | E : set_implicit _ ?s = Returned tt ?s' |- holds _ ?s' =>
      apply (call_holds (SetImplicit _) _ _ _ E)
  | E : set_tx_power _ _ ?s = Returned tt ?s' |- holds _ ?s' =>
      apply (call_holds (SetTxPower _ _) _ _ _ E)
  end;
  first [ solve [left; reflexivity] | right ].

Lemma _configure_radio_agrees s :
  constructible (_config s) ->
  exists s', _configure_radio s = Returned tt s' /\ agrees s'.
Proof.
  intros (Hsf & Hsw & Hpw).
  unfold _configure_radio. mred. do 2 mstep.
  match goal with
  | |- context [set_frequency ?x ?st] => remember st as s2 eqn:Hs2
  end.
  destruct (set_frequency_ok (frequency (_config s2)) s2)
    as (s3 & E3 & C3 & K3 & T3).
  rewrite E3. mred.
  destruct (set_bandwidth_ok (bandwidth (_config s3)) s3) as (s4 & E4 & C4 & K4 & T4).
  rewrite E4. mred.
  destruct (set_spreading_factor_ok (spreading_factor (_config s4)) s4)
    as (s5 & E5 & C5 & K5 & T5).
  { rewrite C4, C3, Hs2. exact Hsf. }
  rewrite E5. mred.
  destruct (set_coding_rate_ok (coding_rate (_config s5)) s5)
    as (s6 & E6 & C6 & K6 & T6).
  rewrite E6. mred.
  destruct (set_preamble_length_ok (preamble_length (_config s6)) s6)
    as (s7 & E7 & C7 & K7 & T7).
  rewrite E7. mred.
  destruct (set_crc_ok (crc (_config s7)) s7) as (s8 & E8 & C8 & K8 & T8).
  rewrite E8. mred.
  destruct (set_sync_word_ok (sync_word (_config s8)) s8)
    as (s9 & E9 & C9 & K9 & V9 & T9).
  { rewrite C8, C7, C6, C5, C4, C3, Hs2. exact Hsw. }
  rewrite E9. mred.
  destruct (set_implicit_ok (implicit (_config s9)) s9)
    as (s10 & E10 & C10 & K10 & T10).
  rewrite E10. mred. do 3 mstep.
  match goal with
  | |- context [set_tx_power ?l ?p ?st] => remember st as s12 eqn:Hs12
  end.
  destruct (set_tx_power_ok (tx_power (_config s12)) (output_pin (_config s12)) s12)
    as (s13 & E13 & C13 & K13 & T13).
  { rewrite Hs12. proj. rewrite C10, C9, C8, C7, C6, C5, C4, C3, Hs2. exact Hpw. }
  rewrite E13.
  assert (H12 : touches_only [Registers.LNA; Registers.MODEM_CONFIG_3] s10 s12)
    by (rewrite Hs12; frame_solve).
  assert (C12 : _config s12 = _config s10) by (rewrite Hs12; reflexivity).
  pose proof (touches_only_modem _ _ _ H12 eq_refl) as R12.
  clear Hs12 Hs2 T3 T4 T5 T6 T7 T8 T9 T10 T13 H12.
  exists s13. split; [reflexivity|].
  intros k.
  destruct k; try back_setter; apply (holds_frame _ s10 s12 C12 R12);
    repeat back_setter.
Qed.

Lemma init_ok chip now kw :
  kw_cs kw = true -> constructible (_init_config kw) ->
  exists s',
    __init__ chip now kw = Returned tt s'
    /\ agrees s'
    /\ _config s' =
         with_preamble_length
           (Z.max 6 (Z.min (preamble_length (_init_config kw)) 65535))
           (with_coding_rate (Z.min (Z.max (coding_rate (_init_config kw)) 5) 8)
              (_init_config kw))
    /\ reg s' Registers.MODEM_CONFIG_3 = 0x04
    /\ reg s' Registers.OP_MODE = Z.lor Modes.LORA_MASK Modes.STDBY.
Proof.
  intros Hcs Hok.
  destruct (_verify_chip_version_run (new_object chip now kw))
    as (v0 & vs & s1 & E1 & _ & _ & _ & _ & _ & _ & Hcfg).
  unfold __init__. rewrite Hcs. cbn [negb]. fold (new_object chip now kw).
  mred. rewrite E1. mred. unfold _set_mode, standby, _set_mode. mstep.
  match goal with
  | |- context [_configure_radio ?st] => remember st as s2 eqn:Hs2
  end.
  assert (Hc2 : _config s2 = _init_config kw)
    by (rewrite Hs2; proj; rewrite Hcfg; reflexivity).
  destruct (_configure_radio_agrees s2) as (s3 & E3 & Hag);
    [rewrite Hc2; exact Hok|].
  destruct (_configure_radio_ok s2) as (s3' & E3' & _ & _ & _ & Hm3 & _ & Hc3);
    [rewrite Hc2; exact Hok|].
  rewrite E3 in E3'. apply returned_state in E3'. subst s3'.
  rewrite E3. mred. mstep.
  eexists. split; [reflexivity|].
  split.
  { intros k. apply (holds_frame k s3); [reflexivity| |apply Hag].
    intros a Ha. unfold modem_registers in Ha. cbn [In] in Ha.
    repeat (destruct Ha as [<-|Ha]; [reg_simpl; reflexivity|]). contradiction. }
  split; [proj; rewrite Hc3, Hc2; reflexivity|].
  split; [reg_simpl; exact Hm3 | reg_simpl; reflexivity].
Qed.



(** ** Sync word *)

(** X8: [set_sync_word] records the value before it writes it.  A byte
    reaches the register, in one write.  Any other integer is refused by
    the bus layer when the value byte is built: the call raises, the
    register keeps its value and no write is logged, but [_config]
    already holds the refused value, so that record and register disagree
    from then on. *)
Theorem set_sync_word_effect (sw : Z) (s : LoRa) :
  (0 <= sw <= 255 ->
   exists s',
     set_sync_word sw s = Returned tt s'
     /\ sync_word (_config s') = sw
     /\ reg s' Registers.SYNC_WORD = sw
     /\ bus_log (hw s') = bus_log (hw s) ++ [RegWrite Registers.SYNC_WORD sw])
  /\ (sw < 0 \/ 255 < sw ->
      exists s',
        set_sync_word sw s = Raised (BytesRange sw) s'
        /\ sync_word (_config s') = sw
        /\ reg s' Registers.SYNC_WORD = reg s Registers.SYNC_WORD
        /\ bus_log (hw s') = bus_log (hw s)
        /\ ~ holds CSyncWord s').
Proof.
  split.
  - intros Hb%is_byte_true.
    eexists. split; [apply set_sync_word_run, Hb|].
    split; [reflexivity|]. split; [reg_simpl; reflexivity | reflexivity].
  - intros Hb. pose proof Hb as Hb'. apply is_byte_false in Hb.
    eexists. split; [apply set_sync_word_refused, Hb|].
    split; [reflexivity|].
    assert (Hr : reg (set_hw (aborted (hw s))
                        (set_config (with_sync_word sw (_config s)) s))
                     Registers.SYNC_WORD = reg s Registers.SYNC_WORD)
      by (reg_simpl; reflexivity).
    split; [exact Hr|]. split; [reflexivity|].
    cbv beta iota zeta delta [holds]. rewrite Hr. proj.
    pose proof (peek_range (regs (hw s)) Registers.SYNC_WORD). lia.
Qed.

Lemma set_sync_word_effect_witness :
  (exists s',
     set_sync_word 0x34 sample_driver = Returned tt s'
     /\ reg s' Registers.SYNC_WORD = 0x34)
  /\ (exists s',
        set_sync_word 256 sample_driver = Raised (BytesRange 256) s'
        /\ sync_word (_config s') = 256
        /\ reg s' Registers.SYNC_WORD = 0).
Proof.
  destruct (set_sync_word_effect 0x34 sample_driver) as [Hok _].
  destruct (set_sync_word_effect 256 sample_driver) as [_ Hbad].
  split.
  - destruct Hok as (s' & He & _ & Hr & _); [lia|].
    exists s'. split; [exact He | exact Hr].
  - destruct Hbad as (s' & He & Hc & Hr & _); [lia|].
    exists s'. split; [exact He|]. split; [exact Hc|].
    rewrite Hr. reflexivity.
Defined.

(** ** Sending a whole packet *)

Lemma begin_packet_mode s :
  exists s',
    begin_packet s = Returned tt s'
    /\ packet_holds [] s'
    /\ reg s' Registers.OP_MODE = Z.lor Modes.LORA_MASK Modes.STDBY
    /\ fifo (hw s') = fifo (hw s)
    /\ bus_log (hw s') = bus_log (hw s) ++
         [RegWrite Registers.OP_MODE (Z.lor Modes.LORA_MASK Modes.STDBY);
          RegWrite Registers.FIFO_ADDR_PTR Config.TX_BASE_ADDR;
          RegWrite Registers.PAYLOAD_LENGTH 0].
Proof.
  eexists. split; [apply begin_packet_run|].
  split.
  { split; [simpl; lia|]. split; [reg_simpl; reflexivity|].
    split; [reg_simpl; reflexivity|]. intros i b Hi. discriminate. }
  split; [reg_simpl; reflexivity|]. split; [reflexivity|].
  log_simpl. reflexivity.
Qed.

Lemma write_packet_mode data s r s' :
  write_packet data s = r -> final_state r s = s' ->
  r <> OutOfFuel /\ reg s' Registers.OP_MODE = reg s Registers.OP_MODE.
Proof.
  rewrite write_packet_run. cbv zeta.
  destruct (Config.MAX_PKT_LENGTH <? _); intros <- <-; cbn [final_state];
    (split; [discriminate|]).
  - reg_simpl. reflexivity.
  - reg_simpl. rewrite push_all_reg by (reflexivity || neq_consts).
    reg_simpl. reflexivity.
Qed.

(** X9: [send] starts a fresh packet whatever an earlier one left
    behind.  Data of at most 255 bytes is always accepted: before the
    radio is put in transmit mode the buffer holds exactly these bytes
    from the transmit base address, the length register holds their
    count, and [send] ends as [end_packet] does from there.  Longer data
    raises; the radio is then in standby with an empty packet, the buffer
    untouched, and it was never put in transmit mode. *)
Theorem send_fresh_packet (fuel : nat) (data : pydata) (timeout : Z) (s : LoRa) :
  let bytes := payload_bytes data in
  ((length bytes <= 255)%nat ->
   exists s2,
     (begin_packet ;;; write_packet data) s = Returned (Z.of_nat (length bytes)) s2
     /\ packet_holds bytes s2
     /\ reg s2 Registers.OP_MODE = Z.lor Modes.LORA_MASK Modes.STDBY
     /\ send fuel data timeout s = end_packet fuel timeout s2)
  /\ ((255 < length bytes)%nat ->
      exists s',
        send fuel data timeout s = Raised PacketTooLarge s'
        /\ reg s' Registers.OP_MODE = Z.lor Modes.LORA_MASK Modes.STDBY
        /\ packet_holds [] s'
        /\ fifo (hw s') = fifo (hw s)
        /\ bus_log (hw s') = bus_log (hw s) ++
             [RegWrite Registers.OP_MODE (Z.lor Modes.LORA_MASK Modes.STDBY);
              RegWrite Registers.FIFO_ADDR_PTR Config.TX_BASE_ADDR;
              RegWrite Registers.PAYLOAD_LENGTH 0;
              RegRead Registers.PAYLOAD_LENGTH 0]).
Proof.
  intros bytes.
  destruct (begin_packet_mode s) as (s1 & E1 & Hh & Hm & Hf & Hl).
  pose proof Hh as (_ & Hlen & Hptr & _). cbn [length] in Hlen, Hptr.
  split; intros Hn.
  - destruct (write_packet_accepted data s1) as (s2 & E2 & _ & Hl2 & Hp2 & Hnew & Hold);
      [fold bytes; rewrite Hlen; lia|].
    fold bytes in E2, Hl2, Hp2, Hnew, Hold.
    exists s2. unfold send, bind. rewrite E1, E2.
    split; [reflexivity|].
    split.
    { apply (packet_holds_accepted [] bytes s1 s2); try assumption.
      rewrite Hlen. lia. }
    split; [|reflexivity].
    destruct (write_packet_mode data s1 _ s2 E2 eq_refl) as [_ Hk].
    rewrite Hk. exact Hm.
  - destruct (write_packet_rejected data s1) as (s' & E2 & Hl2 & Hf2 & Hlen2 & Hp2);
      [fold bytes; rewrite Hlen; lia|].
    exists s'. unfold send, bind. rewrite E1, E2.
    split; [reflexivity|].
    split.
    { destruct (write_packet_mode data s1 _ s' E2 eq_refl) as [_ Hk].
      rewrite Hk. exact Hm. }
    split; [apply (packet_holds_rejected [] s1 s'); assumption|].
    split; [congruence|].
    rewrite Hl2, Hl, Hlen, <- List.app_assoc. reflexivity.
Qed.

Lemma send_fresh_packet_witness :
  (exists s2,
     (begin_packet ;;; write_packet (PyStr "hi")) nearly_full_packet = Returned 2 s2
     /\ reg s2 Registers.PAYLOAD_LENGTH = 2)
  /\ (exists s',
        send 1 (PyBytes (repeat "x"%byte 256)) 5000 sample_driver
        = Raised PacketTooLarge s'
        /\ reg s' Registers.OP_MODE = 0x81).
Proof.
  destruct (send_fresh_packet 1 (PyStr "hi") 5000 nearly_full_packet) as [Hok _].
  destruct (send_fresh_packet 1 (PyBytes (repeat "x"%byte 256)) 5000 sample_driver)
    as [_ Hbad].
  split.
  - destruct Hok as (s2 & He & (_ & Hlen & _) & _); [simpl; lia|].
    exists s2. split; [exact He | exact Hlen].
  - destruct Hbad as (s' & He & Hm & _); [simpl; lia|].
    exists s'. split; [exact He | exact Hm].
Defined.

(** ** Reading a received payload *)

Lemma pop_ptr c :
  peek (regs (pop c)) Registers.FIFO_ADDR_PTR =
  (peek (regs c) Registers.FIFO_ADDR_PTR + 1) mod 256.
Proof.
  cbn [pop regs]. rewrite peek_insert_byte by side.
  rewrite tick_regs_driver by reflexivity. reflexivity.
Qed.

Lemma pop_all_window n :
  forall c,
    let p := peek (regs c) Registers.FIFO_ADDR_PTR in
    fst (pop_all n c) =
      map (fun i : nat => peek (fifo c) ((p + Z.of_nat i) mod 256)) (seq 0 n)
    /\ fifo (snd (pop_all n c)) = fifo c
    /\ peek (regs (snd (pop_all n c))) Registers.FIFO_ADDR_PTR
       = (p + Z.of_nat n) mod 256.
Proof.
  induction n as [|n IH]; intros c p; cbn [pop_all].
  - cbn [fst snd seq map]. split; [reflexivity|]. split; [reflexivity|].
    rewrite Z.add_0_r. symmetry. apply Z.mod_small.
    pose proof (peek_range (regs c) Registers.FIFO_ADDR_PTR). lia.
  - destruct (IH (pop c)) as (Hv & Hf & Hp).
    pose proof (peek_range (regs c) Registers.FIFO_ADDR_PTR) as Hr.
    destruct (pop_all n (pop c)) as [rest c']. cbn [fst snd] in *.
    rewrite pop_ptr in Hv, Hp. fold p in Hv, Hp.
    split; [|split].
    + cbn [seq map]. f_equal.
      * rewrite tick_regs_driver by reflexivity. fold p.
        rewrite Z.add_0_r, Z.mod_small by (unfold p; lia). reflexivity.
      * rewrite Hv, <- seq_shift, map_map. apply map_ext. intros i.
        cbn [pop fifo]. rewrite Zplus_mod_idemp_l. f_equal. f_equal. lia.
    + rewrite Hf. reflexivity.
    + rewrite Hp, Zplus_mod_idemp_l. f_equal. lia.
Qed.

(** X10: [_read_payload] reads the start address of the last packet,
    points the buffer cursor at it, reads the length (from
    PAYLOAD_LENGTH in implicit-header mode, from RX_NB_BYTES otherwise)
    and then reads that many bytes from the buffer register.  The result
    is the window of the buffer that starts at the address read and wraps
    at 256; the buffer itself is not changed and the cursor ends behind
    the window.  On a chip that raises no event meanwhile the address and
    the length are those the registers held at the call. *)
Theorem _read_payload_window (s : LoRa) :
  let len_reg := if implicit (_config s) then Registers.PAYLOAD_LENGTH
                 else Registers.RX_NB_BYTES in
  exists (cur len : Z) (payload : list Z) (s' : LoRa),
    _read_payload s = Returned payload s'
    /\ bus_log (hw s') = bus_log (hw s) ++
         [RegRead Registers.FIFO_RX_CURRENT_ADDR cur;
          RegWrite Registers.FIFO_ADDR_PTR cur;
          RegRead len_reg len] ++ map (RegRead Registers.FIFO) payload
    /\ 0 <= cur <= 255 /\ 0 <= len <= 255
    /\ payload =
         map (fun i : nat => peek (fifo (hw s)) ((cur + Z.of_nat i) mod 256))
             (seq 0 (Z.to_nat len))
    /\ fifo (hw s') = fifo (hw s)
    /\ reg s' Registers.FIFO_ADDR_PTR = (cur + len) mod 256
    /\ (script (hw s) = [] ->
        cur = reg s Registers.FIFO_RX_CURRENT_ADDR /\ len = reg s len_reg).
Proof.
  intros len_reg. rewrite _read_payload_run. cbv zeta. fold len_reg.
  set (cur := peek (tick_regs (hw s)) Registers.FIFO_RX_CURRENT_ADDR).
  set (c2 := store Registers.FIFO_ADDR_PTR cur
               (load Registers.FIFO_RX_CURRENT_ADDR (hw s))).
  set (len := peek (tick_regs c2) len_reg).
  assert (Hcur : 0 <= cur <= 255) by apply peek_range.
  assert (Hlen : 0 <= len <= 255) by apply peek_range.
  destruct (pop_all_window (Z.to_nat len) (load len_reg c2)) as (Hv & Hf & Hp).
  pose proof (pop_all_log (Z.to_nat len) (load len_reg c2)) as Hl.
  assert (Hptr : peek (regs (load len_reg c2)) Registers.FIFO_ADDR_PTR = cur).
  { cbn [load regs]. rewrite tick_regs_driver by reflexivity.
    unfold c2. cbn [store regs]. apply peek_insert_byte, is_byte_true, Hcur. }
  rewrite Hptr in Hv, Hp.
  exists cur, len. eexists. eexists. split; [reflexivity|].
  cbn [hw set_hw]. unfold reg. cbn [hw set_hw].
  split.
  { rewrite Hl. cbn [load bus_log]. unfold c2 at 1. cbn [store load bus_log].
    fold len. fold cur. rewrite <- !List.app_assoc. reflexivity. }
  split; [exact Hcur|]. split; [exact Hlen|].
  split; [exact Hv|].
  split; [rewrite Hf; reflexivity|].
  split; [rewrite Hp, Z2Nat.id by lia; reflexivity|].
  intros Hq. split.
  - unfold cur, tick_regs. rewrite Hq. reflexivity.
  - unfold len, c2.
    repeat (unfold tick_regs; cbn [store load script regs tail]; rewrite ?Hq).
    apply peek_insert_ne.
    unfold len_reg. destruct (implicit (_config s)); neq_consts.
Qed.

(** ** Polling for a packet *)

Lemma pop_all_reg n a :
  driver_reg a = true -> a <> Registers.FIFO_ADDR_PTR ->
  forall c, peek (regs (snd (pop_all n c))) a = peek (regs c) a.
Proof.
  intros Ha Hne. induction n as [|n IH]; intros c; cbn [pop_all].
  - reflexivity.
  - specialize (IH (pop c)). destruct (pop_all n (pop c)) as [rest c'].
    cbn [snd] in *. rewrite IH. cbn [pop regs].
    rewrite peek_insert_ne by congruence. apply tick_regs_driver, Ha.
Qed.

Lemma pop_all_length n : forall c, length (fst (pop_all n c)) = n.
Proof.
  induction n as [|n IH]; intros c; cbn [pop_all]; [reflexivity|].
  specialize (IH (pop c)). destruct (pop_all n (pop c)) as [rest c'].
  cbn [fst length] in *. rewrite IH. reflexivity.
Qed.

Lemma _read_payload_trace s :
  exists cur len payload s',
    _read_payload s = Returned payload s'
    /\ bus_log (hw s') = bus_log (hw s) ++
         [RegRead Registers.FIFO_RX_CURRENT_ADDR cur;
          RegWrite Registers.FIFO_ADDR_PTR cur;
          RegRead (if implicit (_config s) then Registers.PAYLOAD_LENGTH
                   else Registers.RX_NB_BYTES) len]
         ++ map (RegRead Registers.FIFO) payload
    /\ length payload = Z.to_nat len
    /\ clock s' = clock s /\ _config s' = _config s
    /\ reg s' Registers.OP_MODE = reg s Registers.OP_MODE.
Proof.
  rewrite _read_payload_run. cbv zeta.
  set (len_reg := if implicit (_config s) then Registers.PAYLOAD_LENGTH
                  else Registers.RX_NB_BYTES).
  set (cur := peek (tick_regs (hw s)) Registers.FIFO_RX_CURRENT_ADDR).
  set (c2 := store Registers.FIFO_ADDR_PTR cur
               (load Registers.FIFO_RX_CURRENT_ADDR (hw s))).
  set (len := peek (tick_regs c2) len_reg).
  exists cur, len. eexists. eexists. split; [reflexivity|].
  split.
  { cbn [hw set_hw]. rewrite pop_all_log. cbn [load bus_log].
    unfold c2 at 1. cbn [store load bus_log]. fold len. fold cur.
    rewrite <- !List.app_assoc. reflexivity. }
  split; [apply pop_all_length|]. split; [reflexivity|]. split; [reflexivity|].
  unfold reg. cbn [hw set_hw].
  rewrite pop_all_reg by (reflexivity || neq_consts).
  unfold c2. reg_simpl. reflexivity.
Qed.






(** ** Interrupt handler *)

Lemma land_lnot_cancel x v : Z.land (Z.land (Z.land x (Z.lnot v)) 0xff) v = 0.
Proof.
  apply Z.bits_inj'. intros n Hn.
  rewrite !Z.land_spec, Z.lnot_spec, Z.bits_0 by lia.
  destruct (Z.testbit v n), (Z.testbit x n), (Z.testbit 255 n); reflexivity.
Qed.

(** X12: [_irq_handler] always returns.  It reads the flag register and
    writes the value read back, which clears every flag that was set.
    When receive-complete was set and the CRC-error flag was not, it then
    reads the payload from the buffer, whether or not a callback is
    installed, and hands it to the callback if there is one; otherwise it
    makes no further bus access and delivers nothing. *)
Theorem _irq_handler_effect (s : LoRa) :
  exists (v : Z) (rest : list access) (s' : LoRa),
    _irq_handler s = Returned tt s'
    /\ bus_log (hw s') = bus_log (hw s) ++
         [RegRead Registers.IRQ_FLAGS v; RegWrite Registers.IRQ_FLAGS v] ++ rest
    /\ _on_recv s' = _on_recv s
    /\ if Z.testbit v 6 && negb (Z.testbit v 5) then
         exists cur len payload,
           rest = [RegRead Registers.FIFO_RX_CURRENT_ADDR cur;
                   RegWrite Registers.FIFO_ADDR_PTR cur;
                   RegRead (if implicit (_config s) then Registers.PAYLOAD_LENGTH
                            else Registers.RX_NB_BYTES) len]
                  ++ map (RegRead Registers.FIFO) payload
           /\ length payload = Z.to_nat len
           /\ inbox s' = (if _on_recv s then inbox s ++ [payload] else inbox s)
       else
         rest = [] /\ inbox s' = inbox s
         /\ Z.land (reg s' Registers.IRQ_FLAGS) v = 0.
Proof.
  unfold _irq_handler. mred. do 2 mstep.
  rewrite truthy_rx_done, truthy_crc_error.
  set (v := peek (tick_regs (hw s)) Registers.IRQ_FLAGS).
  exists v.
  destruct (Z.testbit v 6 && negb (Z.testbit v 5)).
  - match goal with
    | |- context [_read_payload ?st] =>
        pose proof (_read_payload_run st) as Hrun;
        destruct (_read_payload_trace st)
          as (cur & len & payload & s1 & He & Hlog & Hn & _ & _ & _)
    end.
    rewrite He in Hrun. cbv zeta in Hrun.
    apply (f_equal (fun o => _on_recv (final_state o s))) in Hrun as Hcb.
    apply (f_equal (fun o => inbox (final_state o s))) in Hrun as Hin.
    cbn [final_state _on_recv inbox set_hw] in Hcb, Hin.
    rewrite He. mred. rewrite Hcb.
    destruct (_on_recv s) eqn:Hon.
    + eexists. eexists. split; [reflexivity|].
      cbn [hw bus_log _on_recv inbox].
      split.
      { rewrite Hlog. cbn [hw set_hw ack load bus_log]. fold v.
        rewrite <- !List.app_assoc. reflexivity. }
      split; [first [reflexivity | congruence]|].
      exists cur, len, payload. split; [reflexivity|]. split; [exact Hn|].
      rewrite Hin. reflexivity.
    + eexists. eexists. split; [reflexivity|].
      split.
      { rewrite Hlog. cbn [hw set_hw ack load bus_log]. fold v.
        rewrite <- !List.app_assoc. reflexivity. }
      split; [congruence|].
      exists cur, len, payload. split; [reflexivity|]. split; [exact Hn|].
      exact Hin.
  - exists [], (set_hw (ack v (load Registers.IRQ_FLAGS (hw s))) s).
    split; [reflexivity|].
    split; [cbn [hw set_hw ack load bus_log]; fold v;
            rewrite <- !List.app_assoc; reflexivity|].
    split; [reflexivity|]. split; [reflexivity|]. split; [reflexivity|].
    unfold reg. cbn [hw set_hw ack regs]. unfold peek at 1.
    rewrite lookup_insert_eq. cbv [default from_option id].
    apply land_lnot_cancel.
Qed.

(** ** Signal metrics *)

(** X13: [get_rssi] makes one read of the packet-strength register and
    subtracts the offset of the band the recorded frequency lies in: 157
    from 779 MHz up, 164 below.  After [set_frequency f] the band is that
    of [f], so the result lies in -157..98 or in -164..91. *)
Theorem get_rssi_band (f : Q) (s : LoRa) :
  exists (raw : Z) (s1 s' : LoRa),
    set_frequency f s = Returned tt s1
    /\ get_rssi s1 =
         Returned (raw - (if Qle_bool (779 # 1) f then 157 else 164)) s'
    /\ 0 <= raw <= 255
    /\ bus_log (hw s') = bus_log (hw s1) ++ [RegRead Registers.PKT_RSSI_VALUE raw]
    /\ _config s' = _config s1.
Proof.
  rewrite set_frequency_run. cbv zeta.
  eexists. eexists. eexists. split; [reflexivity|].
  unfold get_rssi. mred. mstep. proj.
  split; [destruct (Qle_bool (779 # 1) f); reflexivity|].
  split; [apply peek_range|]. split; reflexivity.
Qed.

(** X14: [get_snr] makes one read of the packet-SNR register and
    returns a quarter of the byte read.  The byte is taken as unsigned,
    so the result is never negative: it lies between 0 and 63.75. *)
Theorem get_snr_range (s : LoRa) :
  exists (raw : Z) (q : Q) (s' : LoRa),
    get_snr s = Returned q s'
    /\ 0 <= raw <= 255
    /\ (q * (4 # 1) == inject_Z raw)%Q
    /\ (0 <= q)%Q /\ (q <= 6375 # 100)%Q
    /\ bus_log (hw s') = bus_log (hw s) ++ [RegRead Registers.PKT_SNR_VALUE raw]
    /\ regs (hw s') = tick_regs (hw s).
Proof.
  unfold get_snr. mred. mstep.
  set (raw := peek (tick_regs (hw s)) Registers.PKT_SNR_VALUE).
  assert (Hr : 0 <= raw <= 255) by apply peek_range.
  exists raw. eexists. eexists. split; [reflexivity|].
  split; [exact Hr|].
  split; [unfold Qeq; simpl; lia|].
  split; [unfold Qle; simpl; lia|].
  split; [unfold Qle; simpl; lia|].
  split; reflexivity.
Qed.

(** ** The low-data-rate flag after construction *)

(** X15: [_configure_radio] writes 0x04 to MODEM_CONFIG_3 after the
    setters have run, so a newly constructed object has the
    low-data-rate flag off whatever its spreading factor and bandwidth
    are.  The flag follows the two parameters again from the next call of
    [set_bandwidth] or [set_spreading_factor]: repeating the recorded
    bandwidth turns it on when the factor is above 10 and the bandwidth
    below 250 kHz. *)
Theorem init_clears_ldro (chip : Chip) (now : Z) (kw : Kwargs) :
  kw_cs kw = true -> constructible (_init_config kw) ->
  exists s',
    __init__ chip now kw = Returned tt s'
    /\ reg s' Registers.MODEM_CONFIG_3 = 0x04
    /\ (forall bw, exists s2,
          set_bandwidth bw s' = Returned tt s2
          /\ reg s2 Registers.MODEM_CONFIG_3 =
               (if (10 <? spreading_factor (_init_config kw)) && (bw <? 250000)
                then 0x08 else 0x04))
    /\ (forall sf, 6 <= sf <= 12 -> exists s2,
          set_spreading_factor sf s' = Returned tt s2
          /\ reg s2 Registers.MODEM_CONFIG_3 =
               (if (10 <? sf) && (bandwidth (_init_config kw) <? 250000)
                then 0x08 else 0x04)).
Proof.
  intros Hcs Hok.
  destruct (init_ok chip now kw Hcs Hok) as (s' & He & _ & Hc & Hm3 & _).
  exists s'. split; [exact He|]. split; [exact Hm3|].
  split.
  - intros bw. eexists. split; [apply set_bandwidth_run|]. cbv zeta.
    rewrite Hc. proj.
    assert (Hl : is_byte (if (10 <? spreading_factor (_init_config kw))
                             && (bw <? 250000) then 0x08 else 0x04) = true)
      by (destruct (_ && _); reflexivity).
    reg_simpl. reflexivity.
  - intros sf Hsf. eexists. split; [apply set_spreading_factor_run, Hsf|].
    cbv zeta. rewrite Hc. proj.
    assert (Hl : is_byte (if (10 <? sf) && (bandwidth (_init_config kw) <? 250000)
                          then 0x08 else 0x04) = true)
      by (destruct (_ && _); reflexivity).
    reg_simpl. reflexivity.
Qed.

Lemma init_clears_ldro_witness :
  exists s' s2,
    __init__ idle_chip 0
      {| kw_cs := true; kw_frequency := None; kw_bandwidth := Some 125000;
         kw_spreading_factor := Some 12; kw_coding_rate := None;
         kw_preamble_length := None; kw_tx_power := None; kw_crc := None;
         kw_implicit := None; kw_sync_word := None; kw_output_pin := None |}
    = Returned tt s'
    /\ reg s' Registers.MODEM_CONFIG_3 = 0x04
    /\ set_bandwidth 125000 s' = Returned tt s2
    /\ reg s2 Registers.MODEM_CONFIG_3 = 0x08.
Proof.
  destruct (init_clears_ldro idle_chip 0
              {| kw_cs := true; kw_frequency := None; kw_bandwidth := Some 125000;
                 kw_spreading_factor := Some 12; kw_coding_rate := None;
                 kw_preamble_length := None; kw_tx_power := None; kw_crc := None;
                 kw_implicit := None; kw_sync_word := None;
                 kw_output_pin := None |})
    as (s' & He & Hm & Hbw & _).
  - reflexivity.
  - unfold constructible. simpl. lia.
  - destruct (Hbw 125000) as (s2 & E2 & H2).
    exists s', s2. split; [exact He|]. split; [exact Hm|].
    split; [exact E2 | exact H2].
Defined.

(** ** Receive control *)

(** X16: how the interrupt is armed and disarmed.  [stop_receive] puts
    the radio in standby and takes the handler off the pin, but keeps the
    callback.  [start_continuous_receive] puts the radio in continuous
    receive; it arms the pin (after mapping DIO0 to receive-complete) only
    when it is given a callback, so a restart without one leaves the pin
    disarmed and a rising edge then runs nothing, although the callback
    of before is still stored.  Without a pin [on_recv] stores the
    callback and makes no bus access. *)
Theorem receive_control (pin : RxPin) (callback : bool) (s : LoRa) :
  let off := {| irq_handler := false; irq_rising := false |} in
  let on := {| irq_handler := true; irq_rising := true |} in
  (exists s1 s2,
     stop_receive (Some pin) s = Returned (Some off) s1
     /\ reg s1 Registers.OP_MODE = Z.lor Modes.LORA_MASK Modes.STDBY
     /\ _on_recv s1 = _on_recv s
     /\ start_continuous_receive (Some off) callback s1
        = Returned (Some (if callback then on else off)) s2
     /\ reg s2 Registers.OP_MODE = Z.lor Modes.LORA_MASK Modes.RX_CONTINUOUS
     /\ _on_recv s2 = (if callback then true else _on_recv s)
     /\ (if callback then
           reg s2 Registers.DIO_MAPPING_1 = 0
           /\ rising_edge (Some on) s2 = _irq_handler s2
         else
           reg s2 Registers.DIO_MAPPING_1 = reg s Registers.DIO_MAPPING_1
           /\ rising_edge (Some off) s2 = Returned tt s2))
  /\ (exists s',
        on_recv None callback s = Returned None s'
        /\ hw s' = hw s /\ _on_recv s' = callback
        /\ rising_edge None s' = Returned tt s').
Proof.
  cbv zeta. split.
  - unfold stop_receive, start_continuous_receive, on_recv, set_on_recv,
      standby, recv, _set_mode.
    mred. mstep.
    destruct callback; mred.
    + eexists. eexists. split; [reflexivity|].
      split; [reg_simpl; reflexivity|]. split; [reflexivity|].
      do 2 mstep. split; [reflexivity|].
      split; [reg_simpl; reflexivity|]. split; [reflexivity|].
      split; [reg_simpl; reflexivity | reflexivity].
    + eexists. eexists. split; [reflexivity|].
      split; [reg_simpl; reflexivity|]. split; [reflexivity|].
      mstep. split; [reflexivity|].
      split; [reg_simpl; reflexivity|]. split; [reflexivity|].
      split; [reg_simpl; reflexivity | reflexivity].
  - unfold on_recv, set_on_recv. mred.
    eexists. split; [reflexivity|]. repeat split.
Qed.

(** ** Bus frames *)

Lemma reg_write_log a v c :
  bus_log (reg_write a v c) = bus_log c ++ [RegWrite a v].
Proof.
  unfold reg_write.
  destruct (a =? Registers.FIFO); [reflexivity|].
  destruct (a =? Registers.IRQ_FLAGS); [reflexivity|].
  destruct (status_reg a); reflexivity.
Qed.

Lemma reg_read_log a c :
  bus_log (snd (reg_read a c)) = bus_log c ++ [RegRead a (fst (reg_read a c))]
  /\ 0 <= fst (reg_read a c) <= 255.
Proof.
  unfold reg_read. destruct (a =? Registers.FIFO); cbn [fst snd bus_log];
    (split; [reflexivity | apply peek_range]).
Qed.

(** X17: one bus frame.  [_read] masks the address to seven bits, so it
    accepts any integer: it always returns a byte and logs one read at the
    masked address.  [_write] sets bit 7 of the address; when the result
    and the value are both bytes it makes one write at the address's low
    seven bits, otherwise it raises for the first of the two that is not a
    byte and the chip sees no access.  In every case the chip-select line
    is high again at the end. *)
Theorem bus_frame (a v : Z) (s : LoRa) :
  (exists r s',
     _read a s = Returned r s'
     /\ 0 <= r <= 255
     /\ nss (hw s') = true
     /\ bus_log (hw s') = bus_log (hw s) ++ [RegRead (Z.land a 0x7f) r])
  /\ (is_byte (Z.lor a 0x80) = true -> is_byte v = true ->
      exists s',
        _write a v s = Returned tt s'
        /\ nss (hw s') = true
        /\ bus_log (hw s') = bus_log (hw s) ++
             [RegWrite (Z.land (Z.lor a 0x80) 0x7f) v])
  /\ (is_byte (Z.lor a 0x80) = false \/ is_byte v = false ->
      exists s',
        _write a v s =
          Raised (BytesRange (if is_byte (Z.lor a 0x80) then v else Z.lor a 0x80)) s'
        /\ nss (hw s') = true
        /\ bus_log (hw s') = bus_log (hw s)
        /\ regs (hw s') = tick_regs (hw s)
        /\ fifo (hw s') = fifo (hw s)).
Proof.
  split; [|split].
  - unfold _read, _transfer. cbv zeta.
    assert (Hb : is_byte (Z.land a 0x7f) = true)
      by (apply is_byte_land_r; reflexivity).
    assert (H7 : Z.testbit (Z.land a 0x7f) 7 = false)
      by (rewrite Z.land_spec; apply andb_false_r).
    assert (Hi : Z.land (Z.land a 0x7f) 0x7f = Z.land a 0x7f)
      by (rewrite <- Z.land_assoc; reflexivity).
    rewrite Hb. change (is_byte 0) with true. cbv iota.
    cbn [hw set_hw cs_value hw_tick spi_write nss spi_write_readinto latch].
    rewrite H7, Hi.
    match goal with
    | |- context [reg_read ?x ?c] =>
        destruct (reg_read_log x c) as [Hl Hr];
        destruct (reg_read x c) as [r c3]
    end.
    cbn [fst snd] in Hl, Hr.
    exists r. eexists. split; [reflexivity|]. split; [exact Hr|].
    split; [reflexivity|]. cbn [hw set_hw cs_value bus_log]. exact Hl.
  - intros Ha Hv. unfold _write, bind, _transfer. cbv zeta.
    assert (H7 : Z.testbit (Z.lor a 0x80) 7 = true)
      by (rewrite Z.lor_spec; apply orb_true_r).
    rewrite Ha, Hv.
    cbn [hw set_hw cs_value hw_tick spi_write nss spi_write_readinto latch].
    rewrite H7. unfold ret.
    eexists. split; [reflexivity|]. split; [reflexivity|].
    cbn [hw set_hw cs_value bus_log]. rewrite reg_write_log. reflexivity.
  - intros Hbad. unfold _write, bind, _transfer. cbv zeta.
    destruct (is_byte (Z.lor a 0x80)) eqn:Ha.
    + destruct Hbad as [Hbad|Hbad]; [discriminate|]. rewrite Hbad.
      eexists. split; [reflexivity|]. repeat split.
    + eexists. split; [reflexivity|]. repeat split.
Qed.

Lemma bus_frame_witness :
  (exists s',
     _write Registers.SYNC_WORD 0x34 sample_driver = Returned tt s'
     /\ bus_log (hw s') = [RegWrite Registers.SYNC_WORD 0x34])
  /\ (exists s',
        _write Registers.SYNC_WORD 300 sample_driver = Raised (BytesRange 300) s'
        /\ bus_log (hw s') = []).
Proof.
  destruct (bus_frame Registers.SYNC_WORD 0x34 sample_driver) as (_ & Hok & _).
  destruct (bus_frame Registers.SYNC_WORD 300 sample_driver) as (_ & _ & Hbad).
  split.
  - destruct Hok as (s' & He & _ & Hl); [reflexivity | reflexivity |].
    exists s'. split; [exact He | exact Hl].
  - destruct Hbad as (s' & He & _ & Hl & _); [right; reflexivity|].
    exists s'. split; [exact He | exact Hl].
Defined.

(** ** Packet traffic leaves the modem configuration alone *)

Lemma same_modem_refl s : same_modem s s.
Proof. split; reflexivity. Qed.

Lemma same_modem_trans s1 s2 s3 :
  same_modem s1 s2 -> same_modem s2 s3 -> same_modem s1 s3.
Proof.
  intros [C1 R1] [C2 R2]. split; [congruence|].
  intros a Ha. rewrite R2, R1 by exact Ha. reflexivity.
Qed.

Lemma keeps_ret {A} (a : A) : keeps (ret a).
Proof. intros s. apply same_modem_refl. Qed.

Lemma keeps_raise {A} e : keeps (raise (A := A) e).
Proof. intros s. apply same_modem_refl. Qed.

Lemma keeps_bind {A B} (m : M A) (k : A -> M B) :
  keeps m -> (forall a, keeps (k a)) -> keeps (bind m k).
Proof.
  intros Hm Hk s. unfold bind. specialize (Hm s).
  destruct (m s) as [a s1|e s1|]; [|exact Hm|exact I].
  specialize (Hk a s1). destruct (k a s1) as [b s2|e s2|]; [| |exact I];
    eapply same_modem_trans; eassumption.
Qed.

Lemma modem_register_facts a :
  In a modem_registers ->
  driver_reg a = true /\ a <> Registers.OP_MODE /\ a <> Registers.FIFO_ADDR_PTR
  /\ a <> Registers.PAYLOAD_LENGTH /\ a <> Registers.DIO_MAPPING_1.
Proof.
  unfold modem_registers. cbn [In]. intros Ha.
  repeat (destruct Ha as [<-|Ha];
          [split; [reflexivity|]; repeat split; neq_consts|]).
  contradiction.
Qed.

Lemma keeps_frame (c' : Chip -> Chip) :
  (forall c a, In a modem_registers -> peek (regs (c' c)) a = peek (regs c) a) ->
  forall s, same_modem s (set_hw (c' (hw s)) s).
Proof.
  intros H s. split; [reflexivity|]. intros a Ha. unfold reg. cbn [hw set_hw].
  apply H, Ha.
Qed.

Lemma load_modem k c a :
  In a modem_registers -> peek (regs (load k c)) a = peek (regs c) a.
Proof.
  intros Ha. destruct (modem_register_facts a Ha) as (Hd & _).
  cbn [load regs]. apply tick_regs_driver, Hd.
Qed.

Lemma aborted_modem c a :
  In a modem_registers -> peek (regs (aborted c)) a = peek (regs c) a.
Proof.
  intros Ha. destruct (modem_register_facts a Ha) as (Hd & _).
  cbn [aborted regs]. apply tick_regs_driver, Hd.
Qed.

Lemma store_modem k v c a :
  ~ In k modem_registers ->
  In a modem_registers -> peek (regs (store k v c)) a = peek (regs c) a.
Proof.
  intros Hk Ha. destruct (modem_register_facts a Ha) as (Hd & _).
  cbn [store regs]. rewrite peek_insert_ne by (intros ->; contradiction).
  apply tick_regs_driver, Hd.
Qed.

Lemma ack_modem v c a :
  In a modem_registers -> peek (regs (ack v c)) a = peek (regs c) a.
Proof.
  intros Ha. destruct (modem_register_facts a Ha) as (Hd & _).
  apply ack_driver_reg, Hd.
Qed.

Lemma push_modem v c a :
  In a modem_registers -> peek (regs (push v c)) a = peek (regs c) a.
Proof.
  intros Ha. destruct (modem_register_facts a Ha) as (Hd & _ & Hp & _).
  cbn [push regs]. rewrite peek_insert_ne by congruence.
  apply tick_regs_driver, Hd.
Qed.

Lemma pop_modem c a :
  In a modem_registers -> peek (regs (pop c)) a = peek (regs c) a.
Proof.
  intros Ha. destruct (modem_register_facts a Ha) as (Hd & _ & Hp & _).
  cbn [pop regs]. rewrite peek_insert_ne by congruence.
  apply tick_regs_driver, Hd.
Qed.

Lemma keeps__read a : cell_reg a = true \/ a = Registers.FIFO -> keeps (_read a).
Proof.
  intros [Ha| ->] s.
  - rewrite _read_reg by exact Ha. apply (keeps_frame (load a)). apply load_modem.
  - rewrite _read_fifo. apply (keeps_frame pop). apply pop_modem.
Qed.

Lemma keeps__write_plain a v :
  plain_reg a = true -> ~ In a modem_registers -> keeps (_write a v).
Proof.
  intros Ha Hn s. destruct (is_byte v) eqn:Hv.
  - rewrite _write_plain by assumption. apply (keeps_frame (store a v)).
    intros c b. apply store_modem, Hn.
  - rewrite _write_refused; [|apply plain_reg_addr, Ha|exact Hv].
    apply (keeps_frame aborted). apply aborted_modem.
Qed.

Lemma keeps__write_irq v : keeps (_write Registers.IRQ_FLAGS v).
Proof.
  intros s. destruct (is_byte v) eqn:Hv.
  - rewrite _write_irq by exact Hv. apply (keeps_frame (ack v)).
    intros c a. apply ack_modem.
  - rewrite _write_refused; [|vm_compute; intuition congruence|exact Hv].
    apply (keeps_frame aborted). apply aborted_modem.
Qed.

Lemma keeps__write_fifo v : keeps (_write Registers.FIFO v).
Proof.
  intros s. destruct (is_byte v) eqn:Hv.
  - rewrite _write_fifo by exact Hv. apply (keeps_frame (push v)).
    intros c a. apply push_modem.
  - rewrite _write_refused; [|vm_compute; intuition congruence|exact Hv].
    apply (keeps_frame aborted). apply aborted_modem.
Qed.

Lemma keeps_get_cfg : keeps get_cfg.
Proof. intros s. apply same_modem_refl. Qed.

Lemma keeps_ticks_ms : keeps ticks_ms.
Proof. intros s. apply same_modem_refl. Qed.

Lemma keeps_sleep_ms n : keeps (sleep_ms n).
Proof. intros s. split; reflexivity. Qed.

Lemma keeps_deliver payload : keeps (deliver payload).
Proof. intros s. split; reflexivity. Qed.

Lemma keeps_if {A} (b : bool) (m1 m2 : M A) :
  keeps m1 -> keeps m2 -> keeps (if b then m1 else m2).
Proof. destruct b; trivial. Qed.

Lemma keeps__set_mode mode : keeps (_set_mode mode).
Proof.
  unfold _set_mode. apply keeps__write_plain; [reflexivity|].
  unfold modem_registers. notin.
Qed.

Ltac keeps_step :=
  first
    [ match goal with H : _ |- _ => simple apply H end
    | simple apply keeps_ret
    | simple apply keeps_raise
    | simple apply keeps_get_cfg
    | simple apply keeps_ticks_ms
    | simple apply keeps_sleep_ms
    | simple apply keeps_deliver
    | simple apply keeps__set_mode
    | simple apply keeps__write_irq
    | simple apply keeps__write_fifo
    | simple apply keeps__write_plain; [reflexivity | unfold modem_registers; notin]
    | simple apply keeps__read; first [left; reflexivity | right; reflexivity]
    | simple apply keeps_bind; [|intros ?]
    | simple apply keeps_if ].

Lemma keeps_write_fifo data : keeps (write_fifo data).
Proof.
  induction data as [|b rest IH]; cbn [write_fifo]; repeat keeps_step.
Qed.


Lemma keeps_begin_packet : keeps begin_packet.
Proof. unfold begin_packet, standby. repeat keeps_step. Qed.

Lemma keeps_write_packet data : keeps (write_packet data).
Proof.
  pose proof keeps_write_fifo. unfold write_packet. cbv zeta.
  repeat keeps_step.
Qed.

Lemma keeps_end_packet_wait fuel : forall start timeout,
  keeps (end_packet_wait fuel start timeout).
Proof.
  induction fuel as [|fuel IH]; intros start timeout; cbn [end_packet_wait].
  - intros s. exact I.
  - repeat keeps_step.
Qed.

Lemma keeps_end_packet fuel timeout : keeps (end_packet fuel timeout).
Proof.
  pose proof keeps_end_packet_wait. unfold end_packet. repeat keeps_step.
Qed.














(** ** Which setter calls raise *)






(** * Part IV: the T-Beam node *)

(** ** Message buffer *)

Lemma _add_to_message_buffer_run {D} (m : D) (max_buffer : Z) (t : TBeam.Node D) :
  TBeam._add_to_message_buffer m max_buffer t =
  if max_buffer <=? Z.of_nat (length (TBeam.received_messages t)) then
    match TBeam.received_messages t with
    | [] => TBeam.Err TBeam.IndexError t
    | _ :: rest =>
        TBeam.set_received (rest ++ [m]) t
    end
  else TBeam.set_received (TBeam.received_messages t ++ [m]) t.
Proof.
  unfold TBeam._add_to_message_buffer, TBeam.tbind, TBeam.get_received.
  destruct (max_buffer <=? _); [|reflexivity].
  unfold TBeam.pop_first. destruct (TBeam.received_messages t); reflexivity.
Qed.

(** X20: one call of [_add_to_message_buffer].  Below the bound the
    message is appended.  At or above it the oldest message is dropped
    first, so the length stays as it is: a buffer longer than the bound
    is not cut down to it.  With a bound of 0 or less and an empty buffer
    the call raises [IndexError] and buffers nothing. *)
Theorem _add_to_message_buffer_effect {D} (m : D) (max_buffer : Z)
    (t : TBeam.Node D) :
  let l := TBeam.received_messages t in
  (Z.of_nat (length l) < max_buffer ->
   exists t',
     TBeam._add_to_message_buffer m max_buffer t = TBeam.Ok tt t'
     /\ TBeam.received_messages t' = l ++ [m])
  /\ (max_buffer <= Z.of_nat (length l) -> l <> [] ->
      exists t',
        TBeam._add_to_message_buffer m max_buffer t = TBeam.Ok tt t'
        /\ TBeam.received_messages t' = tail l ++ [m]
        /\ length (TBeam.received_messages t') = length l)
  /\ (max_buffer <= 0 -> l = [] ->
      TBeam._add_to_message_buffer m max_buffer t = TBeam.Err TBeam.IndexError t).
Proof.
  cbv zeta. rewrite _add_to_message_buffer_run.
  split; [|split].
  - intros Hlt. replace (max_buffer <=? _) with false
      by (symmetry; apply Z.leb_gt; exact Hlt).
    eexists. split; reflexivity.
  - intros Hge Hne. replace (max_buffer <=? _) with true
      by (symmetry; apply Z.leb_le; exact Hge).
    destruct (TBeam.received_messages t) as [|a rest]; [contradiction|].
    eexists. split; [reflexivity|]. split; [reflexivity|].
    cbn [TBeam.set_received TBeam.received_messages tail length].
    rewrite length_app. cbn [length]. lia.
  - intros Hz He. rewrite He. cbn [length].
    replace (max_buffer <=? _) with true by (symmetry; apply Z.leb_le; lia).
    reflexivity.
Qed.

Lemma _add_to_message_buffer_effect_witness :
  TBeam._add_to_message_buffer 7 0
    (TBeam.mkNode "N" 0 [] 0 false sample_driver None [])
  = TBeam.Err TBeam.IndexError
      (TBeam.mkNode "N" 0 [] 0 false sample_driver None [])
  /\ exists t',
       TBeam._add_to_message_buffer 7 2
         (TBeam.mkNode "N" 0 [5; 6] 0 false sample_driver None [])
       = TBeam.Ok tt t'
       /\ TBeam.received_messages t' = [6; 7].
Proof.
  split.
  - apply (_add_to_message_buffer_effect 7 0
             (TBeam.mkNode "N" 0 [] 0 false sample_driver None [])); [lia | reflexivity].
  - destruct (_add_to_message_buffer_effect 7 2
                (TBeam.mkNode "N" 0 [5; 6] 0 false sample_driver None []))
      as (_ & H & _).
    destruct H as (t' & He & Hl & _); [simpl; lia | discriminate |].
    exists t'. split; [exact He | exact Hl].
Defined.

(** X21: the buffer is a sliding window.  With a bound of at least 1
    that the buffer does not exceed, buffering any number of messages one
    after the other never raises and leaves exactly the most recent
    [max_buffer] of all messages, oldest first; nothing else of the node
    changes. *)
Theorem buffer_is_sliding_window {D} (ms : list D) (max_buffer : Z) :
  forall t : TBeam.Node D,
    1 <= max_buffer ->
    Z.of_nat (length (TBeam.received_messages t)) <= max_buffer ->
    let all := TBeam.received_messages t ++ ms in
    exists t',
      buffer_all ms max_buffer t = TBeam.Ok tt t'
      /\ TBeam.received_messages t' = drop (length all - Z.to_nat max_buffer) all
      /\ Z.of_nat (length (TBeam.received_messages t')) <= max_buffer
      /\ TBeam.lora t' = TBeam.lora t
      /\ TBeam.message_counter t' = TBeam.message_counter t
      /\ TBeam.stdout t' = TBeam.stdout t.
Proof.
  induction ms as [|m ms IH]; intros t Hmax Hlen; cbv zeta.
  - exists t. split; [reflexivity|]. rewrite app_nil_r.
    replace (length (TBeam.received_messages t) - Z.to_nat max_buffer)%nat
      with 0%nat by lia.
    rewrite drop_0. repeat split. exact Hlen.
  - cbn [buffer_all]. unfold TBeam.tbind.
    rewrite _add_to_message_buffer_run.
    destruct (Z.leb_spec max_buffer (Z.of_nat (length (TBeam.received_messages t))))
      as [Hfull|Hroom].
    + destruct (TBeam.received_messages t) as [|a l0] eqn:El;
        [cbn [length] in Hfull; lia|].
      cbn [TBeam.set_received].
      match goal with
      | |- context [buffer_all ms max_buffer ?t1] =>
          destruct (IH t1 Hmax) as (t' & E & Hw & Hb & Hl & Hc & Ho)
      end.
      { cbn [TBeam.received_messages]. cbn [length] in *.
        rewrite length_app. cbn [length]. lia. }
      cbn [TBeam.received_messages TBeam.lora TBeam.message_counter TBeam.stdout]
        in Hw, Hl, Hc, Ho.
      exists t'. split; [exact E|].
      split; [|repeat split; assumption].
      rewrite Hw. rewrite <- !List.app_assoc. cbn [app].
      cbn [length] in *. rewrite !length_app in *. cbn [length] in *.
      replace (S (length l0 + S (length ms)) - Z.to_nat max_buffer)%nat
        with (S (length l0 + S (length ms) - Z.to_nat max_buffer)) by lia.
      reflexivity.
    + cbn [TBeam.set_received].
      match goal with
      | |- context [buffer_all ms max_buffer ?t1] =>
          destruct (IH t1 Hmax) as (t' & E & Hw & Hb & Hl & Hc & Ho)
      end.
      { cbn [TBeam.received_messages]. rewrite length_app. cbn [length]. lia. }
      cbn [TBeam.received_messages TBeam.lora TBeam.message_counter TBeam.stdout]
        in Hw, Hl, Hc, Ho.
      exists t'. split; [exact E|].
      split; [|repeat split; assumption].
      rewrite Hw. rewrite <- !List.app_assoc. reflexivity.
Qed.

Lemma buffer_is_sliding_window_witness :
  exists t',
    buffer_all [3; 4; 5; 6] 3 (TBeam.mkNode "N" 0 [1; 2] 0 false sample_driver None [])
    = TBeam.Ok tt t'
    /\ TBeam.received_messages t' = [4; 5; 6].
Proof.
  destruct (buffer_is_sliding_window [3; 4; 5; 6] 3
              (TBeam.mkNode "N" 0 [1; 2] 0 false sample_driver None []))
    as (t' & E & Hw & _); [lia | simpl; lia |].
  exists t'. split; [exact E | exact Hw].
Defined.

(** ** Message ids *)

Lemma pretty_N_go_no_underscore x :
  forall s, no_underscore (pretty_N_go x s) = no_underscore s.
Proof.
  induction (N.lt_wf_0 x) as [x _ IH]. intros s.
  destruct (N.eq_dec x 0%N) as [->|Hx]; [reflexivity|].
  rewrite pretty_N_go_step by lia.
  rewrite IH by (apply N.div_lt; lia).
  cbn [no_underscore].
  replace (Ascii.eqb (pretty_N_char (x `mod` 10)%N) "_") with false;
    [reflexivity|].
  unfold pretty_N_char. repeat case_match; reflexivity.
Qed.

Lemma pretty_Z_no_underscore (z : Z) : no_underscore (pretty z) = true.
Proof.
  assert (HN : forall n : N, no_underscore (pretty n) = true).
  { intros n. unfold pretty, pretty_N. case_decide; [reflexivity|].
    apply pretty_N_go_no_underscore. }
  destruct z as [|p|p]; [reflexivity | apply HN |].
  change (pretty (Z.neg p)) with (String "-" (pretty (N.pos p))).
  cbn [no_underscore]. rewrite HN. reflexivity.
Qed.

Lemma underscore_inside a b :
  no_underscore (String.append a (String "_" b)) = false.
Proof.
  induction a as [|c a IH].
  - reflexivity.
  - change (String.append (String c a) (String "_" b))
      with (String c (String.append a (String "_" b))).
    cbn [no_underscore]. rewrite IH. apply andb_false_r.
Qed.

Lemma id_split a b p q :
  no_underscore p = true -> no_underscore q = true ->
  String.append a (String "_" p) = String.append b (String "_" q) ->
  a = b /\ p = q.
Proof.
  intros Hp Hq. revert b. induction a as [|c a IH]; intros [|c' b] He.
  - change (String "_" p = String "_" q) in He.
    injection He as ->. split; reflexivity.
  - change (String "_" p = String c' (String.append b (String "_" q))) in He.
    injection He as <- ->. rewrite underscore_inside in Hp. discriminate.
  - change (String c (String.append a (String "_" p)) = String "_" q) in He.
    injection He as -> <-. rewrite underscore_inside in Hq. discriminate.
  - change (String c (String.append a (String "_" p))
            = String c' (String.append b (String "_" q))) in He.
    injection He as -> He. destruct (IH b He) as [-> ->]. split; reflexivity.
Qed.

Lemma _get_next_message_id_run {D} (t : TBeam.Node D) :
  TBeam._get_next_message_id t =
  TBeam.Ok
    (String.append (TBeam.node_id t)
       (String "_" (pretty (TBeam.message_counter t + 1))))
    (TBeam.mkNode (TBeam.node_id t) (TBeam.message_counter t + 1)
       (TBeam.received_messages t) (TBeam.last_send_time t) (TBeam.led t)
       (TBeam.lora t) (TBeam.rx t) (TBeam.stdout t)).
Proof. reflexivity. Qed.

(** X22: message ids never repeat.  [_get_next_message_id] always
    returns; it adds one to the counter and returns the node id, an
    underscore and the new count in decimal.  Two ids are equal only if
    they come from nodes with the same id at the same count, whatever the
    node ids contain; as the counter only grows, one node never issues an
    id twice. *)
Theorem message_ids_unique {D} (t1 t2 t1' t2' : TBeam.Node D) (id1 id2 : string) :
  TBeam._get_next_message_id t1 = TBeam.Ok id1 t1' ->
  TBeam._get_next_message_id t2 = TBeam.Ok id2 t2' ->
  TBeam.message_counter t1' = TBeam.message_counter t1 + 1
  /\ TBeam.node_id t1' = TBeam.node_id t1
  /\ (id1 = id2 ->
      TBeam.node_id t1 = TBeam.node_id t2
      /\ TBeam.message_counter t1 = TBeam.message_counter t2).
Proof.
  rewrite !_get_next_message_id_run. intros [= <- <-] [= <- <-].
  split; [reflexivity|]. split; [reflexivity|].
  intros He. apply id_split in He; [|apply pretty_Z_no_underscore..].
  destruct He as [Hn Hc]. split; [exact Hn|].
  apply (inj pretty) in Hc. lia.
Qed.

Lemma message_ids_unique_witness :
  exists id1 id2 t1 t2,
    TBeam._get_next_message_id
      (TBeam.mkNode "NODE_1" 1 ([] : list Z) 0 false sample_driver None [])
    = TBeam.Ok id1 t1
    /\ TBeam._get_next_message_id
         (TBeam.mkNode "NODE" 11 ([] : list Z) 0 false sample_driver None [])
       = TBeam.Ok id2 t2
    /\ id1 = "NODE_1_2"%string /\ id2 = "NODE_12"%string
    /\ id1 <> id2.
Proof.
  eexists. eexists. eexists. eexists.
  split; [reflexivity|]. split; [reflexivity|].
  split; [reflexivity|]. split; [reflexivity|].
  intros He.
  destruct (message_ids_unique
              (TBeam.mkNode "NODE_1" 1 ([] : list Z) 0 false sample_driver None [])
              (TBeam.mkNode "NODE" 11 ([] : list Z) 0 false sample_driver None [])
              _ _ _ _ eq_refl eq_refl) as (_ & _ & H).
  destruct (H He) as [Hn _]. discriminate Hn.
Defined.

(** ** Changing a radio parameter *)

Lemma _set_mode_run mode s :
  is_byte (Z.lor Modes.LORA_MASK mode) = true ->
  _set_mode mode s =
  Returned tt (set_hw (store Registers.OP_MODE (Z.lor Modes.LORA_MASK mode) (hw s)) s).
Proof. intros H. unfold _set_mode. rewrite _write_plain by side. reflexivity. Qed.

Lemma mode_same_modem mode s :
  same_modem s (set_hw (store Registers.OP_MODE mode (hw s)) s).
Proof.
  apply (keeps_frame (store Registers.OP_MODE mode)).
  intros c a. apply store_modem. unfold modem_registers. notin.
Qed.

Lemma mode_reg mode s :
  is_byte mode = true ->
  reg (set_hw (store Registers.OP_MODE mode (hw s)) s) Registers.OP_MODE = mode.
Proof. intros H. reg_simpl. reflexivity. Qed.



(** ** Sending a message *)

Lemma end_packet_wait_clock :
  forall fuel start timeout s b s',
    end_packet_wait fuel start timeout s = Returned b s' ->
    clock s <= clock s'.
Proof.
  induction fuel as [|fuel IH]; intros start timeout s b s'; [discriminate|].
  cbn [end_packet_wait]. unfold bind, ticks_ms.
  destruct (ticks_diff (clock s) start <? timeout).
  - rewrite _read_reg by reflexivity.
    destruct (truthy _).
    + rewrite _write_irq by reflexivity. unfold ret.
      intros H. apply returned_state in H. subst s'. apply Z.le_refl.
    + unfold sleep_ms. intros H. apply IH in H.
      cbn [clock set_hw] in H. lia.
  - unfold ret. intros H. apply returned_state in H. subst s'. apply Z.le_refl.
Qed.

Lemma end_packet_returns fuel timeout s :
  (0 < fuel)%nat -> timeout <= 10 * (Z.of_nat fuel - 1) ->
  exists b s',
    end_packet fuel timeout s = Returned b s'
    /\ reg s' Registers.OP_MODE = Z.lor Modes.LORA_MASK Modes.TX
    /\ clock s <= clock s'.
Proof.
  intros Hpos Hfuel.
  set (s1 := set_hw (store Registers.OP_MODE (Z.lor Modes.LORA_MASK Modes.TX)
                       (hw s)) s).
  assert (E1 : _set_mode Modes.TX s = Returned tt s1)
    by (apply _set_mode_run; reflexivity).
  destruct (end_packet_wait_run fuel (clock s1) timeout s1 Hpos)
    as (b & vs & s' & E3 & _ & _ & _ & Hreg); [lia|].
  exists b, s'. split.
  - unfold end_packet, bind. rewrite E1. exact E3.
  - split.
    + rewrite Hreg by reflexivity. apply mode_reg. reflexivity.
    + apply end_packet_wait_clock in E3. exact E3.
Qed.

Lemma send_cases fuel data timeout s :
  let bytes := payload_bytes data in
  ((255 < length bytes)%nat ->
   exists s',
     send fuel data timeout s = Raised PacketTooLarge s'
     /\ reg s' Registers.OP_MODE = Z.lor Modes.LORA_MASK Modes.STDBY
     /\ same_modem s s' /\ clock s' = clock s)
  /\ ((length bytes <= 255)%nat -> (0 < fuel)%nat ->
      timeout <= 10 * (Z.of_nat fuel - 1) ->
      exists b s',
        send fuel data timeout s = Returned b s'
        /\ reg s' Registers.OP_MODE = Z.lor Modes.LORA_MASK Modes.TX
        /\ same_modem s s' /\ clock s <= clock s').
Proof.
  intros bytes.
  destruct (begin_packet_mode s) as (s1 & E1 & Hh & Hm & _ & _).
  pose proof Hh as (_ & Hlen & _ & _). cbn [length] in Hlen.
  pose proof (keeps_begin_packet s) as K1. rewrite E1 in K1.
  assert (Hclk1 : clock s1 = clock s).
  { pose proof E1 as E. rewrite begin_packet_run in E.
    apply returned_state in E. rewrite E. reflexivity. }
  split.
  - intros Hn.
    destruct (write_packet_rejected data s1) as (s' & E2 & _);
      [fold bytes; rewrite Hlen; lia|].
    pose proof (keeps_write_packet data s1) as K2. rewrite E2 in K2.
    destruct (write_packet_mode data s1 _ s' E2 eq_refl) as [_ Hk].
    assert (Hclk2 : clock s' = clock s1).
    { pose proof E2 as E. rewrite write_packet_run in E. cbv zeta in E.
      destruct (Config.MAX_PKT_LENGTH <? _); [|discriminate].
      injection E as E. rewrite <- E. reflexivity. }
    exists s'. split.
    + unfold send, bind. rewrite E1, E2. reflexivity.
    + split; [rewrite Hk; exact Hm|].
      split; [eapply same_modem_trans; eassumption | congruence].
  - intros Hn Hpos Hfuel.
    destruct (write_packet_accepted data s1) as (s2 & E2 & _);
      [fold bytes; rewrite Hlen; lia|].
    pose proof (keeps_write_packet data s1) as K2. rewrite E2 in K2.
    assert (Hclk2 : clock s2 = clock s1).
    { pose proof E2 as E. rewrite write_packet_run in E. cbv zeta in E.
      destruct (Config.MAX_PKT_LENGTH <? _); [discriminate|].
      apply returned_state in E. rewrite E. reflexivity. }
    destruct (end_packet_returns fuel timeout s2 Hpos Hfuel)
      as (b & s' & E3 & Hmode & Hclk3).
    pose proof (keeps_end_packet fuel timeout s2) as K3. rewrite E3 in K3.
    exists b, s'. split.
    + unfold send, bind. rewrite E1, E2. exact E3.
    + split; [exact Hmode|].
      split; [|lia].
      eapply same_modem_trans; [|exact K3].
      eapply same_modem_trans; eassumption.
Qed.

Ltac tproj :=
  cbn [TBeam.node_id TBeam.message_counter TBeam.received_messages
       TBeam.last_send_time TBeam.led TBeam.lora TBeam.rx TBeam.stdout
       TBeam.with_lora TBeam.say TBeam.led_value TBeam.set_received
       TBeam.set_last_send_time TBeam.set_message_counter TBeam.set_rx
       TBeam.tret].

Tactic Notation "tproj" "in" hyp(H) :=
  cbn [TBeam.node_id TBeam.message_counter TBeam.received_messages
       TBeam.last_send_time TBeam.led TBeam.lora TBeam.rx TBeam.stdout
       TBeam.with_lora TBeam.say TBeam.led_value TBeam.set_received
       TBeam.set_last_send_time TBeam.set_message_counter TBeam.set_rx
       TBeam.tret] in H.

Lemma blink_loop_run {D} (n : nat) (delay : Z) :
  forall t : TBeam.Node D,
    exists t',
      TBeam.blink_loop n delay t = TBeam.Ok tt t'
      /\ TBeam.led t' = (match n with O => TBeam.led t | S _ => false end)
      /\ clock (TBeam.lora t') = clock (TBeam.lora t) + 2 * Z.of_nat n * delay
      /\ hw (TBeam.lora t') = hw (TBeam.lora t)
      /\ _config (TBeam.lora t') = _config (TBeam.lora t)
      /\ TBeam.message_counter t' = TBeam.message_counter t
      /\ TBeam.last_send_time t' = TBeam.last_send_time t
      /\ TBeam.received_messages t' = TBeam.received_messages t
      /\ TBeam.stdout t' = TBeam.stdout t.
Proof.
  induction n as [|n IH]; intros t.
  - exists t. split; [reflexivity|]. split; [reflexivity|].
    split; [cbn [Z.of_nat]; lia|]. repeat split.
  - cbn [TBeam.blink_loop]. unfold TBeam.tbind at 1 2 3 4.
    cbn [TBeam.led_value TBeam.lift TBeam.lora TBeam.with_lora sleep_ms].
    match goal with
    | |- context [TBeam.blink_loop n delay ?t1] =>
        destruct (IH t1) as (t' & E & Hled & Hclk & Hhw & Hcfg & Hc & Hl & Hr & Ho)
    end.
    cbn [TBeam.led TBeam.lora TBeam.with_lora TBeam.message_counter
         TBeam.last_send_time TBeam.received_messages TBeam.stdout
         clock hw _config] in Hled, Hclk, Hhw, Hcfg, Hc, Hl, Hr, Ho.
    exists t'. split; [exact E|].
    split; [destruct n; assumption|].
    split; [rewrite Nat2Z.inj_succ; lia|]. repeat split; assumption.
Qed.

Lemma send_tail {D} (fuel : nat) (message_str : string) (blink : bool)
    (t : TBeam.Node D) :
  let tail :=
    TBeam.tbind (TBeam.lift ticks_ms) (fun now =>
    TBeam.tbind (TBeam.set_last_send_time now) (fun _ =>
    TBeam.tbind (TBeam.say (TBeam.Sending message_str)) (fun _ =>
    TBeam.tbind (TBeam.lift (send fuel (PyStr message_str) 5000)) (fun result =>
    TBeam.tbind (if blink && result then TBeam._blink_led 2 100 else TBeam.tret tt)
      (fun _ =>
    TBeam.tbind (TBeam.lift recv) (fun _ => TBeam.tret result)))))) in
  ((255 < length (encode message_str))%nat ->
   exists t',
     tail t = TBeam.Err (TBeam.Driver PacketTooLarge) t'
     /\ reg (TBeam.lora t') Registers.OP_MODE = Z.lor Modes.LORA_MASK Modes.STDBY
     /\ TBeam.message_counter t' = TBeam.message_counter t
     /\ TBeam.last_send_time t' = clock (TBeam.lora t)
     /\ TBeam.stdout t' = TBeam.stdout t ++ [TBeam.Sending message_str]
     /\ TBeam.led t' = TBeam.led t
     /\ same_modem (TBeam.lora t) (TBeam.lora t'))
  /\ ((length (encode message_str) <= 255)%nat -> (500 < fuel)%nat ->
      exists result t',
        tail t = TBeam.Ok result t'
        /\ reg (TBeam.lora t') Registers.OP_MODE
           = Z.lor Modes.LORA_MASK Modes.RX_CONTINUOUS
        /\ TBeam.message_counter t' = TBeam.message_counter t
        /\ TBeam.last_send_time t' = clock (TBeam.lora t)
        /\ TBeam.stdout t' = TBeam.stdout t ++ [TBeam.Sending message_str]
        /\ TBeam.led t' = (if blink && result then false else TBeam.led t)
        /\ same_modem (TBeam.lora t) (TBeam.lora t')
        /\ TBeam.received_messages t' = TBeam.received_messages t).
Proof.
  cbv zeta.
  destruct (send_cases fuel (PyStr message_str) 5000 (TBeam.lora t))
    as [Hlong Hfits].
  cbn [payload_bytes] in Hlong, Hfits.
  split.
  - intros Hn. destruct (Hlong Hn) as (s' & E & Hm & Hk & _).
    unfold TBeam.tbind at 1 2 3 4.
    cbn [TBeam.lift ticks_ms]. tproj. unfold TBeam.lift at 1. tproj.
    rewrite E. eexists. split; [reflexivity|]. tproj.
    split; [exact Hm|]. repeat split; try reflexivity; apply Hk.
  - intros Hn Hfuel.
    destruct (Hfits Hn ltac:(lia) ltac:(lia)) as (b & s' & E & _ & Hk & _).
    unfold TBeam.tbind at 1 2 3 4.
    cbn [TBeam.lift ticks_ms]. tproj. unfold TBeam.lift at 1. tproj.
    rewrite E. tproj.
    destruct (blink && b) eqn:Hb.
    + unfold TBeam.tbind at 1. unfold TBeam._blink_led.
      match goal with
      | |- context [TBeam.blink_loop ?n 100 ?t1] =>
          destruct (blink_loop_run n 100 t1)
            as (t2 & E2 & Hled & _ & Hhw & Hcfg & Hc & Hl & Hr & Ho)
      end.
      rewrite E2.
      change (Z.to_nat 2) with 2%nat in Hled. cbv iota in Hled.
      tproj in Hled. tproj in Hhw. tproj in Hcfg. tproj in Hc. tproj in Hl.
      tproj in Hr. tproj in Ho.
      unfold TBeam.tbind, TBeam.lift, recv.
      rewrite _set_mode_run by reflexivity.
      exists b. eexists. split; [reflexivity|]. tproj.
      split; [apply mode_reg; reflexivity|].
      split; [exact Hc|]. split; [exact Hl|]. split; [exact Ho|].
      split; [rewrite Hb; exact Hled|]. split; [|exact Hr].
      eapply same_modem_trans; [exact Hk|].
      eapply same_modem_trans; [|apply mode_same_modem].
      split; [exact Hcfg|]. intros a _. unfold reg. rewrite Hhw. reflexivity.
    + unfold TBeam.tbind, TBeam.lift, recv. tproj.
      rewrite _set_mode_run by reflexivity.
      exists b. eexists. split; [reflexivity|]. tproj.
      split; [apply mode_reg; reflexivity|]. rewrite Hb.
      repeat split; try reflexivity;
        apply (same_modem_trans _ s'); try exact Hk; apply mode_same_modem.
Qed.

(** X24: what [send_message] does with a message.  A string is sent as
    it is.  A dictionary gets the node id under "src" and a new message
    id under "id" where these keys are missing, which advances the counter
    only in the second case, and is sent as JSON.  The send time and the
    printed line are recorded before the radio is used.  A text longer
    than 255 bytes makes the driver raise and the exception leaves
    [send_message]: the radio is then in standby, not in receive mode.
    Otherwise (with the loop of [lora.send] given its 5000 ms) the call
    returns the driver's result with the radio back in continuous
    receive, the LED off after a confirmed send with [blink], and in
    either case no parameter of the radio changed. *)
Theorem send_message_outcome {D} `{TBeam.Dict D} (fuel : nat)
    (msg : TBeam.message D) (blink : bool) (t : TBeam.Node D) :
  exists (message_str : string) (counter : Z),
    match msg with
    | TBeam.MStr s => message_str = s /\ counter = TBeam.message_counter t
    | TBeam.MDict d =>
        let d1 := if TBeam.contains "src" d then d
                  else TBeam.setitem "src" (TBeam.node_id t) d in
        if TBeam.contains "id" d1 then
          message_str = TBeam.dumps d1 /\ counter = TBeam.message_counter t
        else
          message_str =
            TBeam.dumps
              (TBeam.setitem "id"
                 (String.append (TBeam.node_id t)
                    (String "_" (pretty (TBeam.message_counter t + 1)))) d1)
          /\ counter = TBeam.message_counter t + 1
    end
    /\ ((255 < length (encode message_str))%nat ->
        exists t',
          TBeam.send_message fuel msg blink t
          = TBeam.Err (TBeam.Driver PacketTooLarge) t'
          /\ reg (TBeam.lora t') Registers.OP_MODE
             = Z.lor Modes.LORA_MASK Modes.STDBY
          /\ TBeam.message_counter t' = counter
          /\ TBeam.last_send_time t' = clock (TBeam.lora t)
          /\ TBeam.stdout t' = TBeam.stdout t ++ [TBeam.Sending message_str]
          /\ TBeam.led t' = TBeam.led t
          /\ same_modem (TBeam.lora t) (TBeam.lora t'))
    /\ ((length (encode message_str) <= 255)%nat -> (500 < fuel)%nat ->
        exists result t',
          TBeam.send_message fuel msg blink t = TBeam.Ok result t'
          /\ reg (TBeam.lora t') Registers.OP_MODE
             = Z.lor Modes.LORA_MASK Modes.RX_CONTINUOUS
          /\ TBeam.message_counter t' = counter
          /\ TBeam.last_send_time t' = clock (TBeam.lora t)
          /\ TBeam.stdout t' = TBeam.stdout t ++ [TBeam.Sending message_str]
          /\ TBeam.led t' = (if blink && result then false else TBeam.led t)
          /\ same_modem (TBeam.lora t) (TBeam.lora t')
          /\ TBeam.received_messages t' = TBeam.received_messages t).
Proof.
  assert (Hprep : exists message_str t0,
            TBeam.send_message fuel msg blink t =
              TBeam.tbind (TBeam.lift ticks_ms) (fun now =>
              TBeam.tbind (TBeam.set_last_send_time now) (fun _ =>
              TBeam.tbind (TBeam.say (TBeam.Sending message_str)) (fun _ =>
              TBeam.tbind (TBeam.lift (send fuel (PyStr message_str) 5000))
                (fun result =>
              TBeam.tbind (if blink && result then TBeam._blink_led 2 100
                           else TBeam.tret tt) (fun _ =>
              TBeam.tbind (TBeam.lift recv) (fun _ => TBeam.tret result))))))
              t0
            /\ TBeam.lora t0 = TBeam.lora t /\ TBeam.stdout t0 = TBeam.stdout t
            /\ TBeam.led t0 = TBeam.led t
            /\ TBeam.received_messages t0 = TBeam.received_messages t
            /\ match msg with
               | TBeam.MStr s =>
                   message_str = s
                   /\ TBeam.message_counter t0 = TBeam.message_counter t
               | TBeam.MDict d =>
                   let d1 := if TBeam.contains "src" d then d
                             else TBeam.setitem "src" (TBeam.node_id t) d in
                   if TBeam.contains "id" d1 then
                     message_str = TBeam.dumps d1
                     /\ TBeam.message_counter t0 = TBeam.message_counter t
                   else
                     message_str =
                       TBeam.dumps
                         (TBeam.setitem "id"
                            (String.append (TBeam.node_id t)
                               (String "_" (pretty (TBeam.message_counter t + 1))))
                            d1)
                     /\ TBeam.message_counter t0 = TBeam.message_counter t + 1
               end).
  { unfold TBeam.send_message. destruct msg as [d|s].
    - cbv zeta.
      destruct (TBeam.contains "src" d) eqn:Hsrc;
        cbv beta iota delta [TBeam.tbind TBeam.tret TBeam.get_node_id
                             TBeam._get_next_message_id
                             TBeam.get_message_counter
                             TBeam.set_message_counter];
        cbn [TBeam.node_id TBeam.message_counter];
        match goal with
        | |- context [TBeam.contains "id" ?x] =>
            destruct (TBeam.contains "id" x) eqn:Hid
        end;
        (eexists; eexists; split; [reflexivity|]; repeat split).
    - exists s, t. split; [reflexivity|]. repeat split. }
  destruct Hprep as (message_str & t0 & E & Hlora & Hout & Hled & Hrecv & Hmsg).
  destruct (send_tail fuel message_str blink t0) as [Hlong Hfits].
  cbv zeta in Hlong, Hfits. rewrite <- E in Hlong, Hfits.
  rewrite Hlora, Hout, Hled in Hlong. rewrite Hlora, Hout, Hled, Hrecv in Hfits.
  exists message_str, (TBeam.message_counter t0).
  split; [|split; [exact Hlong | exact Hfits]].
  destruct msg as [d|s]; [|exact Hmsg].
  cbv zeta in Hmsg |- *.
  destruct (TBeam.contains "id" _); exact Hmsg.
Qed.

Lemma send_message_outcome_witness :
  let json : TBeam.Dict unit :=
    {| TBeam.contains := fun _ _ => true;
       TBeam.setitem := fun _ _ d => d;
       TBeam.dumps := fun _ => "{}"%string |} in
  let long := string_of_list_ascii (repeat "x"%char 256) in
  let node := TBeam.mkNode "N" 0 ([] : list unit) 0 false sample_driver None [] in
  exists t',
    TBeam.send_message 1 (TBeam.MStr long) true node
    = TBeam.Err (TBeam.Driver PacketTooLarge) t'
    /\ reg (TBeam.lora t') Registers.OP_MODE = 0x81
    /\ TBeam.stdout t' = [TBeam.Sending long].
Proof.
  intros json long node.
  destruct (@send_message_outcome unit json 1 (TBeam.MStr long) true node)
    as (message_str & counter & [Hs _] & Hlong & _).
  subst message_str.
  destruct Hlong as (t' & E & Hm & _ & _ & Ho & _); [vm_compute; lia|].
  exists t'. split; [exact E|]. split; [exact Hm | exact Ho].
Defined.

(** ** Bringing the radio up *)


(** * Part V: the factory function *)

(** X26: [create_lora] takes pin number 0 for no pin.  It never fails
    for want of a [cs] pin, and with parameters every setter accepts it
    returns the object.  With [rx_pin] 0, as with [None], the object has no
    [rx] pin: [on_recv] then stores the callback but maps and arms
    nothing, so no interrupt will deliver a packet.  With any other pin
    number the pin is there and [on_recv] arms it. *)
Theorem create_lora_rx_pin (chip : Chip) (now : Z) (rx_pin : option Z) (kw : Kwargs) :
  constructible (_init_config kw) ->
  exists rx s,
    create_lora chip now rx_pin kw = Returned rx s
    /\ agrees s
    /\ (rx_pin = None \/ rx_pin = Some 0 ->
        rx = None
        /\ exists s',
             on_recv rx true s = Returned None s'
             /\ hw s' = hw s /\ _on_recv s' = true
             /\ rising_edge None s' = Returned tt s')
    /\ (forall n, rx_pin = Some n -> n <> 0 ->
        exists s',
          on_recv rx true s
          = Returned (Some {| irq_handler := true; irq_rising := true |}) s'
          /\ reg s' Registers.DIO_MAPPING_1 = 0
          /\ _on_recv s' = true).
Proof.
  intros Hok. unfold create_lora. cbv zeta.
  match goal with
  | |- context [__init__ chip now ?k] =>
      destruct (init_ok chip now k eq_refl Hok) as (s & E & Hag & _)
  end.
  rewrite E. eexists. exists s. split; [reflexivity|]. split; [exact Hag|].
  split.
  - intros [-> | ->].
    + split; [reflexivity|]. eexists. split; [reflexivity|]. repeat split.
    + split; [reflexivity|]. eexists. split; [reflexivity|]. repeat split.
  - intros n -> Hn.
    replace (truthy n) with true
      by (symmetry; unfold truthy; apply negb_true_iff, Z.eqb_neq, Hn).
    unfold on_recv, set_on_recv, bind. rewrite _write_plain by reflexivity.
    eexists. split; [reflexivity|]. split; [reg_simpl; reflexivity | reflexivity].
Qed.

Lemma create_lora_rx_pin_witness :
  exists s s',
    create_lora idle_chip 0 (Some 0) default_kwargs = Returned None s
    /\ on_recv None true s = Returned None s'
    /\ bus_log (hw s') = bus_log (hw s).
Proof.
  destruct (create_lora_rx_pin idle_chip 0 (Some 0) default_kwargs)
    as (rx & s & E & _ & Hzero & _).
  - unfold constructible. simpl. lia.
  - destruct Hzero as (-> & s' & E' & Hhw & _); [right; reflexivity|].
    exists s, s'. split; [exact E|]. split; [exact E'|]. rewrite Hhw. reflexivity.
Defined.
